(** * google-ads-mcp: the tool handlers and the dispatcher, embedded in Rocq

    The server is a thin layer between a tool-call protocol and the Google
    Ads client: a handler takes validated arguments, builds a GAQL query
    string or a mutation payload, awaits the client, and reshapes the rows.

    The embedding follows the TypeScript sources:
    - a JavaScript [number] is a binary64 float, here the primitive [float];
    - an object literal is an association list in insertion order;
    - an [async] function is a program of type [Prog]: it returns, throws, or
      awaits a call of the external client and continues with the answer;
    - [try]/[catch] is [try_catch]; [throw new Error(m)] is [Throw (ErrorObj m)];
    - an optional zod field is an [option]. *)

From Stdlib Require Import String Ascii List ZArith Bool Floats Lia.
Import ListNotations.

Local Open Scope list_scope.
Local Open Scope string_scope.
Set Warnings "-register-all,-inexact-float".

(* ================================================================== *)
(** ** JavaScript values *)

Module Js.

Inductive JsVal : Type :=
| VUndefined
| VNull
| VBool (b : bool)
| VNum (x : float)
| VStr (s : string)
| VArr (items : list JsVal)
| VObj (fields : list (string * JsVal)).

(** An object literal [{ k1: v1, k2: v2 }]: own keys in insertion order. *)
Definition Obj := list (string * JsVal).

Fixpoint get (o : Obj) (k : string) : JsVal :=
  match o with
  | [] => VUndefined
  | (k', v) :: o' => if String.eqb k' k then v else get o' k
  end.

(** [o.k = v]: overwrite in place when the key exists, append otherwise. *)
Fixpoint set (o : Obj) (k : string) (v : JsVal) : Obj :=
  match o with
  | [] => [(k, v)]
  | (k', v') :: o' =>
      if String.eqb k' k then (k', v) :: o' else (k', v') :: set o' k v
  end.

(** [Object.keys(o)]. *)
Definition keys (o : Obj) : list string := map fst o.

(** [{ ...a, ...b }] and [{ k: v, ...b }]: later keys overwrite. *)
Definition spread (a b : Obj) : Obj :=
  fold_left (fun acc kv => set acc (fst kv) (snd kv)) b a.

(** Numbers. [0], [-0] and [NaN] are the falsy ones. *)
Definition num_truthy (x : float) : bool :=
  negb (PrimFloat.is_zero x || PrimFloat.is_nan x).

Definition str_truthy (s : string) : bool :=
  match s with EmptyString => false | String _ _ => true end.

Definition truthy (v : JsVal) : bool :=
  match v with
  | VUndefined | VNull => false
  | VBool b => b
  | VNum x => num_truthy x
  | VStr s => str_truthy s
  | VArr _ | VObj _ => true
  end.

(** [x || 0] on an optional number. *)
Definition num_or_zero (x : option float) : float :=
  match x with
  | Some v => if num_truthy v then v else 0%float
  | None => 0%float
  end.

(** [n] as a number, for [array.length]. *)
Definition of_nat (n : nat) : float :=
  PrimFloat.of_uint63 (Uint63.of_Z (Z.of_nat n)).

(** [String.prototype.includes]. *)
Fixpoint includes (s sub : string) : bool :=
  String.prefix sub s ||
  match s with
  | EmptyString => false
  | String _ s' => includes s' sub
  end.

(** What a handler can throw or a client call can reject with: an
    [McpError], another instance of [Error] (zod's [ZodError] and
    [TypeError] included), [null], [undefined], or any other value, of
    which only the [message] property, when it has one, is ever read. *)
Inductive ErrorCode := MethodNotFound | InternalError.

Inductive Thrown :=
| McpError (code : ErrorCode) (message : string)   (* new McpError(code, message) *)
| ErrorObj (message : string)
| OtherObj (message : option string)
| ThrownNull
| ThrownUndefined.

(** The [TypeError] of reading property [k] of [null] or [undefined]. *)
Definition type_error (what k : string) : Thrown :=
  ErrorObj ("Cannot read properties of " ++ what ++ " (reading '" ++ k ++ "')").

(** [ErrorCode.MethodNotFound] and [ErrorCode.InternalError], as numbered
    by the protocol. *)
Definition code_number (c : ErrorCode) : string :=
  match c with
  | MethodNotFound => "-32601"
  | InternalError => "-32603"
  end.

(** [`${error.message}`] inside a template literal. The constructor of
    [McpError] hands [`MCP error ${code}: ${message}`] to [Error]; a value
    without the property reads [undefined]; reading the property of
    [null] or [undefined] throws. *)
Definition error_message (e : Thrown) : Thrown + string :=
  match e with
  | McpError c m => inr ("MCP error " ++ code_number c ++ ": " ++ m)
  | ErrorObj m => inr m
  | OtherObj (Some m) => inr m
  | OtherObj None => inr "undefined"
  | ThrownNull => inl (type_error "null" "message")
  | ThrownUndefined => inl (type_error "undefined" "message")
  end.

(** A value of the API declared [string | number | undefined] that the
    sources also test against [null]. *)
Inductive Micros :=
| MicrosUndefined
| MicrosNull
| MicrosNumber (x : float)
| MicrosString (s : string).

End Js.
Export Js.

(* ================================================================== *)
(** ** The external client and asynchronous programs *)

Module Client.

(** Rows of a query, with the fields the modelled handlers read. Fields
    that are only passed through are [JsVal]; fields that enter
    arithmetic have the types the client library declares. *)
Record CampaignRow := {
  c_id : JsVal;
  c_name : JsVal;
  c_status : JsVal;
  c_advertising_channel_type : JsVal;
  c_bidding_strategy_type : JsVal }.

Record BudgetRow := {
  b_amount_micros : Micros;
  b_resource_name : JsVal }.

Record AdGroupRow := {
  g_id : JsVal;
  g_name : JsVal;
  g_status : JsVal;
  g_campaign : JsVal;
  g_cpc_bid_micros : JsVal;
  g_cpm_bid_micros : JsVal;
  g_target_cpa_micros : JsVal;
  g_target_roas : JsVal;
  g_effective_target_cpa_micros : JsVal;
  g_effective_target_roas : JsVal }.

Record MetricsRow := {
  m_clicks : option float;
  m_impressions : option float;
  m_cost_micros : Micros;
  m_conversions : option float;
  m_conversions_value : Micros;
  m_ctr : option float;
  m_conversion_rate : option float;
  m_search_impression_share : option float;
  m_search_rank_lost_impression_share : option float;
  m_search_budget_lost_impression_share : option float }.

Record Row := {
  campaign : option CampaignRow;
  campaign_budget : option BudgetRow;
  ad_group : option AdGroupRow;
  metrics : option MetricsRow }.

(** The resource services of the client that the handlers use. *)
Inductive Resource :=
| campaignBudgets | campaigns | adGroupCriteria | campaignCriteria.

Inductive Request :=
| Create (r : Resource) (arg : JsVal)       (* customer.r.create(arg) *)
| Update (r : Resource) (arg : JsVal)       (* customer.r.update(arg) *)
| MutateAdGroups (request : Obj).           (* adGroupService.mutateAdGroups *)

Inductive ExternalCall :=
| CallQuery (gaql : string)
| CallMutate (r : Request).

(** An [async] function body. An awaited client call either resolves
    (right) or rejects (left); the continuation decides what a
    rejection does, so that [try]/[catch] can intercept it. *)
Inductive Prog (A : Type) : Type :=
| Ret (a : A)
| Throw (e : Thrown)
| Query (gaql : string) (k : Thrown + list Row -> Prog A)
| Mutate (r : Request) (k : Thrown + JsVal -> Prog A).

Arguments Ret {A} a.
Arguments Throw {A} e.
Arguments Query {A} gaql k.
Arguments Mutate {A} r k.

Fixpoint bind {A B} (p : Prog A) (f : A -> Prog B) : Prog B :=
  match p with
  | Ret a => f a
  | Throw e => Throw e
  | Query q k => Query q (fun r => bind (k r) f)
  | Mutate m k => Mutate m (fun r => bind (k r) f)
  end.

Fixpoint try_catch {A} (p : Prog A) (h : Thrown -> Prog A) : Prog A :=
  match p with
  | Ret a => Ret a
  | Throw e => h e
  | Query q k => Query q (fun r => try_catch (k r) h)
  | Mutate m k => Mutate m (fun r => try_catch (k r) h)
  end.

Definition settle {A} (r : Thrown + A) : Prog A :=
  match r with inl e => Throw e | inr a => Ret a end.

(** [await customer.query(q)] and [await customer.<service>...]. *)
Definition query (q : string) : Prog (list Row) := Query q settle.
Definition mutate (m : Request) : Prog JsVal := Mutate m settle.

(** The external client as a black box: what it answers may depend on
    the calls made before. *)
Record ClientBehaviour := {
  on_query : list ExternalCall -> string -> Thrown + list Row;
  on_mutate : list ExternalCall -> Request -> Thrown + JsVal }.

(** Running a program against a client: the calls made, in order, and
    how the program settles. *)
Fixpoint run_from {A} (cl : ClientBehaviour) (done : list ExternalCall)
    (p : Prog A) : list ExternalCall * (Thrown + A) :=
  match p with
  | Ret a => (done, inr a)
  | Throw e => (done, inl e)
  | Query q k =>
      run_from cl (done ++ [CallQuery q])%list (k (on_query cl done q))
  | Mutate m k =>
      run_from cl (done ++ [CallMutate m])%list (k (on_mutate cl done m))
  end.

Definition run {A} (cl : ClientBehaviour) (p : Prog A) :=
  run_from cl [] p.

Definition calls {A} (cl : ClientBehaviour) (p : Prog A) : list ExternalCall :=
  fst (run cl p).

Definition outcome {A} (cl : ClientBehaviour) (p : Prog A) : Thrown + A :=
  snd (run cl p).

End Client.
Export Client.

Declare Scope prog_scope.
Delimit Scope prog_scope with prog.
Notation "x <- p ;; q" := (bind p (fun x => q))
  (at level 61, p at next level, right associativity) : prog_scope.
Notation "p ;; q" := (bind p (fun _ => q))
  (at level 61, right associativity) : prog_scope.
Local Open Scope prog_scope.

(* ================================================================== *)
(** ** Argument schemas (zod) *)

Module Zod.

Inductive PathSeg := Key (k : string) | Index (i : nat).

Inductive IssueCode := invalid_type | invalid_enum_value.

Record Issue := { path : list PathSeg; code : IssueCode }.

(** [schema.parse(v)] collects the issues of every field before it throws. *)
Inductive Parsed (A : Type) : Type :=
| Valid (a : A)
| Invalid (issues : list Issue).

Arguments Valid {A} a.
Arguments Invalid {A} issues.

Definition pmap {A B} (f : A -> B) (x : Parsed A) : Parsed B :=
  match x with
  | Valid a => Valid (f a)
  | Invalid i => Invalid i
  end.

Definition ap {A B} (f : Parsed (A -> B)) (x : Parsed A) : Parsed B :=
  match f, x with
  | Valid g, Valid a => Valid (g a)
  | Valid _, Invalid i => Invalid i
  | Invalid i, Valid _ => Invalid i
  | Invalid i, Invalid j => Invalid (i ++ j)%list
  end.

(** A schema reads the value found at a path. *)
Definition Schema (A : Type) := list PathSeg -> JsVal -> Parsed A.

Definition z_string : Schema string := fun p v =>
  match v with
  | VStr s => Valid s
  | _ => Invalid [ {| path := p; code := invalid_type |} ]
  end.

(** [z.number()] refuses [NaN]. *)
Definition z_number : Schema float := fun p v =>
  match v with
  | VNum x =>
      if PrimFloat.is_nan x
      then Invalid [ {| path := p; code := invalid_type |} ]
      else Valid x
  | _ => Invalid [ {| path := p; code := invalid_type |} ]
  end.

Definition z_boolean : Schema bool := fun p v =>
  match v with
  | VBool b => Valid b
  | _ => Invalid [ {| path := p; code := invalid_type |} ]
  end.

Definition z_enum (options : list string) : Schema string := fun p v =>
  match v with
  | VStr s =>
      if existsb (String.eqb s) options then Valid s
      else Invalid [ {| path := p; code := invalid_enum_value |} ]
  | _ => Invalid [ {| path := p; code := invalid_type |} ]
  end.

(** [.optional()]: [undefined] (an absent key included) is accepted. *)
Definition optional {A} (s : Schema A) : Schema (option A) := fun p v =>
  match v with
  | VUndefined => Valid None
  | _ => pmap Some (s p v)
  end.

(** [.optional().default(d)]. *)
Definition with_default {A} (s : Schema A) (d : A) : Schema A := fun p v =>
  match v with
  | VUndefined => Valid d
  | _ => s p v
  end.

Fixpoint z_items {A} (s : Schema A) (p : list PathSeg) (i : nat)
    (items : list JsVal) : Parsed (list A) :=
  match items with
  | [] => Valid []
  | v :: rest =>
      ap (pmap cons (s (p ++ [Index i])%list v)) (z_items s p (S i) rest)
  end.

Definition z_array {A} (s : Schema A) : Schema (list A) := fun p v =>
  match v with
  | VArr items => z_items s p 0 items
  | _ => Invalid [ {| path := p; code := invalid_type |} ]
  end.

(** [z.object({...})]: the fields of an object, unknown keys dropped. *)
Definition z_object {A} (fields : list PathSeg -> Obj -> Parsed A) : Schema A :=
  fun p v =>
  match v with
  | VObj o => fields p o
  | _ => Invalid [ {| path := p; code := invalid_type |} ]
  end.

Definition field {A} (s : Schema A) (k : string) (p : list PathSeg) (o : Obj)
  : Parsed A :=
  s (p ++ [Key k])%list (get o k).

(** [schema.parse(args)] at the root. *)
Definition parse {A} (s : Schema A) (args : JsVal) : Parsed A := s [] args.

End Zod.
Export Zod.

Notation "f <*> x" := (ap f x) (at level 50, left associativity).

(* ------------------------------------------------------------------ *)
(** *** The schemas of the tools *)

Definition tri_status := ["ENABLED"; "PAUSED"; "REMOVED"].
Definition match_types := ["EXACT"; "PHRASE"; "BROAD"].

Record CustomDateRange := { startDate : string; endDate : string }.

Definition customDateRangeSchema : Schema CustomDateRange :=
  z_object (fun p o =>
    Valid Build_CustomDateRange
      <*> field z_string "startDate" p o
      <*> field z_string "endDate" p o).

(** campaigns.ts *)
Record ListCampaignsArgs := {
  lc_limit : float;
  lc_includeRemoved : bool;
  lc_dateRange : string;
  lc_customDateRange : option CustomDateRange }.

Definition listCampaignsSchema : Schema ListCampaignsArgs :=
  z_object (fun p o =>
    Valid Build_ListCampaignsArgs
      <*> field (with_default z_number 50%float) "limit" p o
      <*> field (with_default z_boolean false) "includeRemoved" p o
      <*> field (with_default
                   (z_enum ["TODAY"; "YESTERDAY"; "LAST_7_DAYS"; "LAST_14_DAYS";
                            "LAST_30_DAYS"; "THIS_MONTH"; "LAST_MONTH";
                            "THIS_QUARTER"; "LAST_QUARTER"; "THIS_YEAR";
                            "LAST_YEAR"; "ALL_TIME"; "CUSTOM"])
                   "ALL_TIME") "dateRange" p o
      <*> field (optional customDateRangeSchema) "customDateRange" p o).

Record CreateCampaignArgs := {
  cc_name : string;
  cc_budget : float;
  cc_advertisingChannelType : string;
  cc_status : string }.

Definition createCampaignSchema : Schema CreateCampaignArgs :=
  z_object (fun p o =>
    Valid Build_CreateCampaignArgs
      <*> field z_string "name" p o
      <*> field z_number "budget" p o
      <*> field (z_enum ["SEARCH"; "DISPLAY"; "SHOPPING"; "VIDEO"; "MULTI_CHANNEL"])
                "advertisingChannelType" p o
      <*> field (with_default (z_enum ["ENABLED"; "PAUSED"]) "PAUSED") "status" p o).

Record UpdateCampaignArgs := {
  uc_campaignId : string;
  uc_name : option string;
  uc_status : option string;
  uc_budget : option float }.

Definition updateCampaignSchema : Schema UpdateCampaignArgs :=
  z_object (fun p o =>
    Valid Build_UpdateCampaignArgs
      <*> field z_string "campaignId" p o
      <*> field (optional z_string) "name" p o
      <*> field (optional (z_enum tri_status)) "status" p o
      <*> field (optional z_number) "budget" p o).

(** keywords.ts *)
Record KeywordSpec := {
  kw_text : string;
  kw_matchType : string;
  kw_cpcBidMicros : option float }.

Record AddKeywordsArgs := {
  ak_adGroupId : string;
  ak_keywords : list KeywordSpec }.

Definition addKeywordsSchema : Schema AddKeywordsArgs :=
  z_object (fun p o =>
    Valid Build_AddKeywordsArgs
      <*> field z_string "adGroupId" p o
      <*> field (z_array (z_object (fun p o =>
                   Valid Build_KeywordSpec
                     <*> field z_string "text" p o
                     <*> field (z_enum match_types) "matchType" p o
                     <*> field (optional z_number) "cpcBidMicros" p o)))
                "keywords" p o).

Record NegativeKeywordSpec := { nk_text : string; nk_matchType : string }.

Record AddNegativeKeywordsArgs := {
  an_campaignId : option string;
  an_adGroupId : option string;
  an_keywords : list NegativeKeywordSpec }.
Definition addNegativeKeywordsSchema : Schema AddNegativeKeywordsArgs :=
  z_object (fun p o =>
    Valid Build_AddNegativeKeywordsArgs
      <*> field (optional z_string) "campaignId" p o
      <*> field (optional z_string) "adGroupId" p o
      <*> field (z_array (z_object (fun p o =>
                   Valid Build_NegativeKeywordSpec
                     <*> field z_string "text" p o
                     <*> field (z_enum match_types) "matchType" p o)))
                "keywords" p o).

Record UpdateKeywordArgs := {
  uk_keywordId : string;
  uk_adGroupId : string;
  uk_status : option string;
  uk_cpcBidMicros : option float }.

Definition updateKeywordSchema : Schema UpdateKeywordArgs :=
  z_object (fun p o =>
    Valid Build_UpdateKeywordArgs
      <*> field z_string "keywordId" p o
      <*> field z_string "adGroupId" p o
      <*> field (optional (z_enum tri_status)) "status" p o
      <*> field (optional z_number) "cpcBidMicros" p o).

(** performance.ts *)
Record GetSearchTermsReportArgs := {
  st_campaignId : option string;
  st_adGroupId : option string;
  st_dateRange : string;
  st_customDateRange : option CustomDateRange;
  st_limit : float;
  st_minImpressions : float }.

Definition getSearchTermsReportSchema : Schema GetSearchTermsReportArgs :=
  z_object (fun p o =>
    Valid Build_GetSearchTermsReportArgs
      <*> field (optional z_string) "campaignId" p o
      <*> field (optional z_string) "adGroupId" p o
      <*> field (with_default
                   (z_enum ["TODAY"; "YESTERDAY"; "LAST_7_DAYS"; "LAST_30_DAYS";
                            "THIS_MONTH"; "LAST_MONTH"; "CUSTOM"])
                   "LAST_7_DAYS") "dateRange" p o
      <*> field (optional customDateRangeSchema) "customDateRange" p o
      <*> field (with_default z_number 100%float) "limit" p o
      <*> field (with_default z_number 10%float) "minImpressions" p o).

(** ad-groups.ts *)
Record ListAdGroupsArgs := {
  lg_campaignId : option string;
  lg_limit : float;
  lg_includeRemoved : bool }.

Definition listAdGroupsSchema : Schema ListAdGroupsArgs :=
  z_object (fun p o =>
    Valid Build_ListAdGroupsArgs
      <*> field (optional z_string) "campaignId" p o
      <*> field (with_default z_number 100%float) "limit" p o
      <*> field (with_default z_boolean false) "includeRemoved" p o).

Record CreateAdGroupArgs := {
  cg_campaignId : string;
  cg_name : string;
  cg_status : string;
  cg_cpcBidMicros : option float;
  cg_cpmBidMicros : option float;
  cg_targetCpaMicros : option float;
  cg_targetRoas : option float }.

Definition createAdGroupSchema : Schema CreateAdGroupArgs :=
  z_object (fun p o =>
    Valid Build_CreateAdGroupArgs
      <*> field z_string "campaignId" p o
      <*> field z_string "name" p o
      <*> field (with_default (z_enum ["ENABLED"; "PAUSED"]) "ENABLED") "status" p o
      <*> field (optional z_number) "cpcBidMicros" p o
      <*> field (optional z_number) "cpmBidMicros" p o
      <*> field (optional z_number) "targetCpaMicros" p o
      <*> field (optional z_number) "targetRoas" p o).

Record UpdateAdGroupArgs := {
  ug_adGroupId : string;
  ug_name : option string;
  ug_status : option string;
  ug_cpcBidMicros : option float;
  ug_cpmBidMicros : option float;
  ug_targetCpaMicros : option float;
  ug_targetRoas : option float }.

Definition updateAdGroupSchema : Schema UpdateAdGroupArgs :=
  z_object (fun p o =>
    Valid Build_UpdateAdGroupArgs
      <*> field z_string "adGroupId" p o
      <*> field (optional z_string) "name" p o
      <*> field (optional (z_enum tri_status)) "status" p o
      <*> field (optional z_number) "cpcBidMicros" p o
      <*> field (optional z_number) "cpmBidMicros" p o
      <*> field (optional z_number) "targetCpaMicros" p o
      <*> field (optional z_number) "targetRoas" p o).

Record GetAdGroupArgs := { gg_adGroupId : string }.

Definition getAdGroupSchema : Schema GetAdGroupArgs :=
  z_object (fun p o =>
    Valid Build_GetAdGroupArgs <*> field z_string "adGroupId" p o).

(** ads.ts *)
Record ListAdsArgs := {
  la_adGroupId : option string;
  la_campaignId : option string;
  la_limit : float;
  la_includeRemoved : bool }.

Definition listAdsSchema : Schema ListAdsArgs :=
  z_object (fun p o =>
    Valid Build_ListAdsArgs
      <*> field (optional z_string) "adGroupId" p o
      <*> field (optional z_string) "campaignId" p o
      <*> field (with_default z_number 100%float) "limit" p o
      <*> field (with_default z_boolean false) "includeRemoved" p o).

(* ================================================================== *)
(** ** What the host and the configuration supply *)

Record Host := {
  (** [googleAdsConfig.customerId], read as [customer.credentials.customer_id]
      and [client.getCustomerId()]. *)
  customer_id : string;
  (** [`${n}`] for a number. *)
  NumberToString : float -> string;
  (** [Number(s)] for a string. *)
  StringToNumber : string -> float;
  (** [JSON.stringify(v, null, 2)]. *)
  JSON_stringify : JsVal -> string;
  (** The [message] of a [ZodError]. *)
  ZodError_message : list Issue -> string }.

(** A double quote inside a query text. *)
Definition dquote : string := String "034"%char EmptyString.

(** [v.k] *)
Definition prop (v : JsVal) (k : string) : Thrown + JsVal :=
  match v with
  | VUndefined => inl (type_error "undefined" k)
  | VNull => inl (type_error "null" k)
  | VObj o => inr (get o k)
  | VArr items =>
      inr (if String.eqb k "length" then VNum (Js.of_nat (List.length items))
           else VUndefined)
  | VStr s =>
      inr (if String.eqb k "length" then VNum (Js.of_nat (String.length s))
           else VUndefined)
  | VBool _ | VNum _ => inr VUndefined
  end.

(** [v?.k] *)
Definition opt_prop (v : JsVal) (k : string) : JsVal :=
  match prop v k with
  | inl _ => VUndefined
  | inr x => x
  end.

(** [v?.[0]] *)
Definition opt_first (v : JsVal) : JsVal :=
  match v with
  | VArr (x :: _) => x
  | VObj o => get o "0"
  | _ => VUndefined
  end.

(** Truthiness of an optional string argument: absent and empty are falsy. *)
Definition opt_truthy (x : option string) : bool :=
  match x with Some s => str_truthy s | None => false end.

(** [`${x}`] for an optional string. *)
Definition template (x : option string) : string :=
  match x with Some s => s | None => "undefined" end.

(** [Number(micros)] *)
Definition Number (H : Host) (m : Micros) : float :=
  match m with
  | MicrosUndefined => PrimFloat.nan
  | MicrosNull => 0%float
  | MicrosNumber x => x
  | MicrosString s => StringToNumber H s
  end.

(** [microsToNumber], defined identically in ad-groups.ts, analytics.ts,
    shopping.ts and ads.ts. *)
Definition microsToNumber (H : Host) (micros : Micros) : option float :=
  match micros with
  | MicrosUndefined | MicrosNull => None
  | _ => Some (Number H micros / 1000000)%float
  end.

(** [array.push(x)] *)
Definition push {A} (l : list A) (x : A) : list A := (l ++ [x])%list.

(** [rows.map(f)] where the callback may throw. *)
Fixpoint map_rows {A B} (f : A -> Prog B) (rows : list A) : Prog (list B) :=
  match rows with
  | [] => Ret []
  | r :: rest => x <- f r ;; xs <- map_rows f rest ;; Ret (x :: xs)
  end.

(* ================================================================== *)
(** ** campaigns.ts *)

Definition listCampaigns_where (params : ListCampaignsArgs) : list string :=
  let whereConditions := [] in
  let whereConditions :=
    if negb (lc_includeRemoved params)
    then push whereConditions ("campaign.status != " ++ dquote ++ "REMOVED" ++ dquote)
    else whereConditions in
  if negb (String.eqb (lc_dateRange params) "ALL_TIME") then
    match String.eqb (lc_dateRange params) "CUSTOM", lc_customDateRange params with
    | true, Some r =>
        push whereConditions
          ("segments.date BETWEEN '" ++ startDate r ++ "' AND '" ++ endDate r ++ "'")
    | _, _ =>
        push whereConditions ("segments.date DURING " ++ lc_dateRange params)
    end
  else whereConditions.

Definition listCampaigns_query (H : Host) (params : ListCampaignsArgs) : string :=
  let whereConditions := listCampaigns_where params in
  let whereClause :=
    match whereConditions with
    | [] => ""
    | _ => "WHERE " ++ String.concat " AND " whereConditions
    end in
  "
    SELECT
      campaign.id,
      campaign.name,
      campaign.status,
      campaign.advertising_channel_type,
      campaign.start_date,
      campaign.end_date,
      campaign_budget.amount_micros,
      metrics.impressions,
      metrics.clicks,
      metrics.cost_micros,
      metrics.conversions,
      metrics.ctr,
      metrics.average_cpc,
      metrics.conversion_rate,
      metrics.cost_per_conversion
    FROM campaign
    " ++ whereClause ++ "
    ORDER BY campaign.id
    LIMIT " ++ NumberToString H (lc_limit params) ++ "
  ".

(** The rows of this handler are untyped ([any]) in the source; the
    callback of [campaigns.map] is the argument [format], given the
    [dateRange] it copies into each entry. *)
Definition listCampaigns (H : Host) (format : string -> Row -> Prog JsVal)
    (params : ListCampaignsArgs) : Prog JsVal :=
  rows <- query (listCampaigns_query H params) ;;
  out <- map_rows (format (lc_dateRange params)) rows ;;
  Ret (VArr out).

(** The object handed to [customer.campaignBudgets.create]. *)
Definition createCampaign_budget (params : CreateCampaignArgs) : Obj :=
  [ ("name", VStr ("Budget for " ++ cc_name params));
    ("amount_micros", VNum (cc_budget params * 1000000)%float);
    ("delivery_method", VStr "STANDARD") ].

Definition createCampaign (H : Host) (params : CreateCampaignArgs) : Prog JsVal :=
  budgetResource <- mutate (Create campaignBudgets (VObj (createCampaign_budget params))) ;;
  budget_name <- settle (prop budgetResource "resource_name") ;;
  campaign <- mutate (Create campaigns (VObj [
      ("name", VStr (cc_name params));
      ("status", VStr (cc_status params));
      ("advertising_channel_type", VStr (cc_advertisingChannelType params));
      ("campaign_budget", budget_name) ])) ;;
  id <- settle (prop campaign "id") ;;
  resourceName <- settle (prop campaign "resource_name") ;;
  Ret (VObj [
      ("id", id);
      ("resourceName", resourceName);
      ("name", VStr (cc_name params));
      ("status", VStr (cc_status params));
      ("budget", VNum (cc_budget params)) ]).

Definition updateCampaign_updates (params : UpdateCampaignArgs) : Obj :=
  let updates := [] in
  let updates :=
    match uc_name params with
    | Some n => set updates "name" (VStr n)
    | None => updates
    end in
  match uc_status params with
  | Some s => set updates "status" (VStr s)
  | None => updates
  end.

Definition updateCampaign_campaignQuery (params : UpdateCampaignArgs) : string :=
  "
      SELECT campaign_budget.resource_name
      FROM campaign
      WHERE campaign.id = " ++ uc_campaignId params ++ "
    ".

(** The object handed to [customer.campaignBudgets.update]. *)
Definition updateCampaign_budgetUpdate (resource_name : JsVal) (budget : float)
  : Obj :=
  [ ("resource_name", resource_name);
    ("amount_micros", VNum (budget * 1000000)%float) ].

(** [if (params.budget !== undefined) { ... }] *)
Definition updateCampaign_budget (params : UpdateCampaignArgs) : Prog unit :=
  match uc_budget params with
  | Some budget =>
      rows <- query (updateCampaign_campaignQuery params) ;;
      match rows with
      | {| campaign_budget := Some b |} :: _ =>
          if truthy (b_resource_name b) then
            mutate (Update campaignBudgets
                      (VObj (updateCampaign_budgetUpdate (b_resource_name b) budget))) ;;
            Ret tt
          else Ret tt
      | _ => Ret tt
      end
  | None => Ret tt
  end.

(** The entity handed to [customer.campaigns.update]. *)
Definition updateCampaign_entity (H : Host) (params : UpdateCampaignArgs) : Obj :=
  spread
    [("resource_name",
      VStr ("customers/" ++ customer_id H ++ "/campaigns/" ++ uc_campaignId params))]
    (updateCampaign_updates params).

Definition updateCampaign (H : Host) (params : UpdateCampaignArgs) : Prog JsVal :=
  let updates := updateCampaign_updates params in
  updateCampaign_budget params ;;
  match keys updates with
  | [] => Ret tt
  | _ =>
      mutate (Update campaigns (VObj (updateCampaign_entity H params))) ;;
      Ret tt
  end ;;
  Ret (VObj [("success", VBool true); ("campaignId", VStr (uc_campaignId params))]).

(* ================================================================== *)
(** ** keywords.ts *)

Definition negative_ad_group_operation (H : Host) (adGroupId : string)
    (keyword : NegativeKeywordSpec) : JsVal :=
  VObj [("create", VObj [
    ("ad_group", VStr ("customers/" ++ customer_id H ++ "/adGroups/" ++ adGroupId));
    ("status", VStr "ENABLED");
    ("negative", VBool true);
    ("keyword", VObj [("text", VStr (nk_text keyword));
                      ("match_type", VStr (nk_matchType keyword))]) ])].

Definition negative_campaign_operation (H : Host) (campaignId : string)
    (keyword : NegativeKeywordSpec) : JsVal :=
  VObj [("create", VObj [
    ("campaign", VStr ("customers/" ++ customer_id H ++ "/campaigns/" ++ campaignId));
    ("negative", VBool true);
    ("keyword", VObj [("text", VStr (nk_text keyword));
                      ("match_type", VStr (nk_matchType keyword))]) ])].

Definition addNegativeKeywords (H : Host) (params : AddNegativeKeywordsArgs)
  : Prog JsVal :=
  if negb (opt_truthy (an_campaignId params)) && negb (opt_truthy (an_adGroupId params))
  then Throw (ErrorObj "Either campaignId or adGroupId must be provided")
  else if opt_truthy (an_adGroupId params) then
    let operations :=
      map (negative_ad_group_operation H (template (an_adGroupId params)))
          (an_keywords params) in
    results <- mutate (Create adGroupCriteria (VArr operations)) ;;
    n <- settle (prop results "length") ;;
    Ret (VObj [("success", VBool true); ("level", VStr "ad_group");
               ("addedKeywords", n)])
  else if opt_truthy (an_campaignId params) then
    let operations :=
      map (negative_campaign_operation H (template (an_campaignId params)))
          (an_keywords params) in
    results <- mutate (Create campaignCriteria (VArr operations)) ;;
    n <- settle (prop results "length") ;;
    Ret (VObj [("success", VBool true); ("level", VStr "campaign");
               ("addedKeywords", n)])
  else Ret VUndefined.

Definition updateKeyword_updates (params : UpdateKeywordArgs) : Obj :=
  let updates := [] in
  let updates :=
    match uk_status params with
    | Some s => set updates "status" (VStr s)
    | None => updates
    end in
  match uk_cpcBidMicros params with
  | Some b => set updates "cpc_bid_micros" (VNum b)
  | None => updates
  end.

(** The entity handed to [customer.adGroupCriteria.update]. *)
Definition updateKeyword_entity (H : Host) (params : UpdateKeywordArgs) : Obj :=
  spread
    [("resource_name",
      VStr ("customers/" ++ customer_id H ++ "/adGroupCriteria/" ++
            uk_adGroupId params ++ "~" ++ uk_keywordId params))]
    (updateKeyword_updates params).

Definition updateKeyword (H : Host) (params : UpdateKeywordArgs) : Prog JsVal :=
  mutate (Update adGroupCriteria (VObj (updateKeyword_entity H params))) ;;
  Ret (VObj [("success", VBool true); ("keywordId", VStr (uk_keywordId params))]).

(* ================================================================== *)
(** ** ad-groups.ts *)

(** [if (x !== undefined) { updateObject.k = x; updateMask.push(k) }] on
    the pair of the update object and the mask. *)
Definition assign_masked (st : Obj * list string) (k : string) (x : option JsVal)
  : Obj * list string :=
  match x with
  | Some v => (set (fst st) k v, push (snd st) k)
  | None => st
  end.

(** The update object and the mask that [updateAdGroup] builds. *)
Definition updateAdGroup_build (H : Host) (args : UpdateAdGroupArgs)
  : Obj * list string :=
  let st :=
    ([("resource_name",
       VStr ("customers/" ++ customer_id H ++ "/adGroups/" ++ ug_adGroupId args))],
     []) in
  let st := assign_masked st "name" (option_map VStr (ug_name args)) in
  let st := assign_masked st "status" (option_map VStr (ug_status args)) in
  let st := assign_masked st "cpc_bid_micros" (option_map VNum (ug_cpcBidMicros args)) in
  let st := assign_masked st "cpm_bid_micros" (option_map VNum (ug_cpmBidMicros args)) in
  let st := assign_masked st "target_cpa_micros" (option_map VNum (ug_targetCpaMicros args)) in
  assign_masked st "target_roas" (option_map VNum (ug_targetRoas args)).

Definition updateAdGroup_operation (H : Host) (args : UpdateAdGroupArgs) : Obj :=
  let '(updateObject, updateMask) := updateAdGroup_build H args in
  [("update", VObj updateObject);
   ("update_mask", VObj [("paths", VArr (map VStr updateMask))])].

Definition updateAdGroup (H : Host) (args : UpdateAdGroupArgs) : Prog JsVal :=
  try_catch
    (let adGroupOperation := updateAdGroup_operation H args in
     response <- mutate (MutateAdGroups [
         ("customer_id", VStr (customer_id H));
         ("operations", VArr [VObj adGroupOperation]) ]) ;;
     results <- settle (prop response "results") ;;
     Ret (VObj [("success", VBool true);
                ("resourceName", opt_prop (opt_first results) "resource_name")]))
    (fun error =>
       message <- settle (error_message error) ;;
       Throw (ErrorObj ("Failed to update ad group: " ++ message))).

Definition getAdGroup_query (args : GetAdGroupArgs) : string :=
  "
      SELECT 
        ad_group.id,
        ad_group.name,
        ad_group.status,
        ad_group.campaign,
        ad_group.cpc_bid_micros,
        ad_group.cpm_bid_micros,
        ad_group.target_cpa_micros,
        ad_group.target_roas,
        ad_group.effective_target_cpa_micros,
        ad_group.effective_target_roas,
        campaign.name,
        campaign.id
      FROM ad_group
      WHERE ad_group.id = " ++ gg_adGroupId args ++ "
    ".

Definition of_ad_group (row : Row) (f : AdGroupRow -> JsVal) : JsVal :=
  match ad_group row with Some g => f g | None => VUndefined end.

Definition of_campaign (row : Row) (f : CampaignRow -> JsVal) : JsVal :=
  match campaign row with Some c => f c | None => VUndefined end.

Definition getAdGroup (args : GetAdGroupArgs) : Prog JsVal :=
  try_catch
    (response <- query (getAdGroup_query args) ;;
     match response with
     | [] => Throw (ErrorObj "Ad group not found")
     | row :: _ =>
         Ret (VObj [
           ("id", of_ad_group row g_id);
           ("name", of_ad_group row g_name);
           ("status", of_ad_group row g_status);
           ("campaignId", of_campaign row c_id);
           ("campaignName", of_campaign row c_name);
           ("cpcBidMicros", of_ad_group row g_cpc_bid_micros);
           ("cpmBidMicros", of_ad_group row g_cpm_bid_micros);
           ("targetCpaMicros", of_ad_group row g_target_cpa_micros);
           ("targetRoas", of_ad_group row g_target_roas);
           ("effectiveTargetCpaMicros", of_ad_group row g_effective_target_cpa_micros);
           ("effectiveTargetRoas", of_ad_group row g_effective_target_roas) ])
     end)
    (fun error =>
       message <- settle (error_message error) ;;
       Throw (ErrorObj ("Failed to get ad group: " ++ message))).

(* ================================================================== *)
(** ** performance.ts *)

Definition getSearchTermsReport_dateClause (params : GetSearchTermsReportArgs)
  : string :=
  match String.eqb (st_dateRange params) "CUSTOM", st_customDateRange params with
  | true, Some r =>
      "segments.date BETWEEN '" ++ startDate r ++ "' AND '" ++ endDate r ++ "'"
  | _, _ => "segments.date DURING " ++ st_dateRange params
  end.

Definition getSearchTermsReport_query (H : Host) (params : GetSearchTermsReportArgs)
  : string :=
  let dateClause := getSearchTermsReport_dateClause params in
  let whereClause := "WHERE " ++ dateClause ++ "
    AND metrics.impressions >= " ++ NumberToString H (st_minImpressions params) in
  let whereClause :=
    if opt_truthy (st_campaignId params)
    then whereClause ++ " AND campaign.id = " ++ template (st_campaignId params)
    else whereClause in
  let whereClause :=
    if opt_truthy (st_adGroupId params)
    then whereClause ++ " AND ad_group.id = " ++ template (st_adGroupId params)
    else whereClause in
  "
    SELECT
      search_term_view.search_term,
      search_term_view.status,
      campaign.id,
      campaign.name,
      ad_group.id,
      ad_group.name,
      metrics.impressions,
      metrics.clicks,
      metrics.cost_micros,
      metrics.conversions,
      metrics.ctr,
      metrics.average_cpc,
      metrics.conversion_rate
    FROM search_term_view
    " ++ whereClause ++ "
    ORDER BY metrics.impressions DESC
    LIMIT " ++ NumberToString H (st_limit params) ++ "
  ".

(** As in [listCampaigns], the rows are untyped and the callback of
    [searchTerms.map] is the argument [format]. *)
Definition getSearchTermsReport (H : Host) (format : Row -> Prog JsVal)
    (params : GetSearchTermsReportArgs) : Prog JsVal :=
  searchTerms <- query (getSearchTermsReport_query H params) ;;
  out <- map_rows format searchTerms ;;
  Ret (VArr out).

(* ================================================================== *)
(** ** analytics.ts *)

Inductive KeywordMetric :=
| KM_COST | KM_CLICKS | KM_CONVERSIONS | KM_CTR | KM_CONVERSION_RATE | KM_CPC
| KM_QUALITY_SCORE.

Record GetTopBottomKeywordsArgs := {
  tk_metric : KeywordMetric;
  tk_dateRange : string;
  tk_topCount : float;
  tk_bottomCount : float;
  tk_campaignId : option string;
  tk_adGroupId : option string;
  tk_includeNegative : bool }.

(** [orderByField] after the [switch] on [args.metric]. *)
Definition keyword_orderByField (m : KeywordMetric) : string :=
  match m with
  | KM_CLICKS => "metrics.clicks"
  | KM_CONVERSIONS => "metrics.conversions"
  | KM_CTR => "metrics.ctr"
  | KM_CONVERSION_RATE => "metrics.conversion_rate"
  | KM_CPC => "metrics.average_cpc"
  | KM_QUALITY_SCORE => "ad_group_criterion.quality_info.quality_score"
  | KM_COST => "metrics.cost_micros"
  end.

Definition keyword_conditions (args : GetTopBottomKeywordsArgs) : list string :=
  let conditions := [] in
  let conditions :=
    if opt_truthy (tk_campaignId args)
    then push conditions ("campaign.id = " ++ template (tk_campaignId args))
    else conditions in
  let conditions :=
    if opt_truthy (tk_adGroupId args)
    then push conditions ("ad_group.id = " ++ template (tk_adGroupId args))
    else conditions in
  let conditions :=
    if negb (tk_includeNegative args)
    then push conditions "ad_group_criterion.negative = false"
    else conditions in
  push conditions "ad_group_criterion.status != 'REMOVED'".

Definition keyword_baseQuery (args : GetTopBottomKeywordsArgs) : string :=
  let dateRangeClause := " DURING " ++ tk_dateRange args in
  let baseQuery := "
      SELECT 
        ad_group_criterion.keyword.text,
        ad_group_criterion.keyword.match_type,
        ad_group_criterion.status,
        ad_group_criterion.negative,
        ad_group_criterion.quality_info.quality_score,
        ad_group.name,
        campaign.name,
        metrics.clicks,
        metrics.impressions,
        metrics.cost_micros,
        metrics.conversions,
        metrics.conversions_value,
        metrics.ctr,
        metrics.average_cpc,
        metrics.conversion_rate,
        metrics.cost_per_conversion
      FROM keyword_view
    " in
  let conditions := keyword_conditions args in
  let baseQuery :=
    match conditions with
    | [] => baseQuery
    | _ => baseQuery ++ " WHERE " ++ String.concat " AND " conditions
    end in
  baseQuery ++ dateRangeClause.

Definition keyword_topQuery (H : Host) (args : GetTopBottomKeywordsArgs) : string :=
  keyword_baseQuery args ++ " ORDER BY " ++ keyword_orderByField (tk_metric args)
    ++ " DESC LIMIT " ++ NumberToString H (tk_topCount args).

Definition keyword_bottomCondition (args : GetTopBottomKeywordsArgs) : string :=
  match tk_metric args with
  | KM_QUALITY_SCORE => EmptyString
  | _ => " AND " ++ keyword_orderByField (tk_metric args) ++ " > 0"
  end.

Definition keyword_bottomQuery (H : Host) (args : GetTopBottomKeywordsArgs) : string :=
  keyword_baseQuery args ++ keyword_bottomCondition args
    ++ " ORDER BY " ++ keyword_orderByField (tk_metric args)
    ++ " ASC LIMIT " ++ NumberToString H (tk_bottomCount args).

Record TopBottom := {
  tb_topPerformers : list JsVal;
  tb_bottomPerformers : list JsVal }.

(** [formatKeyword] reads each row through optional chaining only; it is
    the argument [formatKeyword]. *)
Definition getTopBottomKeywords (H : Host) (formatKeyword : Row -> JsVal)
    (args : GetTopBottomKeywordsArgs) : Prog TopBottom :=
  try_catch
    (topResponse <- query (keyword_topQuery H args) ;;
     bottomResponse <- query (keyword_bottomQuery H args) ;;
     Ret {| tb_topPerformers := map formatKeyword topResponse;
            tb_bottomPerformers := map formatKeyword bottomResponse |})
    (fun error =>
       message <- settle (error_message error) ;;
       Throw (ErrorObj ("Failed to get top/bottom keywords: " ++ message))).

Inductive ComparisonMetric := CM_COST | CM_CLICKS | CM_CONVERSIONS | CM_ROAS | CM_CPA.

Record GetCampaignComparisonArgs := {
  cmp_dateRange : string;
  cmp_metric : ComparisonMetric;
  cmp_includeRemoved : bool }.

Definition comparison_order_field (m : ComparisonMetric) : string :=
  match m with
  | CM_ROAS => "conversions_value"
  | CM_CPA => "cost_per_conversion"
  | CM_COST => "cost"
  | CM_CLICKS => "clicks"
  | CM_CONVERSIONS => "conversions"
  end.

Definition getCampaignComparison_query (args : GetCampaignComparisonArgs) : string :=
  let dateRangeClause := " DURING " ++ cmp_dateRange args in
  let removedClause :=
    if negb (cmp_includeRemoved args)
    then "WHERE campaign.status != 'REMOVED'" else EmptyString in
  "
      SELECT 
        campaign.id,
        campaign.name,
        campaign.status,
        campaign.advertising_channel_type,
        campaign.bidding_strategy_type,
        campaign_budget.amount_micros,
        metrics.clicks,
        metrics.impressions,
        metrics.cost_micros,
        metrics.conversions,
        metrics.conversions_value,
        metrics.ctr,
        metrics.conversion_rate,
        metrics.cost_per_conversion,
        metrics.search_impression_share,
        metrics.search_rank_lost_impression_share,
        metrics.search_budget_lost_impression_share
      FROM campaign
      " ++ removedClause ++ "
      " ++ dateRangeClause ++ "
      ORDER BY metrics." ++ comparison_order_field (cmp_metric args) ++ " DESC
    ".

Record EntryMetrics := {
  e_clicks : float;
  e_impressions : float;
  e_cost : float;
  e_conversions : float;
  e_revenue : float;
  e_ctr : float;
  e_conversionRate : float;
  e_cpa : float;
  e_roas : float;
  e_searchImpressionShare : float;
  e_searchRankLostImpressionShare : float;
  e_searchBudgetLostImpressionShare : float }.

Record CampaignEntry := {
  e_id : JsVal;
  e_name : JsVal;
  e_status : JsVal;
  e_type : JsVal;
  e_biddingStrategy : JsVal;
  e_dailyBudget : float;
  e_metrics : EntryMetrics }.

Definition of_metrics {A} (row : Row) (f : MetricsRow -> A) (absent : A) : A :=
  match metrics row with Some m => f m | None => absent end.

Definition of_budget {A} (row : Row) (f : BudgetRow -> A) (absent : A) : A :=
  match campaign_budget row with Some b => f b | None => absent end.

(** The callback of [response.map] in [getCampaignComparison]. *)
Definition comparison_entry (H : Host) (row : Row) : CampaignEntry :=
  let cost :=
    num_or_zero (microsToNumber H (of_metrics row m_cost_micros MicrosUndefined)) in
  let revenue :=
    num_or_zero (microsToNumber H (of_metrics row m_conversions_value MicrosUndefined)) in
  let conversions := num_or_zero (of_metrics row m_conversions None) in
  {| e_id := of_campaign row c_id;
     e_name := of_campaign row c_name;
     e_status := of_campaign row c_status;
     e_type := of_campaign row c_advertising_channel_type;
     e_biddingStrategy := of_campaign row c_bidding_strategy_type;
     e_dailyBudget :=
       num_or_zero (microsToNumber H (of_budget row b_amount_micros MicrosUndefined));
     e_metrics := {|
       e_clicks := num_or_zero (of_metrics row m_clicks None);
       e_impressions := num_or_zero (of_metrics row m_impressions None);
       e_cost := cost;
       e_conversions := conversions;
       e_revenue := revenue;
       e_ctr := num_or_zero (of_metrics row m_ctr None);
       e_conversionRate := num_or_zero (of_metrics row m_conversion_rate None);
       e_cpa := if (0 <? conversions)%float then (cost / conversions)%float else 0%float;
       e_roas := if (0 <? cost)%float then (revenue / cost)%float else 0%float;
       e_searchImpressionShare :=
         num_or_zero (of_metrics row m_search_impression_share None);
       e_searchRankLostImpressionShare :=
         num_or_zero (of_metrics row m_search_rank_lost_impression_share None);
       e_searchBudgetLostImpressionShare :=
         num_or_zero (of_metrics row m_search_budget_lost_impression_share None) |} |}.

(** The accumulator of [campaigns.reduce]. *)
Record Sums := {
  s_clicks : float;
  s_impressions : float;
  s_cost : float;
  s_conversions : float;
  s_revenue : float }.

Definition sums_step (acc : Sums) (campaign : CampaignEntry) : Sums :=
  {| s_clicks := (s_clicks acc + e_clicks (e_metrics campaign))%float;
     s_impressions := (s_impressions acc + e_impressions (e_metrics campaign))%float;
     s_cost := (s_cost acc + e_cost (e_metrics campaign))%float;
     s_conversions := (s_conversions acc + e_conversions (e_metrics campaign))%float;
     s_revenue := (s_revenue acc + e_revenue (e_metrics campaign))%float |}.

Definition sums_zero : Sums :=
  {| s_clicks := 0; s_impressions := 0; s_cost := 0; s_conversions := 0;
     s_revenue := 0 |}%float.

(** [totals] once the four ratios are assigned. *)
Record Totals := {
  t_clicks : float;
  t_impressions : float;
  t_cost : float;
  t_conversions : float;
  t_revenue : float;
  t_ctr : float;
  t_conversionRate : float;
  t_cpa : float;
  t_roas : float }.

Definition comparison_totals (campaigns : list CampaignEntry) : Totals :=
  let totals := fold_left sums_step campaigns sums_zero in
  {| t_clicks := s_clicks totals;
     t_impressions := s_impressions totals;
     t_cost := s_cost totals;
     t_conversions := s_conversions totals;
     t_revenue := s_revenue totals;
     t_ctr :=
       if (0 <? s_impressions totals)%float
       then (s_clicks totals / s_impressions totals * 100)%float else 0%float;
     t_conversionRate :=
       if (0 <? s_clicks totals)%float
       then (s_conversions totals / s_clicks totals * 100)%float else 0%float;
     t_cpa :=
       if (0 <? s_conversions totals)%float
       then (s_cost totals / s_conversions totals)%float else 0%float;
     t_roas :=
       if (0 <? s_cost totals)%float
       then (s_revenue totals / s_cost totals)%float else 0%float |}.

Record Comparison := {
  cmp_out_dateRange : string;
  cmp_out_sortedBy : ComparisonMetric;
  cmp_out_totals : Totals;
  cmp_out_campaigns : list CampaignEntry }.

(** What [getCampaignComparison] makes of the rows of its query. *)
Definition comparison_of_rows (H : Host) (args : GetCampaignComparisonArgs)
    (response : list Row) : Comparison :=
  let campaigns := map (comparison_entry H) response in
  {| cmp_out_dateRange := cmp_dateRange args;
     cmp_out_sortedBy := cmp_metric args;
     cmp_out_totals := comparison_totals campaigns;
     cmp_out_campaigns := campaigns |}.

Definition getCampaignComparison (H : Host) (args : GetCampaignComparisonArgs)
  : Prog Comparison :=
  try_catch
    (response <- query (getCampaignComparison_query args) ;;
     Ret (comparison_of_rows H args response))
    (fun error =>
       message <- settle (error_message error) ;;
       Throw (ErrorObj ("Failed to get campaign comparison: " ++ message))).

(* ================================================================== *)
(** ** shopping.ts *)

Inductive ProductMetric :=
| PM_COST | PM_CLICKS | PM_CONVERSIONS | PM_REVENUE | PM_ROAS | PM_CTR
| PM_CONVERSION_RATE.

Record GetTopBottomProductsArgs := {
  tp_metric : ProductMetric;
  tp_dateRange : string;
  tp_topCount : float;
  tp_bottomCount : float;
  tp_campaignId : option string }.

Definition product_orderByField (m : ProductMetric) : string :=
  match m with
  | PM_CLICKS => "metrics.clicks"
  | PM_CONVERSIONS => "metrics.conversions"
  | PM_REVENUE => "metrics.conversions_value"
  | PM_ROAS => "metrics.conversions_value / NULLIF(metrics.cost_micros, 0)"
  | PM_CTR => "metrics.ctr"
  | PM_CONVERSION_RATE => "metrics.conversion_rate"
  | PM_COST => "metrics.cost_micros"
  end.

Definition product_baseQuery (args : GetTopBottomProductsArgs) : string :=
  let dateRangeClause := " DURING " ++ tp_dateRange args in
  let baseQuery := "
      SELECT 
        segments.product_item_id,
        segments.product_title,
        segments.product_brand,
        campaign.name,
        metrics.clicks,
        metrics.impressions,
        metrics.cost_micros,
        metrics.conversions,
        metrics.conversions_value,
        metrics.ctr,
        metrics.conversion_rate
      FROM shopping_performance_view
    " in
  let baseQuery :=
    if opt_truthy (tp_campaignId args)
    then baseQuery ++ " WHERE campaign.id = " ++ template (tp_campaignId args)
    else baseQuery in
  baseQuery ++ dateRangeClause.

Definition product_topQuery (H : Host) (args : GetTopBottomProductsArgs) : string :=
  product_baseQuery args ++ " ORDER BY " ++ product_orderByField (tp_metric args)
    ++ " DESC LIMIT " ++ NumberToString H (tp_topCount args).

Definition product_bottomQuery (H : Host) (args : GetTopBottomProductsArgs) : string :=
  product_baseQuery args ++ " AND " ++ product_orderByField (tp_metric args)
    ++ " > 0 ORDER BY " ++ product_orderByField (tp_metric args)
    ++ " ASC LIMIT " ++ NumberToString H (tp_bottomCount args).

(** [formatProduct] is the argument of the same name. *)
Definition getTopBottomProducts (H : Host) (formatProduct : Row -> JsVal)
    (args : GetTopBottomProductsArgs) : Prog TopBottom :=
  try_catch
    (topResponse <- query (product_topQuery H args) ;;
     bottomResponse <- query (product_bottomQuery H args) ;;
     Ret {| tb_topPerformers := map formatProduct topResponse;
            tb_bottomPerformers := map formatProduct bottomResponse |})
    (fun error =>
       message <- settle (error_message error) ;;
       Throw (ErrorObj ("Failed to get top/bottom products: " ++ message))).

(* ================================================================== *)
(** ** index.ts: the registry and the dispatcher *)

Record ToolDescriptor := {
  td_name : string;
  td_properties : list string;
  td_required : list string }.

(** [workingTools], which is also [allTools]: what list-tools returns
    (descriptions and property types left out). *)
Definition workingTools : list ToolDescriptor := [
  {| td_name := "list_campaigns";
     td_properties := ["limit"; "includeRemoved"];
     td_required := [] |};
  {| td_name := "create_campaign";
     td_properties := ["name"; "budget"; "advertisingChannelType"; "status"];
     td_required := ["name"; "budget"; "advertisingChannelType"] |};
  {| td_name := "update_campaign";
     td_properties := ["campaignId"; "name"; "status"; "budget"];
     td_required := ["campaignId"] |};
  {| td_name := "list_ad_groups";
     td_properties := ["campaignId"; "limit"; "includeRemoved"];
     td_required := [] |};
  {| td_name := "get_ad_group";
     td_properties := ["adGroupId"];
     td_required := ["adGroupId"] |};
  {| td_name := "create_ad_group";
     td_properties := ["campaignId"; "name"; "status"; "cpcBidMicros"];
     td_required := ["campaignId"; "name"] |};
  {| td_name := "update_ad_group";
     td_properties := ["adGroupId"; "name"; "status"; "cpcBidMicros"];
     td_required := ["adGroupId"] |};
  {| td_name := "list_ads";
     td_properties := ["adGroupId"; "campaignId"; "limit"; "includeRemoved"];
     td_required := [] |};
  {| td_name := "add_keywords";
     td_properties := ["adGroupId"; "keywords"];
     td_required := ["adGroupId"; "keywords"] |};
  {| td_name := "add_negative_keywords";
     td_properties := ["campaignId"; "adGroupId"; "keywords"];
     td_required := ["keywords"] |};
  {| td_name := "update_keyword";
     td_properties := ["keywordId"; "adGroupId"; "status"; "cpcBidMicros"];
     td_required := ["keywordId"; "adGroupId"] |};
  {| td_name := "get_search_terms_report";
     td_properties := ["campaignId"; "adGroupId"; "dateRange"; "customDateRange";
                       "limit"; "minImpressions"];
     td_required := [] |} ].

(** The tool functions the dispatcher imports. *)
Record Handlers := {
  h_listCampaigns : ListCampaignsArgs -> Prog JsVal;
  h_createCampaign : CreateCampaignArgs -> Prog JsVal;
  h_updateCampaign : UpdateCampaignArgs -> Prog JsVal;
  h_addKeywords : AddKeywordsArgs -> Prog JsVal;
  h_addNegativeKeywords : AddNegativeKeywordsArgs -> Prog JsVal;
  h_updateKeyword : UpdateKeywordArgs -> Prog JsVal;
  h_getSearchTermsReport : GetSearchTermsReportArgs -> Prog JsVal;
  h_listAdGroups : ListAdGroupsArgs -> Prog JsVal;
  h_createAdGroup : CreateAdGroupArgs -> Prog JsVal;
  h_updateAdGroup : UpdateAdGroupArgs -> Prog JsVal;
  h_getAdGroup : GetAdGroupArgs -> Prog JsVal;
  h_listAds : ListAdsArgs -> Prog JsVal }.

(** The four imported tool functions and the two row callbacks that are
    not modelled above. *)
Record Unmodelled := {
  u_addKeywords : AddKeywordsArgs -> Prog JsVal;
  u_listAdGroups : ListAdGroupsArgs -> Prog JsVal;
  u_createAdGroup : CreateAdGroupArgs -> Prog JsVal;
  u_listAds : ListAdsArgs -> Prog JsVal;
  u_formatCampaign : string -> Row -> Prog JsVal;
  u_formatSearchTerm : Row -> Prog JsVal }.

Definition handlers (H : Host) (U : Unmodelled) : Handlers := {|
  h_listCampaigns := listCampaigns H (u_formatCampaign U);
  h_createCampaign := createCampaign H;
  h_updateCampaign := updateCampaign H;
  h_addKeywords := u_addKeywords U;
  h_addNegativeKeywords := addNegativeKeywords H;
  h_updateKeyword := updateKeyword H;
  h_getSearchTermsReport := getSearchTermsReport H (u_formatSearchTerm U);
  h_listAdGroups := u_listAdGroups U;
  h_createAdGroup := u_createAdGroup U;
  h_updateAdGroup := updateAdGroup H;
  h_getAdGroup := getAdGroup;
  h_listAds := u_listAds U |}.

(** [schema.parse(args)]: a [ZodError] is an [Error]. *)
Definition parse_or_throw {A} (H : Host) (s : Schema A) (args : JsVal) : Prog A :=
  match parse s args with
  | Valid a => Ret a
  | Invalid issues => Throw (ErrorObj (ZodError_message H issues))
  end.

(** [{ content: [{ type: 'text', text: JSON.stringify(result, null, 2) }] }] *)
Definition content (H : Host) (result : JsVal) : JsVal :=
  VObj [("content",
         VArr [VObj [("type", VStr "text");
                     ("text", VStr (JSON_stringify H result))]])].

(** One [case] of the [switch]. *)
Definition tool_case {A} (H : Host) (s : Schema A) (handler : A -> Prog JsVal)
    (args : JsVal) : Prog JsVal :=
  a <- parse_or_throw H s args ;;
  result <- handler a ;;
  Ret (content H result).

(** The body of the [try]: the [switch] on [name]. *)
Definition callTool_switch (H : Host) (T : Handlers) (name : string) (args : JsVal)
  : Prog JsVal :=
  if String.eqb name "list_campaigns" then
    tool_case H listCampaignsSchema (h_listCampaigns T) args
  else if String.eqb name "create_campaign" then
    tool_case H createCampaignSchema (h_createCampaign T) args
  else if String.eqb name "update_campaign" then
    tool_case H updateCampaignSchema (h_updateCampaign T) args
  else if String.eqb name "add_keywords" then
    tool_case H addKeywordsSchema (h_addKeywords T) args
  else if String.eqb name "add_negative_keywords" then
    tool_case H addNegativeKeywordsSchema (h_addNegativeKeywords T) args
  else if String.eqb name "update_keyword" then
    tool_case H updateKeywordSchema (h_updateKeyword T) args
  else if String.eqb name "get_search_terms_report" then
    tool_case H getSearchTermsReportSchema (h_getSearchTermsReport T) args
  else if String.eqb name "list_ad_groups" then
    tool_case H listAdGroupsSchema (h_listAdGroups T) args
  else if String.eqb name "create_ad_group" then
    tool_case H createAdGroupSchema (h_createAdGroup T) args
  else if String.eqb name "update_ad_group" then
    tool_case H updateAdGroupSchema (h_updateAdGroup T) args
  else if String.eqb name "get_ad_group" then
    tool_case H getAdGroupSchema (h_getAdGroup T) args
  else if String.eqb name "list_ads" then
    tool_case H listAdsSchema (h_listAds T) args
  else Throw (McpError MethodNotFound ("Unknown tool: " ++ name)).

(** The [catch] of the dispatcher. *)
Definition rewrap (error : Thrown) : Thrown :=
  match error with
  | McpError _ _ => error
  | ErrorObj message =>
      McpError InternalError ("Tool execution failed: " ++ message)
  | OtherObj _ | ThrownNull | ThrownUndefined =>
      McpError InternalError ("Tool execution failed: " ++ "Unknown error occurred")
  end.

(** The handler registered for [CallToolRequestSchema]. *)
Definition callTool (H : Host) (T : Handlers) (name : string) (args : JsVal)
  : Prog JsVal :=
  try_catch (callTool_switch H T name args) (fun error => Throw (rewrap error)).

(* ================================================================== *)
(** ** Fixtures for the worked examples *)

Definition demo_host : Host := {|
  customer_id := "1234567890";
  NumberToString := fun _ => "100";
  StringToNumber := fun _ => PrimFloat.nan;
  JSON_stringify := fun _ => "{}";
  ZodError_message := fun _ => "Required" |}.

Definition demo_unmodelled : Unmodelled := {|
  u_addKeywords := fun _ => Ret VNull;
  u_listAdGroups := fun _ => Ret VNull;
  u_createAdGroup := fun _ => Ret VNull;
  u_listAds := fun _ => Ret VNull;
  u_formatCampaign := fun _ _ => Ret VNull;
  u_formatSearchTerm := fun _ => Ret VNull |}.

(** A client whose queries find nothing and whose mutations return an
    empty list of results. *)
Definition empty_client : ClientBehaviour := {|
  on_query := fun _ _ => inr [];
  on_mutate := fun _ _ => inr (VArr []) |}.

(** A client that rejects every call with an object that is not an
    [Error] and carries a [message]. *)
Definition rejecting_client : ClientBehaviour := {|
  on_query := fun _ _ => inl (OtherObj (Some "quota exceeded"));
  on_mutate := fun _ _ => inl (OtherObj (Some "quota exceeded")) |}.

(* ================================================================== *)
(** ** The dispatch contract, following the specification

    The specification describes the dispatcher as a registry of tools,
    each with a name, an input schema and a handler, and five steps:
    resolve the name, validate, invoke the handler, wrap the result,
    rewrap what was thrown. [spec_dispatch] is written from those words,
    to be compared with [callTool]. *)

Inductive Tool :=
| list_campaigns | create_campaign | update_campaign
| list_ad_groups | get_ad_group | create_ad_group | update_ad_group
| list_ads
| add_keywords | add_negative_keywords | update_keyword
| get_search_terms_report.

Definition tool_name (t : Tool) : string :=
  match t with
  | list_campaigns => "list_campaigns"
  | create_campaign => "create_campaign"
  | update_campaign => "update_campaign"
  | list_ad_groups => "list_ad_groups"
  | get_ad_group => "get_ad_group"
  | create_ad_group => "create_ad_group"
  | update_ad_group => "update_ad_group"
  | list_ads => "list_ads"
  | add_keywords => "add_keywords"
  | add_negative_keywords => "add_negative_keywords"
  | update_keyword => "update_keyword"
  | get_search_terms_report => "get_search_terms_report"
  end.

Definition all_tools : list Tool :=
  [ list_campaigns; create_campaign; update_campaign;
    list_ad_groups; get_ad_group; create_ad_group; update_ad_group;
    list_ads; add_keywords; add_negative_keywords; update_keyword;
    get_search_terms_report ].

Definition ArgsOf (t : Tool) : Type :=
  match t with
  | list_campaigns => ListCampaignsArgs
  | create_campaign => CreateCampaignArgs
  | update_campaign => UpdateCampaignArgs
  | list_ad_groups => ListAdGroupsArgs
  | get_ad_group => GetAdGroupArgs
  | create_ad_group => CreateAdGroupArgs
  | update_ad_group => UpdateAdGroupArgs
  | list_ads => ListAdsArgs
  | add_keywords => AddKeywordsArgs
  | add_negative_keywords => AddNegativeKeywordsArgs
  | update_keyword => UpdateKeywordArgs
  | get_search_terms_report => GetSearchTermsReportArgs
  end.

Definition schema_of (t : Tool) : Schema (ArgsOf t) :=
  match t with
  | list_campaigns => listCampaignsSchema
  | create_campaign => createCampaignSchema
  | update_campaign => updateCampaignSchema
  | list_ad_groups => listAdGroupsSchema
  | get_ad_group => getAdGroupSchema
  | create_ad_group => createAdGroupSchema
  | update_ad_group => updateAdGroupSchema
  | list_ads => listAdsSchema
  | add_keywords => addKeywordsSchema
  | add_negative_keywords => addNegativeKeywordsSchema
  | update_keyword => updateKeywordSchema
  | get_search_terms_report => getSearchTermsReportSchema
  end.

Definition handler_of (T : Handlers) (t : Tool) : ArgsOf t -> Prog JsVal :=
  match t with
  | list_campaigns => h_listCampaigns T
  | create_campaign => h_createCampaign T
  | update_campaign => h_updateCampaign T
  | list_ad_groups => h_listAdGroups T
  | get_ad_group => h_getAdGroup T
  | create_ad_group => h_createAdGroup T
  | update_ad_group => h_updateAdGroup T
  | list_ads => h_listAds T
  | add_keywords => h_addKeywords T
  | add_negative_keywords => h_addNegativeKeywords T
  | update_keyword => h_updateKeyword T
  | get_search_terms_report => h_getSearchTermsReport T
  end.

(** (1) resolve the tool name against the registry. *)
Definition resolve (name : string) : option Tool :=
  find (fun t => String.eqb (tool_name t) name) all_tools.

(** (4) the success envelope: a single text block containing the
    pretty-printed JSON of the handler's return value. *)
Definition success_envelope (H : Host) (result : JsVal) : JsVal :=
  VObj [("content",
         VArr [VObj [("type", VStr "text");
                     ("text", VStr (JSON_stringify H result))]])].

(** The message that a thrown value other than an [McpError] carries, if
    it carries one. *)
Definition original_message (e : Thrown) : option string :=
  match e with
  | ErrorObj m | OtherObj (Some m) => Some m
  | McpError _ _ | OtherObj None | ThrownNull | ThrownUndefined => None
  end.

(** (5) an exception that is not already a recognized error kind is
    rewrapped with the internal-error kind, carrying the original message
    as context. The specification fixes no wording: the prefix, and the
    text for a value without a message, are the dispatcher's. *)
Definition spec_rewrap (e : Thrown) : Thrown :=
  match e with
  | McpError _ _ => e
  | _ =>
      McpError InternalError
        ("Tool execution failed: " ++
         match original_message e with
         | Some m => m
         | None => "Unknown error occurred"
         end)
  end.

Definition spec_dispatch (H : Host) (T : Handlers) (name : string) (args : JsVal)
  : Prog JsVal :=
  match resolve name with
  | None => Throw (McpError MethodNotFound ("Unknown tool: " ++ name))
  | Some t =>
      (* (2) run the tool's schema over the raw arguments *)
      match parse (schema_of t) args with
      | Invalid issues =>
          Throw (McpError InternalError
                   ("Tool execution failed: " ++ ZodError_message H issues))
      | Valid a =>
          (* (3) invoke the handler, (4) wrap, (5) rewrap what it throws *)
          try_catch (result <- handler_of T t a ;; Ret (success_envelope H result))
                    (fun error => Throw (spec_rewrap error))
      end
  end.

(* ================================================================== *)
(** ** Observations used in the statements *)

(** The fields of an update payload besides the resource it names. *)
Definition payload_fields (o : Obj) : list string :=
  filter (fun k => negb (String.eqb k "resource_name")) (keys o).






(** The request [updateAdGroup] hands to [mutateAdGroups]. *)
Definition updateAdGroup_request (H : Host) (args : UpdateAdGroupArgs) : Request :=
  MutateAdGroups [
    ("customer_id", VStr (customer_id H));
    ("operations", VArr [VObj (updateAdGroup_operation H args)]) ].

(** A sum as JavaScript computes it with [reduce]: left to right from 0. *)
Definition sum (l : list float) : float := fold_left PrimFloat.add l 0%float.

Definition mean (l : list float) : float :=
  (sum l / Js.of_nat (List.length l))%float.

(** The exact value of a binary64 number times [scale], when that is an
    integer. *)
Definition exact_integer (x : spec_float) (scale : Z) : option Z :=
  match x with
  | S754_zero _ => Some 0%Z
  | S754_finite s m e =>
      if (0 <=? e)%Z then Some (cond_Zopp s (Zpos m * scale * 2 ^ e))%Z
      else if ((Zpos m * scale) mod 2 ^ (- e) =? 0)%Z
           then Some (cond_Zopp s (Zpos m * scale / 2 ^ (- e)))%Z
           else None
  | S754_infinity _ | S754_nan => None
  end.

(** [integer_value x = Some n]: the number [x] is the integer [n]. *)
Definition integer_value (x : float) : option Z := exact_integer (Prim2SF x) 1.

(** [scaled_exactly b = Some n]: [b] times 1,000,000, computed without
    rounding, is the integer [n]. *)
Definition scaled_exactly (b : float) : option Z :=
  exact_integer (Prim2SF b) 1000000.

(** Two campaigns: cost 1 with revenue 2, and cost 3 with revenue 0. *)
Definition demo_metrics (cost revenue : float) : MetricsRow := {|
  m_clicks := Some 10%float; m_impressions := Some 100%float;
  m_cost_micros := MicrosNumber cost; m_conversions := Some 1%float;
  m_conversions_value := MicrosNumber revenue;
  m_ctr := None; m_conversion_rate := None;
  m_search_impression_share := None;
  m_search_rank_lost_impression_share := None;
  m_search_budget_lost_impression_share := None |}.

Definition demo_rows : list Row := [
  {| campaign := None; campaign_budget := None; ad_group := None;
     metrics := Some (demo_metrics 1000000 2000000) |};
  {| campaign := None; campaign_budget := None; ad_group := None;
     metrics := Some (demo_metrics 3000000 0) |} ].

Definition both_ids_one_empty : AddNegativeKeywordsArgs :=
  {| an_campaignId := Some "123"; an_adGroupId := Some EmptyString;
     an_keywords := [ {| nk_text := "free"; nk_matchType := "BROAD" |} ] |}.

Definition both_ids : AddNegativeKeywordsArgs :=
  {| an_campaignId := Some "123"; an_adGroupId := Some "456";
     an_keywords := [ {| nk_text := "free"; nk_matchType := "BROAD" |} ] |}.

Definition custom_without_range : GetSearchTermsReportArgs := {|
  st_campaignId := None; st_adGroupId := None;
  st_dateRange := "CUSTOM"; st_customDateRange := None;
  st_limit := 100; st_minImpressions := 10 |}.

Definition list_custom_without_range : ListCampaignsArgs := {|
  lc_limit := 50; lc_includeRemoved := false;
  lc_dateRange := "CUSTOM"; lc_customDateRange := None |}.

(** A budget of 2.01: the literal is read as the nearest binary64 number,
    as the JSON of a request is. *)
Definition budget_2_01 : CreateCampaignArgs := {|
  cc_name := "Spring"; cc_budget := 2.01;
  cc_advertisingChannelType := "SEARCH"; cc_status := "PAUSED" |}.

(* ================================================================== *)
(** ** More of the tool files

    The handlers below are not reached by the dispatcher of index.ts, or
    are reached and were left as parameters above. Their rows are
    untyped in the sources; where a callback reads fields that [Row]
    does not carry, the callback is an argument, as for [listCampaigns]. *)

(** *** The names of the tools each file exports

    The [name] of every descriptor of the exported [Tool[]] arrays, in
    the order of the arrays. *)
Definition campaignTools : list string :=
  ["list_campaigns"; "get_campaign"; "create_campaign"; "update_campaign"].

Definition accountTools : list string :=
  ["list_accessible_customers"; "get_account_hierarchy"; "get_account_info";
   "list_manager_accounts"].

Definition keywordTools : list string :=
  ["list_keywords"; "add_keywords"; "add_negative_keywords"; "update_keyword";
   "get_keyword_performance"].

Definition adGroupTools : list string :=
  ["list_ad_groups"; "create_ad_group"; "update_ad_group"; "get_ad_group"].

Definition analyticsTools : list string :=
  ["get_top_bottom_keywords"; "get_keyword_opportunities"; "get_campaign_comparison"].

Definition performanceTools : list string :=
  ["get_account_performance"; "get_campaign_performance"; "get_ad_group_performance";
   "get_search_terms_report"].

Definition shoppingTools : list string :=
  ["get_product_performance"; "get_product_partition_performance";
   "get_top_bottom_products"].

Definition adTools : list string :=
  ["list_ads"; "create_responsive_search_ad"; "update_ad"; "get_ad_performance"].

Definition conversionTools : list string :=
  ["list_conversion_actions"; "create_conversion_action"; "update_conversion_action";
   "get_conversion_stats"].

Definition exported_tools : list string :=
  (campaignTools ++ accountTools ++ keywordTools ++ adGroupTools ++ analyticsTools
   ++ performanceTools ++ shoppingTools ++ adTools ++ conversionTools)%list.

(** The keys of the [z.object] of each dispatched schema. *)
Definition schema_keys (t : Tool) : list string :=
  match t with
  | list_campaigns => ["limit"; "includeRemoved"; "dateRange"; "customDateRange"]
  | create_campaign => ["name"; "budget"; "advertisingChannelType"; "status"]
  | update_campaign => ["campaignId"; "name"; "status"; "budget"]
  | list_ad_groups => ["campaignId"; "limit"; "includeRemoved"]
  | get_ad_group => ["adGroupId"]
  | create_ad_group =>
      ["campaignId"; "name"; "status"; "cpcBidMicros"; "cpmBidMicros";
       "targetCpaMicros"; "targetRoas"]
  | update_ad_group =>
      ["adGroupId"; "name"; "status"; "cpcBidMicros"; "cpmBidMicros";
       "targetCpaMicros"; "targetRoas"]
  | list_ads => ["adGroupId"; "campaignId"; "limit"; "includeRemoved"]
  | add_keywords => ["adGroupId"; "keywords"]
  | add_negative_keywords => ["campaignId"; "adGroupId"; "keywords"]
  | update_keyword => ["keywordId"; "adGroupId"; "status"; "cpcBidMicros"]
  | get_search_terms_report =>
      ["campaignId"; "adGroupId"; "dateRange"; "customDateRange"; "limit";
       "minImpressions"]
  end.

(** *** campaigns.ts: getCampaign *)

Record GetCampaignArgs := { gc_campaignId : string }.

Definition getCampaignSchema : Schema GetCampaignArgs :=
  z_object (fun p o =>
    Valid Build_GetCampaignArgs <*> field z_string "campaignId" p o).

Definition getCampaign_query (params : GetCampaignArgs) : string :=
  "
    SELECT
      campaign.id,
      campaign.name,
      campaign.status,
      campaign.advertising_channel_type,
      campaign.start_date,
      campaign.end_date,
      campaign.serving_status,
      campaign.optimization_score,
      campaign_budget.amount_micros,
      campaign_budget.delivery_method,
      metrics.impressions,
      metrics.clicks,
      metrics.cost_micros,
      metrics.conversions,
      metrics.ctr,
      metrics.average_cpc,
      metrics.conversion_rate
    FROM campaign
    WHERE campaign.id = " ++ gc_campaignId params ++ "
  ".

(** [format] builds the returned object from the first row; it throws
    when the row has no [campaign]. *)
Definition getCampaign (format : Row -> Prog JsVal) (params : GetCampaignArgs)
  : Prog JsVal :=
  rows <- query (getCampaign_query params) ;;
  match rows with
  | [] =>
      Throw (ErrorObj ("Campaign with ID " ++ gc_campaignId params ++ " not found"))
  | campaign :: _ => format campaign
  end.

(** *** keywords.ts: getKeywordPerformance *)

Record GetKeywordPerformanceArgs := {
  kp_keywordId : string;
  kp_adGroupId : string;
  kp_dateRange : string }.

Definition getKeywordPerformanceSchema : Schema GetKeywordPerformanceArgs :=
  z_object (fun p o =>
    Valid Build_GetKeywordPerformanceArgs
      <*> field z_string "keywordId" p o
      <*> field z_string "adGroupId" p o
      <*> field (with_default
                   (z_enum ["TODAY"; "YESTERDAY"; "LAST_7_DAYS"; "LAST_30_DAYS";
                            "THIS_MONTH"; "LAST_MONTH"])
                   "LAST_30_DAYS") "dateRange" p o).

Definition getKeywordPerformance_query (params : GetKeywordPerformanceArgs) : string :=
  "
    SELECT
      ad_group_criterion.criterion_id,
      ad_group_criterion.keyword.text,
      ad_group_criterion.keyword.match_type,
      ad_group_criterion.quality_score,
      ad_group_criterion.quality_score.quality_score,
      ad_group_criterion.quality_score.creative_quality_score,
      ad_group_criterion.quality_score.post_click_quality_score,
      ad_group_criterion.quality_score.search_predicted_ctr,
      metrics.impressions,
      metrics.clicks,
      metrics.cost_micros,
      metrics.conversions,
      metrics.ctr,
      metrics.average_cpc,
      metrics.conversion_rate,
      metrics.cost_per_conversion,
      metrics.search_impression_share,
      metrics.search_rank_lost_impression_share,
      metrics.search_budget_lost_impression_share
    FROM ad_group_criterion
    WHERE ad_group_criterion.type = " ++ dquote ++ "KEYWORD" ++ dquote ++ " 
      AND ad_group_criterion.criterion_id = " ++ kp_keywordId params ++ "
      AND ad_group.id = " ++ kp_adGroupId params ++ "
      AND segments.date DURING " ++ kp_dateRange params ++ "
  ".

Definition getKeywordPerformance (format : Row -> Prog JsVal)
    (params : GetKeywordPerformanceArgs) : Prog JsVal :=
  rows <- query (getKeywordPerformance_query params) ;;
  match rows with
  | [] =>
      Throw (ErrorObj ("Keyword with ID " ++ kp_keywordId params ++ " not found"))
  | keyword :: _ => format keyword
  end.

(** *** accounts.ts: getAccountInfo *)

Record GetAccountInfoArgs := { ai_customerId : string }.

Definition getAccountInfoSchema : Schema GetAccountInfoArgs :=
  z_object (fun p o =>
    Valid Build_GetAccountInfoArgs <*> field z_string "customerId" p o).

Definition getAccountInfo_query (args : GetAccountInfoArgs) : string :=
  "
      SELECT 
        customer.id,
        customer.descriptive_name,
        customer.currency_code,
        customer.time_zone,
        customer.auto_tagging_enabled,
        customer.tracking_url_template,
        customer.optimization_score,
        customer.pay_per_conversion_eligibility_failure_reasons
      FROM customer
      WHERE customer.id = " ++ ai_customerId args ++ "
    ".

(** The returned object reads [response[0].customer] through optional
    chaining only; it is [format] of the first row. *)
Definition getAccountInfo (format : Row -> JsVal) (args : GetAccountInfoArgs)
  : Prog JsVal :=
  try_catch
    (response <- query (getAccountInfo_query args) ;;
     match response with
     | [] => Throw (ErrorObj "Customer not found")
     | row :: _ => Ret (format row)
     end)
    (fun error =>
       message <- settle (error_message error) ;;
       Throw (ErrorObj ("Failed to get account info: " ++ message))).

(** *** performance.ts: getAccountPerformance, getCampaignPerformance *)

Record GetAccountPerformanceArgs := {
  ap_dateRange : string;
  ap_customDateRange : option CustomDateRange;
  ap_segmentByDate : bool }.

Definition getAccountPerformance_query (params : GetAccountPerformanceArgs) : string :=
  let segmentClause :=
    if ap_segmentByDate params then ", segments.date" else EmptyString in
  let groupByClause :=
    if ap_segmentByDate params then "GROUP BY segments.date" else EmptyString in
  let orderByClause :=
    if ap_segmentByDate params then "ORDER BY segments.date DESC" else EmptyString in
  "
    SELECT
      customer.descriptive_name,
      customer.currency_code,
      customer.id
      " ++ segmentClause ++ ",
      metrics.impressions,
      metrics.clicks,
      metrics.cost_micros,
      metrics.conversions,
      metrics.ctr,
      metrics.average_cpc,
      metrics.conversion_rate,
      metrics.cost_per_conversion,
      metrics.search_impression_share,
      metrics.search_budget_lost_impression_share,
      metrics.search_rank_lost_impression_share
    FROM customer
    WHERE segments.date DURING " ++ ap_dateRange params ++ "
    " ++ groupByClause ++ "
    " ++ orderByClause ++ "
  ".

(** [formatDay] is the callback of [results.map], which reads
    [row.segments.date]; [formatSummary] builds the summary from the
    first row and the date range, reading [summary.customer.descriptive_name]
    first. *)
Definition getAccountPerformance (formatDay : Row -> Prog JsVal)
    (formatSummary : string -> Row -> Prog JsVal)
    (params : GetAccountPerformanceArgs) : Prog JsVal :=
  results <- query (getAccountPerformance_query params) ;;
  if ap_segmentByDate params then
    out <- map_rows formatDay results ;;
    Ret (VArr out)
  else
    match results with
    | [] => Throw (type_error "undefined" "customer")
    | summary :: _ => formatSummary (ap_dateRange params) summary
    end.

Record GetCampaignPerformanceArgs := {
  cp_campaignId : string;
  cp_dateRange : string;
  cp_segmentByDate : bool }.

Definition getCampaignPerformance_query (params : GetCampaignPerformanceArgs)
  : string :=
  let segmentClause :=
    if cp_segmentByDate params then ", segments.date" else EmptyString in
  let groupByClause :=
    if cp_segmentByDate params
    then "GROUP BY campaign.id, segments.date" else EmptyString in
  let orderByClause :=
    if cp_segmentByDate params then "ORDER BY segments.date DESC" else EmptyString in
  "
    SELECT
      campaign.id,
      campaign.name
      " ++ segmentClause ++ ",
      metrics.impressions,
      metrics.clicks,
      metrics.cost_micros,
      metrics.conversions,
      metrics.conversions_value,
      metrics.ctr,
      metrics.average_cpc,
      metrics.conversion_rate,
      metrics.cost_per_conversion,
      metrics.value_per_conversion,
      metrics.search_impression_share,
      metrics.search_budget_lost_impression_share,
      metrics.search_rank_lost_impression_share,
      metrics.invalid_clicks,
      metrics.invalid_click_rate
    FROM campaign
    WHERE campaign.id = " ++ cp_campaignId params ++ "
      AND segments.date DURING " ++ cp_dateRange params ++ "
    " ++ groupByClause ++ "
    " ++ orderByClause ++ "
  ".

(** [results[0]?.campaign.name] *)
Definition first_campaign_name (results : list Row) : Prog JsVal :=
  match results with
  | [] => Ret VUndefined
  | row :: _ =>
      match campaign row with
      | Some c => Ret (c_name c)
      | None => Throw (type_error "undefined" "name")
      end
  end.

Definition getCampaignPerformance (formatDay : Row -> Prog JsVal)
    (formatSummary : string -> Row -> Prog JsVal)
    (params : GetCampaignPerformanceArgs) : Prog JsVal :=
  results <- query (getCampaignPerformance_query params) ;;
  if cp_segmentByDate params then
    campaignName <- first_campaign_name results ;;
    daily <- map_rows formatDay results ;;
    Ret (VObj [("campaignId", VStr (cp_campaignId params));
               ("campaignName", campaignName);
               ("daily", VArr daily)])
  else
    match results with
    | [] => Throw (type_error "undefined" "campaign")
    | summary :: _ => formatSummary (cp_dateRange params) summary
    end.

(** *** analytics.ts: getKeywordOpportunities *)

Record GetKeywordOpportunitiesArgs := {
  ko_dateRange : string;
  ko_minImpressions : float;
  ko_maxCostPerConversion : option float;
  ko_minConversionRate : option float }.

Definition getKeywordOpportunitiesSchema : Schema GetKeywordOpportunitiesArgs :=
  z_object (fun p o =>
    Valid Build_GetKeywordOpportunitiesArgs
      <*> field (with_default (z_enum ["LAST_7_DAYS"; "LAST_30_DAYS"; "LAST_90_DAYS"])
                   "LAST_30_DAYS") "dateRange" p o
      <*> field (with_default z_number 100%float) "minImpressions" p o
      <*> field (optional z_number) "maxCostPerConversion" p o
      <*> field (optional z_number) "minConversionRate" p o).

(** [args.maxCostPerConversion ? `AND ... <= ${args.maxCostPerConversion * 1_000_000}` : ''] *)
Definition maxCostPerConversion_filter (H : Host) (args : GetKeywordOpportunitiesArgs)
  : string :=
  match ko_maxCostPerConversion args with
  | Some m =>
      if num_truthy m
      then "AND metrics.cost_per_conversion <= " ++ NumberToString H (m * 1000000)%float
      else EmptyString
  | None => EmptyString
  end.

(** [args.minConversionRate ? `AND metrics.conversion_rate >= ${args.minConversionRate}` : ''] *)
Definition minConversionRate_filter (H : Host) (args : GetKeywordOpportunitiesArgs)
  : string :=
  match ko_minConversionRate args with
  | Some r =>
      if num_truthy r
      then "AND metrics.conversion_rate >= " ++ NumberToString H r
      else EmptyString
  | None => EmptyString
  end.

Definition searchTermsQuery (H : Host) (args : GetKeywordOpportunitiesArgs) : string :=
  let dateRangeClause := " DURING " ++ ko_dateRange args in
  "
      SELECT 
        segments.search_term_match_type,
        search_term_view.search_term,
        campaign.name,
        ad_group.name,
        metrics.clicks,
        metrics.impressions,
        metrics.cost_micros,
        metrics.conversions,
        metrics.conversions_value,
        metrics.ctr,
        metrics.conversion_rate,
        metrics.cost_per_conversion
      FROM search_term_view
      WHERE search_term_view.status = 'NONE'
        AND metrics.impressions >= " ++ NumberToString H (ko_minImpressions args) ++ "
        " ++ maxCostPerConversion_filter H args ++ "
        " ++ minConversionRate_filter H args ++ "
      " ++ dateRangeClause ++ "
      ORDER BY metrics.conversions DESC
      LIMIT 50
    ".

Definition underperformingQuery (H : Host) (args : GetKeywordOpportunitiesArgs)
  : string :=
  let dateRangeClause := " DURING " ++ ko_dateRange args in
  "
      SELECT 
        ad_group_criterion.keyword.text,
        ad_group_criterion.keyword.match_type,
        ad_group_criterion.quality_info.quality_score,
        campaign.name,
        ad_group.name,
        metrics.clicks,
        metrics.impressions,
        metrics.cost_micros,
        metrics.conversions,
        metrics.ctr,
        metrics.conversion_rate,
        metrics.cost_per_conversion
      FROM keyword_view
      WHERE ad_group_criterion.status = 'ENABLED'
        AND ad_group_criterion.negative = false
        AND metrics.impressions >= " ++ NumberToString H (ko_minImpressions args) ++ "
        AND metrics.conversions = 0
        AND metrics.cost_micros > 0
      " ++ dateRangeClause ++ "
      ORDER BY metrics.cost_micros DESC
      LIMIT 30
    ".

(** The two callbacks of [map] read their rows through optional chaining
    only; they are the arguments [formatSearchTerm] and [formatKeyword]. *)
Definition getKeywordOpportunities (H : Host)
    (formatSearchTerm formatKeyword : Row -> JsVal)
    (args : GetKeywordOpportunitiesArgs) : Prog JsVal :=
  try_catch
    (searchTermsResponse <- query (searchTermsQuery H args) ;;
     underperformingResponse <- query (underperformingQuery H args) ;;
     Ret (VObj [
       ("dateRange", VStr (ko_dateRange args));
       ("newKeywordOpportunities", VArr (map formatSearchTerm searchTermsResponse));
       ("underperformingKeywords", VArr (map formatKeyword underperformingResponse)) ]))
    (fun error =>
       message <- settle (error_message error) ;;
       Throw (ErrorObj ("Failed to get keyword opportunities: " ++ message))).

(** *** ad-groups.ts: createAdGroup *)

(** [s.split(sep)] for a separator of one character. *)
Fixpoint split (sep : ascii) (s : string) : list string :=
  match s with
  | EmptyString => [EmptyString]
  | String c rest =>
      if Ascii.eqb c sep then EmptyString :: split sep rest
      else
        match split sep rest with
        | first :: others => String c first :: others
        | [] => [String c EmptyString]
        end
  end.

(** [array.pop()] as an expression: the last element, [undefined] on an
    empty array. *)
Definition pop (l : list string) : JsVal :=
  match l with
  | [] => VUndefined
  | _ => VStr (last l EmptyString)
  end.

(** [v?.split(sep).pop()], where [what] is the text of the callee in the
    [TypeError] of a value that has no [split] method. *)
Definition opt_split_pop (what : string) (sep : ascii) (v : JsVal) : Thrown + JsVal :=
  match v with
  | VUndefined | VNull => inr VUndefined
  | VStr s => inr (pop (split sep s))
  | _ => inl (ErrorObj (what ++ ".split is not a function"))
  end.

(** An optional number as the value of a property. *)
Definition opt_num (x : option float) : JsVal :=
  match x with Some v => VNum v | None => VUndefined end.

Definition createAdGroup_operation (H : Host) (args : CreateAdGroupArgs) : Obj :=
  [("create", VObj [
     ("campaign",
      VStr ("customers/" ++ customer_id H ++ "/campaigns/" ++ cg_campaignId args));
     ("name", VStr (cg_name args));
     ("status", VStr (cg_status args));
     ("cpc_bid_micros", opt_num (cg_cpcBidMicros args));
     ("cpm_bid_micros", opt_num (cg_cpmBidMicros args));
     ("target_cpa_micros", opt_num (cg_targetCpaMicros args));
     ("target_roas", opt_num (cg_targetRoas args)) ])].

Definition createAdGroup_request (H : Host) (args : CreateAdGroupArgs) : Request :=
  MutateAdGroups [
    ("customer_id", VStr (customer_id H));
    ("operations", VArr [VObj (createAdGroup_operation H args)]) ].

Definition createAdGroup (H : Host) (args : CreateAdGroupArgs) : Prog JsVal :=
  try_catch
    (response <- mutate (createAdGroup_request H args) ;;
     results <- settle (prop response "results") ;;
     let result := opt_first results in
     adGroupId <-
       settle (opt_split_pop "result?.resource_name?" "/"%char
                 (opt_prop result "resource_name")) ;;
     Ret (VObj [("success", VBool true);
                ("adGroupId", adGroupId);
                ("resourceName", opt_prop result "resource_name")]))
    (fun error =>
       message <- settle (error_message error) ;;
       Throw (ErrorObj ("Failed to create ad group: " ++ message))).

(** *** config.ts *)

(** [process.env] at the six names read, once dotenv has run. *)
Record Env := {
  GOOGLE_ADS_CLIENT_ID : option string;
  GOOGLE_ADS_CLIENT_SECRET : option string;
  GOOGLE_ADS_DEVELOPER_TOKEN : option string;
  GOOGLE_ADS_REFRESH_TOKEN : option string;
  GOOGLE_ADS_CUSTOMER_ID : option string;
  GOOGLE_ADS_LOGIN_CUSTOMER_ID : option string }.

Record Config := {
  clientId : string;
  clientSecret : string;
  developerToken : string;
  refreshToken : string;
  customerId : string;
  loginCustomerId : option string }.

(** The issues of [configSchema]: a key that is [undefined], and a
    string shorter than [min(1, message)] asks for. *)
Inductive ConfigIssue :=
| config_required (key : string)
| config_too_small (key message : string).

(** [z.string().min(1, message)] on the value of [key]. *)
Definition string_min_1 (key message : string) (v : option string)
  : list ConfigIssue + string :=
  match v with
  | None => inl [config_required key]
  | Some EmptyString => inl [config_too_small key message]
  | Some s => inr s
  end.

(** The fields of an object schema, issues collected in key order. *)
Definition and_then {A B} (f : list ConfigIssue + (A -> B)) (x : list ConfigIssue + A)
  : list ConfigIssue + B :=
  match f, x with
  | inr g, inr a => inr (g a)
  | inr _, inl i => inl i
  | inl i, inr _ => inl i
  | inl i, inl j => inl (i ++ j)%list
  end.

(** [configSchema.parse({ clientId: process.env.GOOGLE_ADS_CLIENT_ID, ... })] *)
Definition googleAdsConfig (env : Env) : list ConfigIssue + Config :=
  and_then (and_then (and_then (and_then (and_then (and_then
    (inr Build_Config)
    (string_min_1 "clientId" "GOOGLE_ADS_CLIENT_ID is required"
       (GOOGLE_ADS_CLIENT_ID env)))
    (string_min_1 "clientSecret" "GOOGLE_ADS_CLIENT_SECRET is required"
       (GOOGLE_ADS_CLIENT_SECRET env)))
    (string_min_1 "developerToken" "GOOGLE_ADS_DEVELOPER_TOKEN is required"
       (GOOGLE_ADS_DEVELOPER_TOKEN env)))
    (string_min_1 "refreshToken" "GOOGLE_ADS_REFRESH_TOKEN is required"
       (GOOGLE_ADS_REFRESH_TOKEN env)))
    (string_min_1 "customerId" "GOOGLE_ADS_CUSTOMER_ID is required"
       (GOOGLE_ADS_CUSTOMER_ID env)))
    (inr (GOOGLE_ADS_LOGIN_CUSTOMER_ID env)).
(* ================================================================== *)
(** ** The remaining served handlers, and the operations of ads.ts and
    conversions.ts *)

(** *** ad-groups.ts: listAdGroups *)

Definition listAdGroups_conditions (args : ListAdGroupsArgs) : list string :=
  let conditions := [] in
  let conditions :=
    if opt_truthy (lg_campaignId args)
    then push conditions ("campaign.id = " ++ template (lg_campaignId args))
    else conditions in
  if negb (lg_includeRemoved args)
  then push conditions "ad_group.status != 'REMOVED'"
  else conditions.

Definition listAdGroups_query (H : Host) (args : ListAdGroupsArgs) : string :=
  let query := "
      SELECT 
        ad_group.id,
        ad_group.name,
        ad_group.status,
        ad_group.campaign,
        ad_group.cpc_bid_micros,
        ad_group.cpm_bid_micros,
        ad_group.target_cpa_micros,
        ad_group.target_roas,
        campaign.name,
        metrics.impressions,
        metrics.clicks,
        metrics.cost_micros,
        metrics.conversions,
        metrics.conversions_value
      FROM ad_group
    " in
  let conditions := listAdGroups_conditions args in
  let query :=
    match conditions with
    | [] => query
    | _ => query ++ " WHERE " ++ String.concat " AND " conditions
    end in
  query ++ " ORDER BY ad_group.id DESC LIMIT " ++ NumberToString H (lg_limit args).

(** The callback of [response.map] calls [split] on [row.ad_group?.campaign];
    it is the argument [format]. *)
Definition listAdGroups (H : Host) (format : Row -> Prog JsVal)
    (args : ListAdGroupsArgs) : Prog JsVal :=
  try_catch
    (response <- query (listAdGroups_query H args) ;;
     out <- map_rows format response ;;
     Ret (VArr out))
    (fun error =>
       message <- settle (error_message error) ;;
       Throw (ErrorObj ("Failed to list ad groups: " ++ message))).




(** *** ads.ts: listAds, updateAd, getAdPerformance *)

Definition listAds_conditions (args : ListAdsArgs) : list string :=
  let conditions := [] in
  let conditions :=
    if opt_truthy (la_adGroupId args)
    then push conditions ("ad_group.id = " ++ template (la_adGroupId args))
    else conditions in
  let conditions :=
    if opt_truthy (la_campaignId args)
    then push conditions ("campaign.id = " ++ template (la_campaignId args))
    else conditions in
  if negb (la_includeRemoved args)
  then push conditions "ad_group_ad.status != 'REMOVED'"
  else conditions.

Definition listAds_query (H : Host) (args : ListAdsArgs) : string :=
  let query := "
      SELECT 
        ad_group_ad.ad.id,
        ad_group_ad.ad.name,
        ad_group_ad.ad.type,
        ad_group_ad.status,
        ad_group_ad.ad_group,
        ad_group.name,
        campaign.id,
        campaign.name,
        ad_group_ad.ad.responsive_search_ad.headlines,
        ad_group_ad.ad.responsive_search_ad.descriptions,
        ad_group_ad.ad.responsive_search_ad.path1,
        ad_group_ad.ad.responsive_search_ad.path2,
        ad_group_ad.ad.final_urls,
        metrics.impressions,
        metrics.clicks,
        metrics.cost_micros,
        metrics.conversions,
        metrics.ctr,
        metrics.average_cpc
      FROM ad_group_ad
    " in
  let conditions := listAds_conditions args in
  let query :=
    match conditions with
    | [] => query
    | _ => query ++ " WHERE " ++ String.concat " AND " conditions
    end in
  query ++ " ORDER BY ad_group_ad.ad.id DESC LIMIT " ++ NumberToString H (la_limit args).

Definition listAds (H : Host) (format : Row -> Prog JsVal) (args : ListAdsArgs)
  : Prog JsVal :=
  try_catch
    (response <- query (listAds_query H args) ;;
     out <- map_rows format response ;;
     Ret (VArr out))
    (fun error =>
       message <- settle (error_message error) ;;
       Throw (ErrorObj ("Failed to list ads: " ++ message))).

Record UpdateAdArgs := {
  ud_adId : string;
  ud_adGroupId : string;
  ud_status : option string }.

Definition updateAdSchema : Schema UpdateAdArgs :=
  z_object (fun p o =>
    Valid Build_UpdateAdArgs
      <*> field z_string "adId" p o
      <*> field z_string "adGroupId" p o
      <*> field (optional (z_enum tri_status)) "status" p o).

(** An optional string as the value of a property. *)
Definition opt_str (x : option string) : JsVal :=
  match x with Some s => VStr s | None => VUndefined end.

Definition opt_bool (x : option bool) : JsVal :=
  match x with Some b => VBool b | None => VUndefined end.

(** The [adOperation] of [updateAd]. *)
Definition updateAd_operation (H : Host) (args : UpdateAdArgs) : Obj :=
  let resourceName :=
    "customers/" ++ customer_id H ++ "/adGroupAds/" ++ ud_adGroupId args
      ++ "~" ++ ud_adId args in
  [("update", VObj [("resource_name", VStr resourceName);
                    ("status", opt_str (ud_status args))]);
   ("update_mask", VObj [("paths", VArr [VStr "status"])])].

Record GetAdPerformanceArgs := {
  gp_adId : string;
  gp_adGroupId : string;
  gp_dateRange : string }.

Definition getAdPerformance_query (args : GetAdPerformanceArgs) : string :=
  let dateRangeClause :=
    if String.eqb (gp_dateRange args) "ALL_TIME" then EmptyString
    else " DURING " ++ gp_dateRange args in
  "
      SELECT 
        ad_group_ad.ad.id,
        ad_group_ad.ad.name,
        ad_group_ad.ad.type,
        ad_group_ad.status,
        metrics.impressions,
        metrics.clicks,
        metrics.cost_micros,
        metrics.conversions,
        metrics.conversions_value,
        metrics.ctr,
        metrics.average_cpc,
        metrics.average_cpm,
        metrics.conversion_rate,
        metrics.cost_per_conversion,
        metrics.value_per_conversion,
        metrics.all_conversions,
        metrics.all_conversions_value
      FROM ad_group_ad
      WHERE ad_group_ad.ad.id = " ++ gp_adId args ++ "
        AND ad_group.id = " ++ gp_adGroupId args ++ "
      " ++ dateRangeClause ++ "
    ".

(** The returned object reads [response[0]] through optional chaining
    only; it is [format] of the date range and the first row. *)
Definition getAdPerformance (format : string -> Row -> JsVal)
    (args : GetAdPerformanceArgs) : Prog JsVal :=
  try_catch
    (response <- query (getAdPerformance_query args) ;;
     match response with
     | [] => Throw (ErrorObj "Ad not found")
     | row :: _ => Ret (format (gp_dateRange args) row)
     end)
    (fun error =>
       message <- settle (error_message error) ;;
       Throw (ErrorObj ("Failed to get ad performance: " ++ message))).

(** *** conversions.ts: the operation of updateConversionAction *)

Record ValueSettings := {
  vs_defaultValue : option float;
  vs_defaultCurrencyCode : option string;
  vs_alwaysUseDefaultValue : option bool }.

Record UpdateConversionActionArgs := {
  ua_conversionActionId : string;
  ua_name : option string;
  ua_status : option string;
  ua_valueSettings : option ValueSettings;
  ua_countingType : option string;
  ua_attributionModel : option string;
  ua_clickThroughLookbackWindowDays : option float;
  ua_viewThroughLookbackWindowDays : option float }.

Definition valueSettingsSchema : Schema ValueSettings :=
  z_object (fun p o =>
    Valid Build_ValueSettings
      <*> field (optional z_number) "defaultValue" p o
      <*> field (optional z_string) "defaultCurrencyCode" p o
      <*> field (optional z_boolean) "alwaysUseDefaultValue" p o).

Definition updateConversionActionSchema : Schema UpdateConversionActionArgs :=
  z_object (fun p o =>
    Valid Build_UpdateConversionActionArgs
      <*> field z_string "conversionActionId" p o
      <*> field (optional z_string) "name" p o
      <*> field (optional (z_enum ["ENABLED"; "REMOVED"; "HIDDEN"])) "status" p o
      <*> field (optional valueSettingsSchema) "valueSettings" p o
      <*> field (optional (z_enum ["ONE_PER_CLICK"; "MANY_PER_CLICK"]))
                "countingType" p o
      <*> field (optional
                   (z_enum ["EXTERNAL"; "GOOGLE_ADS_LAST_CLICK";
                            "GOOGLE_SEARCH_ATTRIBUTION_FIRST_CLICK";
                            "GOOGLE_SEARCH_ATTRIBUTION_LINEAR";
                            "GOOGLE_SEARCH_ATTRIBUTION_TIME_DECAY";
                            "GOOGLE_SEARCH_ATTRIBUTION_POSITION_BASED";
                            "GOOGLE_SEARCH_ATTRIBUTION_DATA_DRIVEN"]))
                "attributionModel" p o
      <*> field (optional z_number) "clickThroughLookbackWindowDays" p o
      <*> field (optional z_number) "viewThroughLookbackWindowDays" p o).

(** [updateObject.value_settings = {...}; updateMask.push(a, b, c)] *)
Definition assign_value_settings (st : Obj * list string) (x : option ValueSettings)
  : Obj * list string :=
  match x with
  | Some valueSettings =>
      (set (fst st) "value_settings" (VObj [
         ("default_value", opt_num (vs_defaultValue valueSettings));
         ("default_currency_code", opt_str (vs_defaultCurrencyCode valueSettings));
         ("always_use_default_value",
          opt_bool (vs_alwaysUseDefaultValue valueSettings)) ]),
       (snd st ++ ["value_settings.default_value";
                   "value_settings.default_currency_code";
                   "value_settings.always_use_default_value"])%list)
  | None => st
  end.

(** The update object and the mask that [updateConversionAction] builds. *)
Definition updateConversionAction_build (H : Host) (args : UpdateConversionActionArgs)
  : Obj * list string :=
  let st :=
    ([("resource_name",
       VStr ("customers/" ++ customer_id H ++ "/conversionActions/"
             ++ ua_conversionActionId args))],
     []) in
  let st := assign_masked st "name" (option_map VStr (ua_name args)) in
  let st := assign_masked st "status" (option_map VStr (ua_status args)) in
  let st := assign_masked st "counting_type" (option_map VStr (ua_countingType args)) in
  let st :=
    assign_masked st "attribution_model" (option_map VStr (ua_attributionModel args)) in
  let st :=
    assign_masked st "click_through_lookback_window_days"
      (option_map VNum (ua_clickThroughLookbackWindowDays args)) in
  let st :=
    assign_masked st "view_through_lookback_window_days"
      (option_map VNum (ua_viewThroughLookbackWindowDays args)) in
  assign_value_settings st (ua_valueSettings args).

Definition updateConversionAction_operation (H : Host)
    (args : UpdateConversionActionArgs) : Obj :=
  let '(updateObject, updateMask) := updateConversionAction_build H args in
  [("update", VObj updateObject);
   ("update_mask", VObj [("paths", VArr (map VStr updateMask))])].

(** *** keywords.ts: addKeywords *)

Definition addKeywords_operation (H : Host) (adGroupId : string)
    (keyword : KeywordSpec) : JsVal :=
  VObj [("create", VObj [
    ("ad_group", VStr ("customers/" ++ customer_id H ++ "/adGroups/" ++ adGroupId));
    ("status", VStr "ENABLED");
    ("keyword", VObj [("text", VStr (kw_text keyword));
                      ("match_type", VStr (kw_matchType keyword))]);
    ("cpc_bid_micros", opt_num (kw_cpcBidMicros keyword)) ])].

Definition addKeywords_request (H : Host) (params : AddKeywordsArgs) : Request :=
  Create adGroupCriteria
    (VArr (map (addKeywords_operation H (ak_adGroupId params)) (ak_keywords params))).

(** [v.split(sep).pop()], where [what] is the text of [v] in the source. *)
Definition split_pop (what : string) (sep : ascii) (v : JsVal) : Thrown + JsVal :=
  match v with
  | VUndefined => inl (type_error "undefined" "split")
  | VNull => inl (type_error "null" "split")
  | VStr s => inr (pop (split sep s))
  | _ => inl (ErrorObj (what ++ ".split is not a function"))
  end.

(** The callback of [results.map] on the result at index [i]. The
    results of the client are distinct objects, so that
    [results.indexOf(result)] is the index of [result]. *)
Definition addKeywords_entry (keywords : list KeywordSpec) (i : nat) (result : JsVal)
  : Prog JsVal :=
  resource_name <- settle (prop result "resource_name") ;;
  id <- settle (split_pop "result.resource_name" "/"%char resource_name) ;;
  match nth_error keywords i with
  | None => Throw (type_error "undefined" "text")
  | Some keyword =>
      Ret (VObj [("id", id);
                 ("text", VStr (kw_text keyword));
                 ("matchType", VStr (kw_matchType keyword))])
  end.

(** [array.map((x, i) => f i x)] where the callback may throw. *)
Fixpoint map_indexed {A B} (f : nat -> A -> Prog B) (i : nat) (l : list A)
  : Prog (list B) :=
  match l with
  | [] => Ret []
  | x :: rest => y <- f i x ;; ys <- map_indexed f (S i) rest ;; Ret (y :: ys)
  end.

Definition addKeywords (H : Host) (params : AddKeywordsArgs) : Prog JsVal :=
  results <- mutate (addKeywords_request H params) ;;
  addedKeywords <- settle (prop results "length") ;;
  keywords <-
    match results with
    | VArr items => map_indexed (addKeywords_entry (ak_keywords params)) 0 items
    | _ => Throw (ErrorObj "results.map is not a function")
    end ;;
  Ret (VObj [("success", VBool true);
             ("addedKeywords", addedKeywords);
             ("keywords", VArr keywords)]).

(* ------------------------------------------------------------------ *)
(** *** Observations on validation *)

(** Validation fails and [i] is one of the issues reported. *)
Definition rejects {A} (r : Parsed A) (i : Issue) : Prop :=
  exists issues, r = Invalid issues /\ In i issues.

(** A number that is not [NaN]. *)
Definition is_number (x : float) : Prop := PrimFloat.is_nan x = false.

Definition opt_is_number (x : option float) : Prop :=
  match x with Some v => is_number v | None => True end.

(** An optional enumeration value. *)
Definition opt_one_of (x : option string) (options : list string) : Prop :=
  match x with Some s => In s options | None => True end.

(** The answer of the dispatcher to arguments that fail validation. *)
Definition validation_failure (H : Host) (issues : list Issue) : Thrown :=
  McpError InternalError ("Tool execution failed: " ++ ZodError_message H issues).

(** The tools that a tool file exports and the dispatcher does not serve. *)
Definition unserved_tools : list string :=
  filter (fun name => negb (existsb (String.eqb name) (map td_name workingTools)))
         exported_tools.

(* ------------------------------------------------------------------ *)
(** *** Observations on the handlers *)

(** The object handed to [customer.campaigns.create], given the
    [resource_name] read from the budget just created. *)
Definition createCampaign_campaign (params : CreateCampaignArgs)
    (campaign_budget : JsVal) : Obj :=
  [ ("name", VStr (cc_name params));
    ("status", VStr (cc_status params));
    ("advertising_channel_type", VStr (cc_advertisingChannelType params));
    ("campaign_budget", campaign_budget) ].

(** What update_campaign returns. *)
Definition updateCampaign_result (params : UpdateCampaignArgs) : JsVal :=
  VObj [("success", VBool true); ("campaignId", VStr (uc_campaignId params))].

(** The budget resource that [updateCampaign] finds in the rows of its
    lookup: that of the first row, when it is truthy. *)
Definition found_budget (rows : list Row) : option JsVal :=
  match rows with
  | {| campaign_budget := Some b |} :: _ =>
      if truthy (b_resource_name b) then Some (b_resource_name b) else None
  | _ => None
  end.

(** What [catch (error) { throw new Error(`prefix${error.message}`) }]
    throws for the value it caught. *)
Definition rethrown (prefix : string) (error : Thrown) : Thrown :=
  match error_message error with
  | inl thrown => thrown
  | inr message => ErrorObj (prefix ++ message)
  end.

(** Whatever [p] throws is an [Error] whose message starts with [prefix],
    or the [TypeError] of reading the message of [null] or [undefined]. *)
Definition throws_only_with_prefix {A} (prefix : string) (p : Prog A) : Prop :=
  forall cl e,
    outcome cl p = inl e ->
    (exists m, e = ErrorObj (prefix ++ m)) \/
    e = ErrorObj "Cannot read properties of null (reading 'message')" \/
    e = ErrorObj "Cannot read properties of undefined (reading 'message')".

(** The character [c] occurs in [s]. *)
Fixpoint occurs (c : ascii) (s : string) : bool :=
  match s with
  | EmptyString => false
  | String c' rest => Ascii.eqb c' c || occurs c rest
  end.

(** A client that answers every mutation with one result of the given
    resource name. *)
Definition creating_client (resource_name : string) : ClientBehaviour := {|
  on_query := fun _ _ => inr [];
  on_mutate := fun _ _ =>
    inr (VObj [("results", VArr [VObj [("resource_name", VStr resource_name)]])]) |}.

(** The metrics of a campaign without any. *)
Definition zero_metrics : EntryMetrics := {|
  e_clicks := 0; e_impressions := 0; e_cost := 0; e_conversions := 0;
  e_revenue := 0; e_ctr := 0; e_conversionRate := 0; e_cpa := 0; e_roas := 0;
  e_searchImpressionShare := 0; e_searchRankLostImpressionShare := 0;
  e_searchBudgetLostImpressionShare := 0 |}%float.

Definition zero_totals : Totals := {|
  t_clicks := 0; t_impressions := 0; t_cost := 0; t_conversions := 0;
  t_revenue := 0; t_ctr := 0; t_conversionRate := 0; t_cpa := 0; t_roas := 0 |}%float.

(** The date ranges [getTopBottomProductsSchema] accepts. *)
Definition product_dateRanges : list string :=
  ["TODAY"; "YESTERDAY"; "LAST_7_DAYS"; "LAST_30_DAYS"; "THIS_MONTH"; "LAST_MONTH"].

(** An environment with every variable set. *)
Definition demo_env : Env := {|
  GOOGLE_ADS_CLIENT_ID := Some "id.apps.googleusercontent.com";
  GOOGLE_ADS_CLIENT_SECRET := Some "secret";
  GOOGLE_ADS_DEVELOPER_TOKEN := Some "token";
  GOOGLE_ADS_REFRESH_TOKEN := Some "refresh";
  GOOGLE_ADS_CUSTOMER_ID := Some "1234567890";
  GOOGLE_ADS_LOGIN_CUSTOMER_ID := None |}.

(** The five variables [configSchema] requires, with the key each fills. *)
Definition required_variables (env : Env) : list (string * option string) :=
  [ ("clientId", GOOGLE_ADS_CLIENT_ID env);
    ("clientSecret", GOOGLE_ADS_CLIENT_SECRET env);
    ("developerToken", GOOGLE_ADS_DEVELOPER_TOKEN env);
    ("refreshToken", GOOGLE_ADS_REFRESH_TOKEN env);
    ("customerId", GOOGLE_ADS_CUSTOMER_ID env) ].

Definition issue_key (i : ConfigIssue) : string :=
  match i with
  | config_required k => k
  | config_too_small k _ => k
  end.

(* ------------------------------------------------------------------ *)
(** *** Observations on the operations *)

(** The top-level fields of an update of a conversion action that the
    caller supplied, under their API names and in the order of the
    source. *)
Definition supplied_conversion_fields (args : UpdateConversionActionArgs)
  : list string :=
  (match ua_name args with Some _ => ["name"] | None => [] end ++
   match ua_status args with Some _ => ["status"] | None => [] end ++
   match ua_countingType args with Some _ => ["counting_type"] | None => [] end ++
   match ua_attributionModel args with Some _ => ["attribution_model"] | None => [] end ++
   match ua_clickThroughLookbackWindowDays args with
   | Some _ => ["click_through_lookback_window_days"] | None => [] end ++
   match ua_viewThroughLookbackWindowDays args with
   | Some _ => ["view_through_lookback_window_days"] | None => [] end)%list.

Definition value_settings_paths : list string :=
  ["value_settings.default_value"; "value_settings.default_currency_code";
   "value_settings.always_use_default_value"].

(** The entry [addKeywords] reports for a result named [resource_name]
    next to the keyword it was sent for. *)
Definition keyword_entry (resource_name : string) (keyword : KeywordSpec) : JsVal :=
  VObj [("id", pop (split "/" resource_name));
        ("text", VStr (kw_text keyword));
        ("matchType", VStr (kw_matchType keyword))].

(** The resource name that the result [item] carries. *)
Definition named (item : JsVal) (resource_name : string) : Prop :=
  prop item "resource_name" = inr (VStr resource_name).

(** Two keywords, and a client that answers every mutation with two
    results. *)
Definition two_keywords : AddKeywordsArgs := {|
  ak_adGroupId := "456";
  ak_keywords :=
    [ {| kw_text := "shoes"; kw_matchType := "EXACT"; kw_cpcBidMicros := None |};
      {| kw_text := "boots"; kw_matchType := "BROAD";
         kw_cpcBidMicros := Some 1500000%float |} ] |}.

Definition two_results : list JsVal :=
  [ VObj [("resource_name", VStr "customers/1/adGroupCriteria/456~11")];
    VObj [("resource_name", VStr "customers/1/adGroupCriteria/456~12")] ].

Definition two_results_client : ClientBehaviour := {|
  on_query := fun _ _ => inr [];
  on_mutate := fun _ _ => inr (VArr two_results) |}.

(* ------------------------------------------------------------------ *)
(** *** shopping.ts: the roas of a product row *)

(** Truthiness of a value declared [string | number | undefined]. *)
Definition micros_truthy (m : Micros) : bool :=
  match m with
  | MicrosUndefined | MicrosNull => false
  | MicrosNumber x => num_truthy x
  | MicrosString s => str_truthy s
  end.

(** [row.metrics?.conversions_value && row.metrics?.cost_micros
      ? (Number(row.metrics.conversions_value) / Number(row.metrics.cost_micros))
      : 0], as [getProductPerformance], [getProductPartitionPerformance] and
    [formatProduct] compute [roas]. *)
Definition product_roas (H : Host) (row : Row) : float :=
  if micros_truthy (of_metrics row m_conversions_value MicrosUndefined)
     && micros_truthy (of_metrics row m_cost_micros MicrosUndefined)
  then (Number H (of_metrics row m_conversions_value MicrosUndefined)
        / Number H (of_metrics row m_cost_micros MicrosUndefined))%float
  else 0%float.

(** [Infinity], [-Infinity] or [NaN]: what [JSON.stringify] writes as
    [null]. *)
Definition not_finite (x : float) : bool :=
  match Prim2SF x with
  | S754_infinity _ | S754_nan => true
  | S754_zero _ | S754_finite _ _ _ => false
  end.

(** A row of metrics whose micros are strings, as the API sends 64-bit
    integers. *)
Definition string_metrics (cost revenue : string) : Row := {|
  campaign := None; campaign_budget := None; ad_group := None;
  metrics := Some {|
    m_clicks := None; m_impressions := None;
    m_cost_micros := MicrosString cost; m_conversions := None;
    m_conversions_value := MicrosString revenue;
    m_ctr := None; m_conversion_rate := None;
    m_search_impression_share := None;
    m_search_rank_lost_impression_share := None;
    m_search_budget_lost_impression_share := None |} |}.

(** A host that reads the strings [0] and [5000000] as JavaScript does. *)
Definition reading_host : Host := {|
  customer_id := "1234567890";
  NumberToString := fun _ => "100";
  StringToNumber := fun s =>
    if String.eqb s "0" then 0%float
    else if String.eqb s "5000000" then 5000000%float
    else PrimFloat.nan;
  JSON_stringify := fun _ => "{}";
  ZodError_message := fun _ => "Required" |}.

(** *** shopping.ts and analytics.ts: amounts in currency units *)








(** *** Fixtures for the update operations and the switch *)



(** Handlers that return at once. *)
Definition idle_handlers : Handlers := {|
  h_listCampaigns := fun _ => Ret VNull;
  h_createCampaign := fun _ => Ret VNull;
  h_updateCampaign := fun _ => Ret VNull;
  h_addKeywords := fun _ => Ret VNull;
  h_addNegativeKeywords := fun _ => Ret VNull;
  h_updateKeyword := fun _ => Ret VNull;
  h_getSearchTermsReport := fun _ => Ret VNull;
  h_listAdGroups := fun _ => Ret VNull;
  h_createAdGroup := fun _ => Ret VNull;
  h_updateAdGroup := fun _ => Ret VNull;
  h_getAdGroup := fun _ => Ret VNull;
  h_listAds := fun _ => Ret VNull |}.

(* ================================================================== *)
(** * Properties *)

(** ** Running programs *)

Section RunLaws.
Context {A B : Type} (cl : ClientBehaviour).

Lemma run_from_bind (p : Prog A) (f : A -> Prog B) (done : list ExternalCall) :
  run_from cl done (bind p f) =
  match run_from cl done p with
  | (tr, inr a) => run_from cl tr (f a)
  | (tr, inl e) => (tr, inl e)
  end.
Proof.
  revert done; induction p as [a | e | q k IH | m k IH]; intros done; simpl.
  - reflexivity.
  - reflexivity.
  - apply IH.
  - apply IH.
Qed.

Lemma run_from_try_catch (p : Prog A) (h : Thrown -> Prog A)
    (done : list ExternalCall) :
  run_from cl done (try_catch p h) =
  match run_from cl done p with
  | (tr, inr a) => (tr, inr a)
  | (tr, inl e) => run_from cl tr (h e)
  end.
Proof.
  revert done; induction p as [a | e | q k IH | m k IH]; intros done; simpl.
  - reflexivity.
  - reflexivity.
  - apply IH.
  - apply IH.
Qed.

(** Calls already made stay in the trace. *)
Lemma run_from_extends (p : Prog A) (done : list ExternalCall) :
  exists more, fst (run_from cl done p) = (done ++ more)%list.
Proof.
  revert done; induction p as [a | e | q k IH | m k IH]; intros done; simpl.
  - exists []; now rewrite app_nil_r.
  - exists []; now rewrite app_nil_r.
  - destruct (IH (on_query cl done q) (done ++ [CallQuery q])%list) as [more Hm].
    exists (CallQuery q :: more). rewrite Hm, <- app_assoc. reflexivity.
  - destruct (IH (on_mutate cl done m) (done ++ [CallMutate m])%list) as [more Hm].
    exists (CallMutate m :: more). rewrite Hm, <- app_assoc. reflexivity.
Qed.

Lemma calls_of_query_nonempty (q : string) (k : Thrown + list Row -> Prog A) :
  calls cl (Query q k) <> [].
Proof.
  unfold calls, run. cbn [run_from].
  destruct (run_from_extends (k (on_query cl [] q)) ([] ++ [CallQuery q])) as [more Hm].
  rewrite Hm. discriminate.
Qed.

Lemma mutate_then_run (m : Request) (f : JsVal -> Prog A) :
  run cl (bind (mutate m) f) =
  match on_mutate cl [] m with
  | inl e => ([CallMutate m], inl e)
  | inr v => run_from cl [CallMutate m] (f v)
  end.
Proof.
  unfold run, mutate. cbn [bind run_from]. simpl app.
  destruct (on_mutate cl [] m) as [e | v]; reflexivity.
Qed.

End RunLaws.

(** A handler that awaits two queries inside one [try]. *)
Lemma two_queries_calls {A} (cl : ClientBehaviour) (q1 q2 : string)
    (f : list Row -> list Row -> A) (h : Thrown -> Prog A) :
  (forall e, exists e', h e = Throw e') ->
  calls cl (try_catch (top <- query q1 ;; bottom <- query q2 ;; Ret (f top bottom)) h) =
    match on_query cl [] q1 with
    | inl _ => [CallQuery q1]
    | inr _ => [CallQuery q1; CallQuery q2]
    end.
Proof.
  intros Hh. unfold calls, run, query. cbn [bind try_catch run_from]. simpl app.
  destruct (on_query cl [] q1) as [e | rows]; cbn [settle bind try_catch run_from].
  - destruct (Hh e) as [e' ->]. reflexivity.
  - simpl app.
    destruct (on_query cl _ q2) as [e | rows2]; cbn [settle bind try_catch run_from].
    + destruct (Hh e) as [e' ->]. reflexivity.
    + reflexivity.
Qed.

(** The [catch] of a handler always throws. *)
Lemma catch_throws {A} (prefix : string) (e : Thrown) :
  (message <- settle (error_message e) ;;
   Throw (ErrorObj (prefix ++ message)) : Prog A) = Throw (rethrown prefix e).
Proof. unfold rethrown. destruct (error_message e); reflexivity. Qed.

(** ** Strings *)

Lemma prefix_refl (s : string) : String.prefix s s = true.
Proof.
  induction s as [| a s IH]; simpl; [reflexivity |].
  destruct (Ascii.ascii_dec a a) as [_ | n]; [exact IH | now elim n].
Qed.

Lemma includes_suffix (p m : string) : includes (p ++ m) m = true.
Proof.
  induction p as [| a p IH]; simpl.
  - destruct m; simpl; [reflexivity |].
    rewrite (proj2 (orb_true_iff _ _)); [reflexivity |].
    left. destruct (Ascii.ascii_dec a a) as [_ | n]; [apply prefix_refl | now elim n].
  - rewrite IH. apply orb_true_r.
Qed.

(** ** The dispatcher *)

Lemma callTool_run (cl : ClientBehaviour) (H : Host) (T : Handlers)
    (name : string) (args : JsVal) :
  run cl (callTool H T name args) =
  match run cl (callTool_switch H T name args) with
  | (tr, inr v) => (tr, inr v)
  | (tr, inl e) => (tr, inl (rewrap e))
  end.
Proof.
  unfold run, callTool. rewrite run_from_try_catch.
  destruct (run_from cl [] (callTool_switch H T name args)) as [tr [e | v]];
    reflexivity.
Qed.

Lemma rewrap_is_mcp (e : Thrown) : exists c m, rewrap e = McpError c m.
Proof. destruct e as [c m | m | o | |]; simpl; eauto. Qed.

Lemma tool_case_run {A} (cl : ClientBehaviour) (H : Host) (s : Schema A)
    (h : A -> Prog JsVal) (args : JsVal) (a : A) :
  parse s args = Valid a ->
  run cl (tool_case H s h args) =
  match run cl (h a) with
  | (tr, inr r) => (tr, inr (content H r))
  | (tr, inl e) => (tr, inl e)
  end.
Proof.
  intros Hp. unfold run, tool_case, parse_or_throw. rewrite Hp.
  change (bind (Ret a) ?f) with (f a). cbv beta.
  rewrite run_from_bind.
  destruct (run_from cl [] (h a)) as [tr [e | r]]; reflexivity.
Qed.

Lemma callTool_switch_resolved (H : Host) (T : Handlers) (t : Tool) (args : JsVal) :
  callTool_switch H T (tool_name t) args =
  tool_case H (schema_of t) (handler_of T t) args.
Proof. destruct t; reflexivity. Qed.

Lemma registry_names : map td_name workingTools = map tool_name all_tools.
Proof. reflexivity. Qed.

Lemma resolve_registered (name : string) :
  In name (map td_name workingTools) -> exists t, tool_name t = name.
Proof.
  rewrite registry_names. intros Hin. apply in_map_iff in Hin.
  destruct Hin as [t [Ht _]]. now exists t.
Qed.

Lemma switch_unknown (H : Host) (T : Handlers) (name : string) (args : JsVal) :
  ~ In name (map td_name workingTools) ->
  callTool_switch H T name args =
    Throw (McpError MethodNotFound ("Unknown tool: " ++ name)).
Proof.
  intros Hnot. unfold callTool_switch.
  repeat match goal with
  | |- context [String.eqb name ?s] =>
      let E := fresh "E" in
      destruct (String.eqb_spec name s) as [E | E];
      [ exfalso; apply Hnot; rewrite E; simpl; tauto | ]
  end.
  reflexivity.
Qed.

Lemma spec_dispatch_run (cl : ClientBehaviour) (H : Host) (T : Handlers)
    (name : string) (args : JsVal) :
  run cl (spec_dispatch H T name args) =
  match run cl (callTool_switch H T name args) with
  | (tr, inr v) => (tr, inr v)
  | (tr, inl e) => (tr, inl (spec_rewrap e))
  end.
Proof.
  unfold spec_dispatch.
  destruct (resolve name) as [t |] eqn:Er.
  - apply find_some in Er. destruct Er as [_ Et]. apply String.eqb_eq in Et.
    subst name. rewrite callTool_switch_resolved.
    unfold tool_case, parse_or_throw, success_envelope, content.
    destruct (parse (schema_of t) args) as [a | issues]; [| reflexivity].
    change (bind (Ret a) ?f) with (f a). cbv beta.
    unfold run. rewrite run_from_try_catch.
    match goal with |- context [run_from cl [] ?p] =>
      destruct (run_from cl [] p) as [tr [e | v]] end; reflexivity.
  - rewrite switch_unknown; [reflexivity |].
    intros Hin. destruct (resolve_registered name Hin) as [t Ht].
    assert (Hall : In t all_tools) by (destruct t; simpl; tauto).
    pose proof (find_none _ _ Er t Hall) as Hf. cbv beta in Hf.
    apply String.eqb_neq in Hf. contradiction.
Qed.

(** X1. For every host, handlers, name, arguments and client, the
    dispatcher of index.ts makes the external calls and gives the result
    of the specification's five steps (resolve the name in the registry,
    validate with the tool's schema, invoke its handler, wrap the result,
    rewrap what is thrown with its original message), with one
    exception: when the value thrown is not an [Error] and carries a
    message, the specification's fifth step carries that message and the
    dispatcher answers [Unknown error occurred]. *)
Theorem callTool_refines_spec (H : Host) (T : Handlers) (name : string) (args : JsVal)
    (cl : ClientBehaviour) :
  match run cl (callTool_switch H T name args) with
  | (tr, inl (OtherObj (Some m))) =>
      run cl (callTool H T name args) =
        (tr, inl (McpError InternalError
                    "Tool execution failed: Unknown error occurred")) /\
      run cl (spec_dispatch H T name args) =
        (tr, inl (McpError InternalError ("Tool execution failed: " ++ m)))
  | _ => run cl (callTool H T name args) = run cl (spec_dispatch H T name args)
  end.
Proof.
  rewrite callTool_run, spec_dispatch_run.
  destruct (run cl (callTool_switch H T name args)) as [tr [e | v]];
    [| reflexivity].
  destruct e as [c m | m | [m |] | |]; try reflexivity. split; reflexivity.
Qed.

(** X2. The names of the registry are pairwise distinct, and a name is
    in the registry exactly when the dispatcher's [switch] has a case for
    it: outside the registry every call falls through to the default,
    which throws method-not-found; inside it some call does not. *)
Theorem registry_names_unique :
  NoDup (map td_name workingTools) /\
  (forall name,
     In name (map td_name workingTools) <->
     exists H T args,
       callTool_switch H T name args <>
         Throw (McpError MethodNotFound ("Unknown tool: " ++ name))).
Proof.
  split.
  - simpl. repeat (constructor; [simpl; intuition discriminate |]). constructor.
  - intros name. split.
    + intros Hin. destruct (resolve_registered name Hin) as [t <-].
      exists demo_host, idle_handlers, VNull.
      rewrite callTool_switch_resolved. destruct t; discriminate.
    + intros (H & T & args & Hcase).
      destruct (in_dec string_dec name (map td_name workingTools)) as [Hin | Hout];
        [exact Hin |].
      elim Hcase. apply switch_unknown. exact Hout.
Qed.

Lemma getAdGroup_always_queries (cl : ClientBehaviour) (a : GetAdGroupArgs) :
  calls cl (getAdGroup a) <> [].
Proof.
  unfold getAdGroup, query. cbn [try_catch bind]. apply calls_of_query_nonempty.
Qed.

Lemma getAdGroup_zero_rows (cl : ClientBehaviour) (args : GetAdGroupArgs) :
  on_query cl [] (getAdGroup_query args) = inr [] ->
  run cl (getAdGroup args) =
    ([CallQuery (getAdGroup_query args)],
     inl (ErrorObj "Failed to get ad group: Ad group not found")).
Proof.
  intros Hq. unfold run, getAdGroup. rewrite run_from_try_catch.
  unfold query. simpl. rewrite Hq. simpl. reflexivity.
Qed.

(** ** Binary64 rounding of an exactly representable product *)

Section Rounding.
Local Open Scope Z_scope.

Lemma iter_pos_nat {A} (f : A -> A) (n : positive) (x : A) :
  iter_pos f n x = Nat.iter (Pos.to_nat n) f x.
Proof.
  revert x; induction n as [n IH | n IH |]; intros x; cbn [iter_pos].
  - rewrite !IH, Pos2Nat.inj_xI.
    replace (S (2 * Pos.to_nat n))%nat
      with (Pos.to_nat n + (Pos.to_nat n + 1))%nat by lia.
    rewrite !Nat.iter_add. reflexivity.
  - rewrite !IH, Pos2Nat.inj_xO.
    replace (2 * Pos.to_nat n)%nat with (Pos.to_nat n + Pos.to_nat n)%nat by lia.
    rewrite Nat.iter_add. reflexivity.
  - reflexivity.
Qed.

(** Shifting out [k] zero bits leaves no remainder. *)
Lemma shr_exact (k : nat) (p : positive) :
  Nat.iter k shr_1
    {| shr_m := Zpos p * 2 ^ Z.of_nat k; shr_r := false; shr_s := false |} =
  {| shr_m := Zpos p; shr_r := false; shr_s := false |}.
Proof.
  induction k as [| k IH].
  - simpl. rewrite Pos.mul_1_r. reflexivity.
  - assert (Hpos : 0 < Zpos p * 2 ^ Z.of_nat k)
      by (apply Z.mul_pos_pos; [lia | apply Z.pow_pos_nonneg; lia]).
    rewrite Nat.iter_succ_r.
    replace (Zpos p * 2 ^ Z.of_nat (S k))
      with (Zpos (Z.to_pos (Zpos p * 2 ^ Z.of_nat k))~0).
    + cbn [shr_1 orb]. rewrite Z2Pos.id by exact Hpos. exact IH.
    + rewrite Pos2Z.inj_xO, Z2Pos.id by exact Hpos.
      rewrite Nat2Z.inj_succ, Z.pow_succ_r by lia. ring.
Qed.

Lemma digits_shift (k : nat) (p : positive) :
  Zdigits2 (Zpos p * 2 ^ Z.of_nat k) = Zdigits2 (Zpos p) + Z.of_nat k.
Proof.
  revert p; induction k as [| k IH]; intros p.
  - simpl. rewrite Pos.mul_1_r. lia.
  - replace (Zpos p * 2 ^ Z.of_nat (S k)) with (Zpos p~0 * 2 ^ Z.of_nat k).
    + rewrite IH. cbn [Zdigits2 digits2_pos]. lia.
    + rewrite Nat2Z.inj_succ, Z.pow_succ_r by lia. rewrite (Pos2Z.inj_xO p). ring.
Qed.

Lemma digits_upper (p : positive) (k : nat) :
  Zpos p < 2 ^ Z.of_nat k -> Zpos (digits2_pos p) <= Z.of_nat k.
Proof.
  revert k; induction p as [p IH | p IH |]; intros k Hlt; cbn [digits2_pos].
  - destruct k as [| k]; [simpl in Hlt; lia |].
    rewrite Nat2Z.inj_succ, Z.pow_succ_r in Hlt by lia.
    specialize (IH k). rewrite Pos2Z.inj_succ. lia.
  - destruct k as [| k]; [simpl in Hlt; lia |].
    rewrite Nat2Z.inj_succ, Z.pow_succ_r in Hlt by lia.
    specialize (IH k). rewrite Pos2Z.inj_succ. lia.
  - destruct k as [| k]; [simpl in Hlt; lia |]. lia.
Qed.

Lemma digits_lower (p : positive) (k : nat) :
  2 ^ Z.of_nat k <= Zpos p -> Z.of_nat k < Zpos (digits2_pos p).
Proof.
  revert k; induction p as [p IH | p IH |]; intros k Hle; cbn [digits2_pos].
  - destruct k as [| k]; [lia |].
    rewrite Nat2Z.inj_succ, Z.pow_succ_r in Hle by lia.
    specialize (IH k). rewrite Pos2Z.inj_succ. lia.
  - destruct k as [| k]; [lia |].
    rewrite Nat2Z.inj_succ, Z.pow_succ_r in Hle by lia.
    specialize (IH k). rewrite Pos2Z.inj_succ. lia.
  - destruct k as [| k]; [lia |].
    rewrite Nat2Z.inj_succ, Z.pow_succ_r in Hle by lia.
    assert (0 < 2 ^ Z.of_nat k) by (apply Z.pow_pos_nonneg; lia). lia.
Qed.

Lemma fexp_small (x : Z) : -1021 <= x -> fexp prec emax x = x - 53.
Proof. intros Hx. unfold fexp, SpecFloat.emin, prec, emax. lia. Qed.

Lemma shr_by (p : positive) (e : Z) (j : nat) :
  shr {| shr_m := Zpos p * 2 ^ Z.of_nat j; shr_r := false; shr_s := false |}
      e (Z.of_nat j) =
  ({| shr_m := Zpos p; shr_r := false; shr_s := false |}, e + Z.of_nat j).
Proof.
  destruct j as [| j].
  - simpl. rewrite Pos.mul_1_r, Z.add_0_r. reflexivity.
  - pose proof (shr_exact (S j) p) as Hx. unfold shr.
    destruct (Z.of_nat (S j)) as [| q | q] eqn:Eq; try lia.
    rewrite iter_pos_nat. replace (Pos.to_nat q) with (S j) by lia.
    rewrite Hx. reflexivity.
Qed.

(** A mantissa [N * 2^(i+j)] at exponent [-(i+j)], where [N] has [53 - i]
    digits, rounds to [N * 2^i] at exponent [-i]: nothing is lost. *)
Lemma round_exact (sgn : bool) (N : positive) (i j : nat) :
  Zdigits2 (Zpos N) = 53 - Z.of_nat i ->
  binary_round_aux prec emax sgn
    (Zpos N * 2 ^ Z.of_nat (i + j)) (- Z.of_nat (i + j)) loc_Exact =
  S754_finite sgn (Z.to_pos (Zpos N * 2 ^ Z.of_nat i)) (- Z.of_nat i).
Proof.
  intros Hd.
  assert (Hi : (i <= 52)%nat).
  { cbn [Zdigits2] in Hd. pose proof (Pos2Z.is_pos (digits2_pos N)). lia. }
  assert (Hpos : 0 < Zpos N * 2 ^ Z.of_nat i)
    by (apply Z.mul_pos_pos; [lia | apply Z.pow_pos_nonneg; lia]).
  set (m1 := Z.to_pos (Zpos N * 2 ^ Z.of_nat i)).
  assert (Hm1 : Zpos m1 = Zpos N * 2 ^ Z.of_nat i)
    by (subst m1; apply Z2Pos.id; exact Hpos).
  assert (HM : Zpos N * 2 ^ Z.of_nat (i + j) = Zpos m1 * 2 ^ Z.of_nat j).
  { rewrite Hm1, Nat2Z.inj_add, Z.pow_add_r by lia. ring. }
  unfold binary_round_aux.
  assert (S1 : shr_fexp prec emax (Zpos N * 2 ^ Z.of_nat (i + j))
                 (- Z.of_nat (i + j)) loc_Exact =
               ({| shr_m := Zpos m1; shr_r := false; shr_s := false |},
                - Z.of_nat i)).
  { unfold shr_fexp. rewrite digits_shift, Hd.
    rewrite fexp_small by lia.
    replace (53 - Z.of_nat i + Z.of_nat (i + j) + - Z.of_nat (i + j) - 53
             - - Z.of_nat (i + j))
      with (Z.of_nat j) by lia.
    cbn [shr_record_of_loc]. rewrite HM, shr_by. f_equal. lia. }
  rewrite S1. cbn [shr_m loc_of_shr_record round_nearest_even].
  assert (S2 : shr_fexp prec emax (Zpos m1) (- Z.of_nat i) loc_Exact =
               ({| shr_m := Zpos m1; shr_r := false; shr_s := false |},
                - Z.of_nat i)).
  { unfold shr_fexp. rewrite Hm1, digits_shift, Hd, fexp_small by lia.
    replace (53 - Z.of_nat i + Z.of_nat i + - Z.of_nat i - 53 - - Z.of_nat i)
      with 0 by lia.
    reflexivity. }
  rewrite S2. cbn [shr_m].
  replace (- Z.of_nat i <=? emax - prec) with true; [reflexivity |].
  symmetry. apply Z.leb_le. unfold emax, prec. lia.
Qed.

Lemma exact_integer_rounded (sgn : bool) (N : positive) (i : nat) :
  exact_integer
    (S754_finite sgn (Z.to_pos (Zpos N * 2 ^ Z.of_nat i)) (- Z.of_nat i)) 1 =
  Some (cond_Zopp sgn (Zpos N)).
Proof.
  assert (Hp : 0 < 2 ^ Z.of_nat i) by (apply Z.pow_pos_nonneg; lia).
  unfold exact_integer. rewrite Z2Pos.id by (apply Z.mul_pos_pos; lia).
  rewrite Z.mul_1_r.
  destruct (0 <=? - Z.of_nat i) eqn:E.
  - apply Z.leb_le in E. replace (Z.of_nat i) with 0 by lia.
    change (2 ^ 0) with 1. change (2 ^ (- 0)) with 1. rewrite !Z.mul_1_r.
    reflexivity.
  - rewrite Z.opp_involutive, Z.mod_mul by lia. simpl (0 =? 0).
    cbv iota. rewrite Z.div_mul by lia. reflexivity.
Qed.

(** What [scaled_exactly] says about the mantissa of the product with
    1,000,000 = 8589934592000000 * 2^-33. *)
Lemma scaled_relation (s : bool) (mx : positive) (ex n : Z) :
  exact_integer (S754_finite s mx ex) 1000000 = Some n ->
  Z.abs n < 2 ^ 53 ->
  exists N : positive,
    n = cond_Zopp s (Zpos N) /\ ex <= 33 /\
    Zpos (mx * 8589934592000000) = Zpos N * 2 ^ (33 - ex).
Proof.
  unfold exact_integer. intros Hn Hb.
  destruct (0 <=? ex) eqn:E.
  - apply Z.leb_le in E.
    assert (Hn' : n = cond_Zopp s (Zpos mx * 1000000 * 2 ^ ex)) by congruence.
    clear Hn. subst n.
    assert (Hpow : 0 < 2 ^ ex) by (apply Z.pow_pos_nonneg; lia).
    assert (Habs : Z.abs (cond_Zopp s (Zpos mx * 1000000 * 2 ^ ex)) =
                   Zpos mx * 1000000 * 2 ^ ex).
    { destruct s; cbn [cond_Zopp]; [rewrite Z.abs_opp |]; apply Z.abs_eq; nia. }
    rewrite Habs in Hb.
    assert (Hex : ex <= 33).
    { destruct (Z_le_gt_dec ex 33) as [Hle | Hgt]; [exact Hle | exfalso].
      assert (2 ^ 34 <= 2 ^ ex) by (apply Z.pow_le_mono_r; lia).
      change (2 ^ 34) with 17179869184 in *.
      change (2 ^ 53) with 9007199254740992 in *. nia. }
    exists (Z.to_pos (Zpos mx * 1000000 * 2 ^ ex)).
    rewrite Z2Pos.id by nia. split; [reflexivity |]. split; [exact Hex |].
    rewrite Pos2Z.inj_mul.
    replace (2 ^ (33 - ex)) with (2 ^ 33 / 2 ^ ex).
    + assert (Hd : 2 ^ 33 = 2 ^ ex * (2 ^ 33 / 2 ^ ex)).
      { apply Z.div_exact; [lia |].
        replace 33 with (ex + (33 - ex)) at 1 by lia.
        rewrite Z.pow_add_r by lia. rewrite Z.mul_comm. apply Z.mod_mul. lia. }
      change (Zpos 8589934592000000) with (1000000 * 2 ^ 33).
      rewrite Hd at 1. ring.
    + replace 33 with (ex + (33 - ex)) at 1 by lia.
      rewrite Z.pow_add_r by lia. rewrite Z.mul_comm. apply Z.div_mul. lia.
  - apply Z.leb_gt in E.
    destruct ((Zpos mx * 1000000) mod 2 ^ (- ex) =? 0) eqn:Em; [| discriminate].
    apply Z.eqb_eq in Em.
    assert (Hn' : n = cond_Zopp s (Zpos mx * 1000000 / 2 ^ (- ex))) by congruence.
    clear Hn. subst n.
    assert (Hpow : 0 < 2 ^ (- ex)) by (apply Z.pow_pos_nonneg; lia).
    assert (Hq : Zpos mx * 1000000 =
                 2 ^ (- ex) * (Zpos mx * 1000000 / 2 ^ (- ex)))
      by (apply Z.div_exact; lia).
    assert (Hqpos : 0 < Zpos mx * 1000000 / 2 ^ (- ex)) by nia.
    exists (Z.to_pos (Zpos mx * 1000000 / 2 ^ (- ex))).
    rewrite Z2Pos.id by exact Hqpos. split; [reflexivity |]. split; [lia |].
    rewrite Pos2Z.inj_mul. change (Zpos 8589934592000000) with (1000000 * 2 ^ 33).
    replace (33 - ex) with (- ex + 33) by lia. rewrite Z.pow_add_r by lia.
    set (q := Zpos mx * 1000000 / 2 ^ (- ex)) in *.
    rewrite Z.mul_assoc, Hq. ring.
Qed.

(** The binary64 product with 1,000,000 is exact whenever the exact
    product is an integer below 2^53 in magnitude. *)
Lemma mul_million_exact (b : float) (n : Z) :
  scaled_exactly b = Some n ->
  Z.abs n < 2 ^ 53 ->
  integer_value (b * 1000000)%float = Some n.
Proof.
  unfold scaled_exactly, integer_value. intros Hn Hb.
  rewrite mul_spec.
  change (Prim2SF 1000000%float) with (S754_finite false 8589934592000000 (-33)).
  destruct (Prim2SF b) as [s | s | | s mx ex]; try discriminate.
  - injection Hn as <-. reflexivity.
  - destruct (scaled_relation s mx ex n Hn Hb) as (N & -> & Hex & HM).
    assert (HN : Zpos N < 2 ^ 53).
    { destruct s; cbn [cond_Zopp] in Hb; lia. }
    pose proof (digits_upper N 53 HN) as Hup.
    pose proof (Pos2Z.is_pos (digits2_pos N)) as Hlow.
    set (i := Z.to_nat (53 - Zpos (digits2_pos N))).
    assert (Hd : Zdigits2 (Zpos N) = 53 - Z.of_nat i).
    { cbn [Zdigits2]. subst i. rewrite Z2Nat.id; lia. }
    assert (Hbig : 2 ^ Z.of_nat 52 <= Zpos (mx * 8589934592000000)).
    { rewrite Pos2Z.inj_mul. change (2 ^ Z.of_nat 52) with 4503599627370496. lia. }
    apply digits_lower in Hbig.
    assert (Ht : 33 - ex = Z.of_nat (Z.to_nat (33 - ex))) by (rewrite Z2Nat.id; lia).
    change (Zpos (digits2_pos (mx * 8589934592000000)))
      with (Zdigits2 (Zpos (mx * 8589934592000000))) in Hbig.
    rewrite HM, Ht in Hbig. rename Hbig into Hdig.
    rewrite digits_shift, Hd in Hdig.
    set (j := (Z.to_nat (33 - ex) - i)%nat).
    assert (Hij : 33 - ex = Z.of_nat (i + j)) by (subst j; lia).
    unfold SF64mul, SFmul.
    replace (ex + -33) with (- Z.of_nat (i + j)) by lia.
    rewrite HM, Hij, (round_exact _ N i j Hd), xorb_false_r.
    apply exact_integer_rounded.
Qed.

End Rounding.

Lemma zero_not_below_zero (x : float) :
  (x =? 0)%float = true -> (0 <? x)%float = false.
Proof.
  rewrite eqb_spec, ltb_spec.
  change (Prim2SF 0%float) with (S754_zero false).
  destruct (Prim2SF x) as [s | s | | s m e]; try discriminate; try reflexivity.
  - destruct s; discriminate.
  - destruct s; discriminate.
Qed.

(** ** A binary64 quotient by 1,000,000 is a number *)

Section Numbers.
Local Open Scope Z_scope.







End Numbers.





(* ================================================================== *)
(** * The claims *)

(** ** C1: conversion to and from micros *)












(** ** C2: totals of the campaign comparison *)

Lemma fold_sums_step (l : list CampaignEntry) (acc : Sums) :
  let out := fold_left sums_step l acc in
  s_clicks out =
    fold_left PrimFloat.add (map (fun c => e_clicks (e_metrics c)) l) (s_clicks acc) /\
  s_impressions out =
    fold_left PrimFloat.add (map (fun c => e_impressions (e_metrics c)) l)
      (s_impressions acc) /\
  s_cost out =
    fold_left PrimFloat.add (map (fun c => e_cost (e_metrics c)) l) (s_cost acc) /\
  s_conversions out =
    fold_left PrimFloat.add (map (fun c => e_conversions (e_metrics c)) l)
      (s_conversions acc) /\
  s_revenue out =
    fold_left PrimFloat.add (map (fun c => e_revenue (e_metrics c)) l) (s_revenue acc).
Proof.
  revert acc; induction l as [| c l IH]; intros acc; cbn [fold_left map].
  - repeat split.
  - apply (IH (sums_step acc c)).
Qed.

(** C2. For every list of rows, which is what the handler returns the
    comparison of when its query resolves, each total is the sum, taken
    in row order, of that metric over the per-campaign entries, and
    [totals.roas] is [totals.revenue / totals.cost] when [totals.cost > 0]
    and 0 when [totals.cost] is 0: the ratio of the sums, which on
    [demo_rows] is 0.5 while the mean of the campaigns' own roas is 1. *)
Theorem C2_totals_sum_the_entries :
  forall (H : Host) (args : GetCampaignComparisonArgs) (response : list Row),
    let result := comparison_of_rows H args response in
    let entries := map e_metrics (cmp_out_campaigns result) in
    let totals := cmp_out_totals result in
    t_cost totals = sum (map e_cost entries) /\
    t_clicks totals = sum (map e_clicks entries) /\
    t_impressions totals = sum (map e_impressions entries) /\
    t_conversions totals = sum (map e_conversions entries) /\
    t_revenue totals = sum (map e_revenue entries) /\
    ((0 <? t_cost totals)%float = true ->
       t_roas totals = (t_revenue totals / t_cost totals)%float) /\
    ((t_cost totals =? 0)%float = true -> t_roas totals = 0%float) /\
    (forall cl,
       on_query cl [] (getCampaignComparison_query args) = inr response ->
       outcome cl (getCampaignComparison H args) = inr result) /\
    (let demo := comparison_of_rows H args demo_rows in
     t_roas (cmp_out_totals demo) = 0.5%float /\
     mean (map (fun c => e_roas (e_metrics c)) (cmp_out_campaigns demo)) = 1%float).
Proof.
  intros H args response result entries totals.
  subst result entries totals. unfold comparison_of_rows, comparison_totals.
  cbn [cmp_out_campaigns cmp_out_totals t_cost t_clicks t_impressions
       t_conversions t_revenue t_roas].
  destruct (fold_sums_step (map (comparison_entry H) response) sums_zero)
    as (Hc & Hi & Hco & Hcv & Hr).
  unfold sum. rewrite !(map_map e_metrics).
  split; [exact Hco |]. split; [exact Hc |]. split; [exact Hi |].
  split; [exact Hcv |]. split; [exact Hr |].
  split; [| split; [| split]].
  - intros Hpos. rewrite Hpos. reflexivity.
  - intros Hz. rewrite (zero_not_below_zero _ Hz). reflexivity.
  - intros cl Hq. unfold outcome, run, getCampaignComparison, query.
    cbn [bind try_catch run_from]. rewrite Hq. reflexivity.
  - split; vm_compute; reflexivity.
Qed.

(** ** C3: the two queries of a top/bottom tool *)

(** C3. Both top/bottom tools issue the top query first and, once it has
    resolved, the bottom query. The field of a metric is the one the
    [switch] on the metric selects, listed here metric by metric. The top
    query is the base query followed by
    [ORDER BY field DESC LIMIT topCount]; the bottom query is the same
    base query, then the condition [AND field > 0], then
    [ORDER BY field ASC LIMIT bottomCount]; for keywords ranked by
    QUALITY_SCORE nothing stands between the base query and the
    ordering. *)
Theorem C3_top_and_bottom_queries :
  forall (H : Host),
    (forall (formatKeyword : Row -> JsVal) (args : GetTopBottomKeywordsArgs)
            (cl : ClientBehaviour),
       let base := keyword_baseQuery args in
       let field :=
         match tk_metric args with
         | KM_COST => "metrics.cost_micros"
         | KM_CLICKS => "metrics.clicks"
         | KM_CONVERSIONS => "metrics.conversions"
         | KM_CTR => "metrics.ctr"
         | KM_CONVERSION_RATE => "metrics.conversion_rate"
         | KM_CPC => "metrics.average_cpc"
         | KM_QUALITY_SCORE => "ad_group_criterion.quality_info.quality_score"
         end in
       let top := base ++ " ORDER BY " ++ field ++ " DESC LIMIT "
                       ++ NumberToString H (tk_topCount args) in
       let exclusion :=
         match tk_metric args with
         | KM_QUALITY_SCORE => EmptyString
         | _ => " AND " ++ field ++ " > 0"
         end in
       let bottom := base ++ exclusion ++ " ORDER BY " ++ field ++ " ASC LIMIT "
                          ++ NumberToString H (tk_bottomCount args) in
       keyword_orderByField (tk_metric args) = field /\
       calls cl (getTopBottomKeywords H formatKeyword args) =
         match on_query cl [] top with
         | inl _ => [CallQuery top]
         | inr _ => [CallQuery top; CallQuery bottom]
         end) /\
    (forall (formatProduct : Row -> JsVal) (args : GetTopBottomProductsArgs)
            (cl : ClientBehaviour),
       let base := product_baseQuery args in
       let field :=
         match tp_metric args with
         | PM_COST => "metrics.cost_micros"
         | PM_CLICKS => "metrics.clicks"
         | PM_CONVERSIONS => "metrics.conversions"
         | PM_REVENUE => "metrics.conversions_value"
         | PM_ROAS => "metrics.conversions_value / NULLIF(metrics.cost_micros, 0)"
         | PM_CTR => "metrics.ctr"
         | PM_CONVERSION_RATE => "metrics.conversion_rate"
         end in
       let top := base ++ " ORDER BY " ++ field ++ " DESC LIMIT "
                       ++ NumberToString H (tp_topCount args) in
       let bottom := base ++ " AND " ++ field ++ " > 0" ++ " ORDER BY " ++ field
                          ++ " ASC LIMIT " ++ NumberToString H (tp_bottomCount args) in
       product_orderByField (tp_metric args) = field /\
       calls cl (getTopBottomProducts H formatProduct args) =
         match on_query cl [] top with
         | inl _ => [CallQuery top]
         | inr _ => [CallQuery top; CallQuery bottom]
         end).
Proof.
  intros H. split.
  - intros formatKeyword args cl base field top exclusion bottom.
    assert (Hf : keyword_orderByField (tk_metric args) = field)
      by (subst field; destruct (tk_metric args); reflexivity).
    split; [exact Hf |].
    unfold getTopBottomKeywords.
    rewrite (two_queries_calls cl (keyword_topQuery H args) (keyword_bottomQuery H args)
               (fun t b => {| tb_topPerformers := map formatKeyword t;
                              tb_bottomPerformers := map formatKeyword b |}));
      [| intros e; eexists; apply catch_throws].
    unfold keyword_topQuery, keyword_bottomQuery, keyword_bottomCondition.
    rewrite Hf. reflexivity.
  - intros formatProduct args cl base field top bottom.
    assert (Hf : product_orderByField (tp_metric args) = field)
      by (subst field; destruct (tp_metric args); reflexivity).
    split; [exact Hf |].
    unfold getTopBottomProducts.
    rewrite (two_queries_calls cl (product_topQuery H args) (product_bottomQuery H args)
               (fun t b => {| tb_topPerformers := map formatProduct t;
                              tb_bottomPerformers := map formatProduct b |}));
      [| intros e; eexists; apply catch_throws].
    unfold product_topQuery, product_bottomQuery.
    rewrite Hf. reflexivity.
Qed.

(** ** C4: the CUSTOM date range without its pair *)

(** C4, what the code does at the failing input. With [dateRange] CUSTOM
    and no [customDateRange], both schemas accept the arguments, the date
    condition becomes [segments.date DURING CUSTOM], and the query is
    sent to the client; the call succeeds when the client answers. *)
Lemma C4_custom_without_range_is_queried :
  parse getSearchTermsReportSchema (VObj [("dateRange", VStr "CUSTOM")])
    = Valid custom_without_range /\
  getSearchTermsReport_dateClause custom_without_range
    = "segments.date DURING CUSTOM" /\
  run empty_client
      (callTool demo_host (handlers demo_host demo_unmodelled)
         "get_search_terms_report" (VObj [("dateRange", VStr "CUSTOM")]))
    = ([CallQuery (getSearchTermsReport_query demo_host custom_without_range)],
       inr (content demo_host (VArr []))) /\
  parse listCampaignsSchema (VObj [("dateRange", VStr "CUSTOM")])
    = Valid list_custom_without_range /\
  listCampaigns_where list_custom_without_range =
    ["campaign.status != " ++ dquote ++ "REMOVED" ++ dquote;
     "segments.date DURING CUSTOM"] /\
  run empty_client
      (callTool demo_host (handlers demo_host demo_unmodelled)
         "list_campaigns" (VObj [("dateRange", VStr "CUSTOM")]))
    = ([CallQuery (listCampaigns_query demo_host list_custom_without_range)],
       inr (content demo_host (VArr []))).
Proof. repeat split; vm_compute; reflexivity. Qed.

(** ** C5: the fields of a partial update *)

Lemma updateKeyword_calls (H : Host) (params : UpdateKeywordArgs)
    (cl : ClientBehaviour) :
  calls cl (updateKeyword H params) =
    [CallMutate (Update adGroupCriteria (VObj (updateKeyword_entity H params)))].
Proof.
  unfold calls, run, updateKeyword, mutate. cbn.
  destruct (on_mutate cl [] _); reflexivity.
Qed.

Lemma updateAdGroup_calls (H : Host) (args : UpdateAdGroupArgs)
    (cl : ClientBehaviour) :
  calls cl (updateAdGroup H args) = [CallMutate (updateAdGroup_request H args)].
Proof.
  unfold calls, run, updateAdGroup, updateAdGroup_request, mutate.
  cbn [bind try_catch run_from]. simpl app.
  destruct (on_mutate cl [] _) as [e | response];
    cbn [settle bind try_catch run_from fst]; [rewrite catch_throws; reflexivity |].
  destruct (prop response "results") as [e | results];
    cbn [settle bind try_catch run_from fst]; rewrite ?catch_throws; reflexivity.
Qed.





(** ** C6: dispatch by tool name *)

(** C6, as amended. A name outside the registry gives the method-not-found
    error whatever the handlers are, and no external call. A name in the
    registry selects the tool of that name: its schema validates the
    arguments; when they are valid the dispatcher is that tool's handler
    run on the validated arguments, its result wrapped and what it throws
    rewrapped; when they are not, the call fails with an internal error
    and no handler takes part. *)
Theorem C6_dispatch_by_name :
  forall (H : Host) (T : Handlers) (name : string) (args : JsVal),
    (~ In name (map td_name workingTools) ->
       forall cl,
         run cl (callTool H T name args) =
           ([], inl (McpError MethodNotFound ("Unknown tool: " ++ name)))) /\
    (In name (map td_name workingTools) ->
       exists t : Tool,
         tool_name t = name /\
         match parse (schema_of t) args with
         | Valid a =>
             callTool H T name args =
               try_catch (result <- handler_of T t a ;; Ret (content H result))
                         (fun error => Throw (rewrap error))
         | Invalid issues =>
             callTool H T name args =
               Throw (McpError InternalError
                        ("Tool execution failed: " ++ ZodError_message H issues))
         end).
Proof.
  intros H T name args. split.
  - intros Hnot cl. unfold callTool. rewrite (switch_unknown H T name args Hnot).
    reflexivity.
  - intros Hin. destruct (resolve_registered name Hin) as [t Ht]. exists t.
    split; [exact Ht |]. subst name. unfold callTool.
    rewrite callTool_switch_resolved. unfold tool_case, parse_or_throw.
    destruct (parse (schema_of t) args) as [a | issues]; reflexivity.
Qed.

(** C6, an instance: an unknown name makes no call and is refused. *)
Lemma C6_witness_unknown_tool :
  run rejecting_client
      (callTool demo_host (handlers demo_host demo_unmodelled) "delete_campaign"
         (VObj []))
    = ([], inl (McpError MethodNotFound "Unknown tool: delete_campaign")).
Proof.
  apply (proj1 (C6_dispatch_by_name demo_host (handlers demo_host demo_unmodelled)
                  "delete_campaign" (VObj []))).
  simpl. intros Hin.
  repeat (destruct Hin as [Hin | Hin]; [discriminate |]). exact Hin.
Defined.

(** C6 as stated fails: get_ad_group is in the registry, its handler
    queries the client whenever it runs, yet a call without [adGroupId]
    makes no query: validation fails and the handler is not invoked. *)
Lemma C6_counterexample_invalid_arguments :
  In "get_ad_group" (map td_name workingTools) /\
  (forall cl a, calls cl (getAdGroup a) <> []) /\
  run empty_client
      (callTool demo_host (handlers demo_host demo_unmodelled) "get_ad_group"
         (VObj []))
    = ([], inl (McpError InternalError "Tool execution failed: Required")).
Proof.
  split; [simpl; tauto |]. split; [apply getAdGroup_always_queries |].
  vm_compute. reflexivity.
Qed.

(** ** C7: negative keywords without a level *)

(** C7. With neither [campaignId] nor [adGroupId], add_negative_keywords
    throws before any query or mutation: the trace of external calls is
    empty, whatever the keywords and the client, and through the
    dispatcher the call ends in an error. *)
Theorem C7_negative_keywords_need_a_level :
  forall (H : Host) (U : Unmodelled) (keywords : list NegativeKeywordSpec)
         (cl : ClientBehaviour),
    let params := {| an_campaignId := None; an_adGroupId := None;
                     an_keywords := keywords |} in
    run cl (addNegativeKeywords H params) =
      ([], inl (ErrorObj "Either campaignId or adGroupId must be provided")) /\
    (forall args,
       parse addNegativeKeywordsSchema args = Valid params ->
       run cl (callTool H (handlers H U) "add_negative_keywords" args) =
         ([], inl (McpError InternalError
                     "Tool execution failed: Either campaignId or adGroupId must be provided"))).
Proof.
  intros H U keywords cl params. split; [reflexivity |].
  intros args Hp. rewrite callTool_run.
  change (callTool_switch H (handlers H U) "add_negative_keywords" args)
    with (tool_case H addNegativeKeywordsSchema (addNegativeKeywords H) args).
  rewrite (tool_case_run cl H _ _ args params Hp). reflexivity.
Qed.

(** C7, an instance through the dispatcher. *)
Lemma C7_witness_keywords_only :
  run rejecting_client
      (callTool demo_host (handlers demo_host demo_unmodelled)
         "add_negative_keywords"
         (VObj [("keywords",
                 VArr [VObj [("text", VStr "free"); ("matchType", VStr "BROAD")]])]))
    = ([], inl (McpError InternalError
                  "Tool execution failed: Either campaignId or adGroupId must be provided")).
Proof.
  apply (proj2 (C7_negative_keywords_need_a_level demo_host demo_unmodelled
                  [ {| nk_text := "free"; nk_matchType := "BROAD" |} ]
                  rejecting_client)).
  reflexivity.
Defined.

(** ** C8: get_ad_group on an id without rows *)

(** C8. When the query of get_ad_group returns no row, the handler throws
    the not-found error and the dispatcher answers with an error: no
    success payload, empty or null, is returned. *)
Theorem C8_get_ad_group_zero_rows :
  forall (H : Host) (U : Unmodelled) (cl : ClientBehaviour)
         (args : JsVal) (a : GetAdGroupArgs),
    parse getAdGroupSchema args = Valid a ->
    on_query cl [] (getAdGroup_query a) = inr [] ->
    run cl (getAdGroup a) =
      ([CallQuery (getAdGroup_query a)],
       inl (ErrorObj "Failed to get ad group: Ad group not found")) /\
    run cl (callTool H (handlers H U) "get_ad_group" args) =
      ([CallQuery (getAdGroup_query a)],
       inl (McpError InternalError
              "Tool execution failed: Failed to get ad group: Ad group not found")).
Proof.
  intros H U cl args a Hparse Hq.
  pose proof (getAdGroup_zero_rows cl a Hq) as Hrun. split; [exact Hrun |].
  rewrite callTool_run.
  change (callTool_switch H (handlers H U) "get_ad_group" args)
    with (tool_case H getAdGroupSchema getAdGroup args).
  rewrite (tool_case_run cl H getAdGroupSchema getAdGroup args a Hparse), Hrun.
  reflexivity.
Qed.

(** C8, an instance: ad group 42 on a client that finds nothing. *)
Lemma C8_witness_ad_group_42 :
  run empty_client (getAdGroup {| gg_adGroupId := "42" |}) =
    ([CallQuery (getAdGroup_query {| gg_adGroupId := "42" |})],
     inl (ErrorObj "Failed to get ad group: Ad group not found")) /\
  run empty_client
      (callTool demo_host (handlers demo_host demo_unmodelled) "get_ad_group"
         (VObj [("adGroupId", VStr "42")])) =
    ([CallQuery (getAdGroup_query {| gg_adGroupId := "42" |})],
     inl (McpError InternalError
            "Tool execution failed: Failed to get ad group: Ad group not found")).
Proof.
  apply (C8_get_ad_group_zero_rows demo_host demo_unmodelled empty_client
           (VObj [("adGroupId", VStr "42")]) {| gg_adGroupId := "42" |});
    reflexivity.
Defined.

(** ** C9: what crosses the protocol boundary *)

(** C9, as amended. Whatever the body of the dispatcher throws, the call
    throws an [McpError] after the same external calls: an [McpError]
    unchanged; an instance of [Error] as an internal error whose message
    is [Tool execution failed: ] followed by the original message; any
    other thrown value, [null] and [undefined] included, as an internal
    error with the fixed message
    [Tool execution failed: Unknown error occurred]. Nothing else is ever
    thrown by the dispatcher. *)
Theorem C9_thrown_values_are_rewrapped :
  forall (H : Host) (T : Handlers) (name : string) (args : JsVal)
         (cl : ClientBehaviour),
    (forall tr e,
        run cl (callTool_switch H T name args) = (tr, inl e) ->
        exists e',
          run cl (callTool H T name args) = (tr, inl e') /\
          match e with
          | McpError c m => e' = McpError c m
          | ErrorObj m =>
              e' = McpError InternalError ("Tool execution failed: " ++ m) /\
              includes ("Tool execution failed: " ++ m) m = true
          | OtherObj _ | ThrownNull | ThrownUndefined =>
              e' = McpError InternalError
                     "Tool execution failed: Unknown error occurred"
          end) /\
    (forall e', outcome cl (callTool H T name args) = inl e' ->
                exists c m, e' = McpError c m).
Proof.
  intros H T name args cl. split.
  - intros tr e Hrun. exists (rewrap e). split.
    + rewrite callTool_run, Hrun. reflexivity.
    + destruct e as [c m | m | o | |]; try reflexivity.
      split; [reflexivity | apply includes_suffix].
  - intros e'. unfold outcome. rewrite callTool_run.
    destruct (run cl (callTool_switch H T name args)) as [tr [e | v]]; simpl.
    + intros [= <-]. apply rewrap_is_mcp.
    + discriminate.
Qed.

(** C9, an instance: the [Error] thrown by add_negative_keywords. *)
Lemma C9_witness_error_is_wrapped :
  exists e',
    run empty_client
        (callTool demo_host (handlers demo_host demo_unmodelled)
           "add_negative_keywords" (VObj [("keywords", VArr [])]))
      = ([], inl e') /\
    e' = McpError InternalError
           ("Tool execution failed: " ++
            "Either campaignId or adGroupId must be provided") /\
    includes ("Tool execution failed: " ++
              "Either campaignId or adGroupId must be provided")
             "Either campaignId or adGroupId must be provided" = true.
Proof.
  apply (proj1 (C9_thrown_values_are_rewrapped demo_host
                  (handlers demo_host demo_unmodelled)
                  "add_negative_keywords" (VObj [("keywords", VArr [])])
                  empty_client)
           [] (ErrorObj "Either campaignId or adGroupId must be provided")).
  reflexivity.
Defined.

(** C9 as stated fails: list_campaigns lets a rejection of the client
    through; when the rejection is an object that is not an [Error] and
    carries the message [quota exceeded], the dispatcher's message is
    [Tool execution failed: Unknown error occurred], which does not
    contain it. *)
Lemma C9_counterexample_message_dropped :
  outcome rejecting_client
    (callTool_switch demo_host (handlers demo_host demo_unmodelled)
       "list_campaigns" (VObj []))
    = inl (OtherObj (Some "quota exceeded")) /\
  outcome rejecting_client
    (callTool demo_host (handlers demo_host demo_unmodelled) "list_campaigns" (VObj []))
    = inl (McpError InternalError "Tool execution failed: Unknown error occurred") /\
  includes "Tool execution failed: Unknown error occurred" "quota exceeded" = false.
Proof. repeat split; vm_compute; reflexivity. Qed.

(** ** C10: both ids given to add_negative_keywords *)

Lemma addNegativeKeywords_ad_group (H : Host) (params : AddNegativeKeywordsArgs)
    (cl : ClientBehaviour) :
  opt_truthy (an_adGroupId params) = true ->
  calls cl (addNegativeKeywords H params) =
    [CallMutate (Create adGroupCriteria
       (VArr (map (negative_ad_group_operation H (template (an_adGroupId params)))
                  (an_keywords params))))] /\
  (forall v, outcome cl (addNegativeKeywords H params) = inr v ->
             opt_prop v "level" = VStr "ad_group").
Proof.
  intros Hs. unfold calls, outcome, addNegativeKeywords. rewrite Hs.
  rewrite andb_false_r. rewrite mutate_then_run.
  destruct (on_mutate cl [] _) as [e | results];
    [split; [reflexivity | discriminate] |].
  destruct (prop results "length") as [e | n] eqn:E;
    cbn [settle bind run_from fst snd]; (split; [reflexivity |]).
  - discriminate.
  - intros v [= <-]. reflexivity.
Qed.

Lemma addNegativeKeywords_campaign_branch (H : Host)
    (params : AddNegativeKeywordsArgs) (cl : ClientBehaviour) (x : JsVal) :
  In (CallMutate (Create campaignCriteria x)) (calls cl (addNegativeKeywords H params)) ->
  opt_truthy (an_adGroupId params) = false /\ opt_truthy (an_campaignId params) = true.
Proof.
  destruct (opt_truthy (an_adGroupId params)) eqn:Ea.
  - rewrite (proj1 (addNegativeKeywords_ad_group H params cl Ea)).
    simpl. intros [Hc | []]. discriminate.
  - destruct (opt_truthy (an_campaignId params)) eqn:Ec; [auto |].
    unfold calls, addNegativeKeywords. rewrite Ea, Ec. simpl. tauto.
Qed.

(** C10, as amended. Whenever [adGroupId] is a non-empty string, with or
    without a [campaignId], the only external call creates ad-group
    criteria and a result has level [ad_group]. A campaign-level
    criterion is created only when [adGroupId] is absent or the empty
    string (and [campaignId] is non-empty). *)
Theorem C10_ad_group_level_takes_precedence :
  forall (H : Host) (params : AddNegativeKeywordsArgs) (cl : ClientBehaviour),
    (opt_truthy (an_adGroupId params) = true ->
       calls cl (addNegativeKeywords H params) =
         [CallMutate (Create adGroupCriteria
            (VArr (map (negative_ad_group_operation H (template (an_adGroupId params)))
                       (an_keywords params))))] /\
       (forall v, outcome cl (addNegativeKeywords H params) = inr v ->
                  opt_prop v "level" = VStr "ad_group")) /\
    (forall x,
       In (CallMutate (Create campaignCriteria x))
          (calls cl (addNegativeKeywords H params)) ->
       opt_truthy (an_adGroupId params) = false /\
       opt_truthy (an_campaignId params) = true).
Proof.
  intros H params cl. split.
  - apply addNegativeKeywords_ad_group.
  - apply addNegativeKeywords_campaign_branch.
Qed.

(** C10, an instance: campaign 123 and ad group 456 together. *)
Lemma C10_witness_both_ids :
  calls empty_client (addNegativeKeywords demo_host both_ids) =
    [CallMutate (Create adGroupCriteria
       (VArr (map (negative_ad_group_operation demo_host
                     (template (an_adGroupId both_ids)))
                  (an_keywords both_ids))))] /\
  (forall v, outcome empty_client (addNegativeKeywords demo_host both_ids) = inr v ->
             opt_prop v "level" = VStr "ad_group").
Proof.
  apply (proj1 (C10_ad_group_level_takes_precedence demo_host both_ids empty_client)).
  reflexivity.
Defined.

(** C10 as stated fails: the schema accepts an empty [adGroupId] next to
    campaign 123; both are supplied, yet the criterion is created at the
    campaign level and the result says [campaign]. *)
Lemma C10_counterexample_empty_ad_group_id :
  parse addNegativeKeywordsSchema
    (VObj [("campaignId", VStr "123"); ("adGroupId", VStr EmptyString);
           ("keywords",
            VArr [VObj [("text", VStr "free"); ("matchType", VStr "BROAD")]])])
    = Valid both_ids_one_empty /\
  run empty_client (addNegativeKeywords demo_host both_ids_one_empty) =
    ([CallMutate (Create campaignCriteria
        (VArr [negative_campaign_operation demo_host "123"
                 {| nk_text := "free"; nk_matchType := "BROAD" |}]))],
     inr (VObj [("success", VBool true); ("level", VStr "campaign");
                ("addedKeywords", VNum 0)])).
Proof. split; vm_compute; reflexivity. Qed.

(* ================================================================== *)
(** * Beyond the claims *)

(** ** Validation *)

Lemma rejects_ap_l {A B} (f : Parsed (A -> B)) (x : Parsed A) (i : Issue) :
  rejects f i -> rejects (f <*> x) i.
Proof.
  intros [issues [-> Hin]]. destruct x as [a | j]; simpl.
  - exists issues. auto.
  - exists (issues ++ j)%list. split; [reflexivity | apply in_or_app; auto].
Qed.

Lemma rejects_ap_r {A B} (f : Parsed (A -> B)) (x : Parsed A) (i : Issue) :
  rejects x i -> rejects (f <*> x) i.
Proof.
  intros [issues [-> Hin]]. destruct f as [g | j]; simpl.
  - exists issues. auto.
  - exists (j ++ issues)%list. split; [reflexivity | apply in_or_app; auto].
Qed.

Lemma rejects_required {A} (s : Schema A) (k : string) (o : Obj) :
  get o k = VUndefined ->
  (forall p, s p VUndefined = Invalid [ {| path := p; code := invalid_type |} ]) ->
  rejects (field s k [] o) {| path := [Key k]; code := invalid_type |}.
Proof.
  intros Hk Hs. unfold field. rewrite Hk, Hs. simpl.
  eexists. split; [reflexivity | simpl; auto].
Qed.

Ltac find_rejection Hk :=
  first
    [ apply rejects_ap_r; apply (rejects_required _ _ _ Hk); intros p; reflexivity
    | apply rejects_ap_l; find_rejection Hk ].

Lemma callTool_invalid (H : Host) (T : Handlers) (t : Tool) (args : JsVal)
    (issues : list Issue) (cl : ClientBehaviour) :
  parse (schema_of t) args = Invalid issues ->
  run cl (callTool H T (tool_name t) args) = ([], inl (validation_failure H issues)).
Proof.
  intros Hp. rewrite callTool_run, callTool_switch_resolved.
  unfold run, tool_case, parse_or_throw. rewrite Hp. reflexivity.
Qed.

(** X3. A field that the registry of index.ts declares required is
    required by the schema the dispatcher validates with: when the
    arguments object lacks it, validation reports an [invalid_type] issue
    at that key, and the call ends in the internal error of a failed
    validation before any external call. *)
Theorem required_fields_are_enforced :
  forall (d : ToolDescriptor) (k : string) (o : Obj),
    In d workingTools ->
    In k (td_required d) ->
    get o k = VUndefined ->
    exists (t : Tool) (issues : list Issue),
      tool_name t = td_name d /\
      parse (schema_of t) (VObj o) = Invalid issues /\
      In {| path := [Key k]; code := invalid_type |} issues /\
      forall H T cl,
        run cl (callTool H T (td_name d) (VObj o)) =
          ([], inl (validation_failure H issues)).
Proof.
  intros d k o Hd Hk Ho.
  assert (Hr : exists t, tool_name t = td_name d /\
                 rejects (parse (schema_of t) (VObj o))
                         {| path := [Key k]; code := invalid_type |}).
  { simpl in Hd.
    repeat (destruct Hd as [<- | Hd]; [simpl in Hk |]); try contradiction;
      repeat (destruct Hk as [<- | Hk]); try contradiction.
    - exists create_campaign. split; [reflexivity |].
      unfold parse, schema_of, createCampaignSchema, z_object. find_rejection Ho.
    - exists create_campaign. split; [reflexivity |].
      unfold parse, schema_of, createCampaignSchema, z_object. find_rejection Ho.
    - exists create_campaign. split; [reflexivity |].
      unfold parse, schema_of, createCampaignSchema, z_object. find_rejection Ho.
    - exists update_campaign. split; [reflexivity |].
      unfold parse, schema_of, updateCampaignSchema, z_object. find_rejection Ho.
    - exists get_ad_group. split; [reflexivity |].
      unfold parse, schema_of, getAdGroupSchema, z_object. find_rejection Ho.
    - exists create_ad_group. split; [reflexivity |].
      unfold parse, schema_of, createAdGroupSchema, z_object. find_rejection Ho.
    - exists create_ad_group. split; [reflexivity |].
      unfold parse, schema_of, createAdGroupSchema, z_object. find_rejection Ho.
    - exists update_ad_group. split; [reflexivity |].
      unfold parse, schema_of, updateAdGroupSchema, z_object. find_rejection Ho.
    - exists add_keywords. split; [reflexivity |].
      unfold parse, schema_of, addKeywordsSchema, z_object. find_rejection Ho.
    - exists add_keywords. split; [reflexivity |].
      unfold parse, schema_of, addKeywordsSchema, z_object. find_rejection Ho.
    - exists add_negative_keywords. split; [reflexivity |].
      unfold parse, schema_of, addNegativeKeywordsSchema, z_object. find_rejection Ho.
    - exists update_keyword. split; [reflexivity |].
      unfold parse, schema_of, updateKeywordSchema, z_object. find_rejection Ho.
    - exists update_keyword. split; [reflexivity |].
      unfold parse, schema_of, updateKeywordSchema, z_object. find_rejection Ho.
  }
  destruct Hr as [t [Ht [issues [Hp Hin]]]].
  exists t, issues. split; [exact Ht |]. split; [exact Hp |]. split; [exact Hin |].
  intros H T cl. rewrite <- Ht. apply callTool_invalid. exact Hp.
Qed.

(** An instance of X3: create_campaign without a budget. *)
Lemma required_fields_witness_budget :
  exists (t : Tool) (issues : list Issue),
    tool_name t = "create_campaign" /\
    parse (schema_of t)
      (VObj [("name", VStr "Spring"); ("advertisingChannelType", VStr "SEARCH")])
      = Invalid issues /\
    In {| path := [Key "budget"]; code := invalid_type |} issues /\
    forall H T cl,
      run cl (callTool H T "create_campaign"
                (VObj [("name", VStr "Spring");
                       ("advertisingChannelType", VStr "SEARCH")])) =
        ([], inl (validation_failure H issues)).
Proof.
  apply (required_fields_are_enforced
           {| td_name := "create_campaign";
              td_properties := ["name"; "budget"; "advertisingChannelType"; "status"];
              td_required := ["name"; "budget"; "advertisingChannelType"] |}
           "budget"
           [("name", VStr "Spring"); ("advertisingChannelType", VStr "SEARCH")]).
  - simpl. tauto.
  - simpl. tauto.
  - reflexivity.
Defined.

(** X4. The arguments of a call must be an object, also for a tool all of
    whose fields are optional: on [undefined] (a call without arguments),
    [null], a number, a string, a boolean or an array, every schema of the
    dispatcher reports one [invalid_type] issue at the root, and the call
    ends in the internal error of a failed validation before any external
    call. *)
Theorem arguments_must_be_an_object :
  forall (t : Tool) (args : JsVal),
    (forall o, args <> VObj o) ->
    parse (schema_of t) args = Invalid [ {| path := []; code := invalid_type |} ] /\
    forall H T cl,
      run cl (callTool H T (tool_name t) args) =
        ([], inl (validation_failure H [ {| path := []; code := invalid_type |} ])).
Proof.
  intros t args Hno.
  assert (Hp : parse (schema_of t) args
               = Invalid [ {| path := []; code := invalid_type |} ]).
  { destruct args as [| | b | x | s | items | o];
      try (destruct t; reflexivity).
    elim (Hno o). reflexivity. }
  split; [exact Hp |]. intros H T cl. apply callTool_invalid. exact Hp.
Qed.

(** An instance of X4: list_campaigns called without arguments. *)
Lemma arguments_witness_list_campaigns :
  parse (schema_of list_campaigns) VUndefined
    = Invalid [ {| path := []; code := invalid_type |} ] /\
  forall H T cl,
    run cl (callTool H T (tool_name list_campaigns) VUndefined) =
      ([], inl (validation_failure H [ {| path := []; code := invalid_type |} ])).
Proof.
  apply (arguments_must_be_an_object list_campaigns VUndefined).
  intros o. discriminate.
Defined.

Lemma ap_valid {A B} (f : Parsed (A -> B)) (x : Parsed A) (b : B) :
  f <*> x = Valid b -> exists g a, f = Valid g /\ x = Valid a /\ b = g a.
Proof.
  destruct f as [g | i], x as [a | j]; simpl; try discriminate.
  intros [= <-]. eauto.
Qed.

Lemma z_number_valid (p : list PathSeg) (v : JsVal) (x : float) :
  z_number p v = Valid x -> v = VNum x /\ is_number x.
Proof.
  destruct v; simpl; try discriminate.
  destruct (PrimFloat.is_nan x0) eqn:E; [discriminate |].
  intros [= <-]. split; [reflexivity | exact E].
Qed.

Lemma z_enum_valid (options : list string) (p : list PathSeg) (v : JsVal)
    (s : string) :
  z_enum options p v = Valid s -> v = VStr s /\ In s options.
Proof.
  destruct v; simpl; try discriminate.
  destruct (existsb (String.eqb s0) options) eqn:E; [| discriminate].
  intros [= <-]. split; [reflexivity |].
  apply existsb_exists in E. destruct E as [x [Hin Hx]].
  apply String.eqb_eq in Hx. subst x. exact Hin.
Qed.

Lemma with_default_valid {A} (s : Schema A) (d : A) (p : list PathSeg) (v : JsVal)
    (a : A) :
  with_default s d p v = Valid a ->
  (v = VUndefined /\ a = d) \/ (v <> VUndefined /\ s p v = Valid a).
Proof.
  destruct v; simpl; intros Hv;
    try (right; split; [discriminate | exact Hv]).
  left. injection Hv as <-. auto.
Qed.

Lemma optional_valid {A} (s : Schema A) (p : list PathSeg) (v : JsVal)
    (x : option A) :
  optional s p v = Valid x ->
  (v = VUndefined /\ x = None) \/
  (v <> VUndefined /\ exists a, x = Some a /\ s p v = Valid a).
Proof.
  destruct v; simpl; intros Hv;
    try (right; split; [discriminate |];
         match type of Hv with pmap _ ?r = _ => destruct r as [a | i] end;
         simpl in Hv; [injection Hv as <-; eauto | discriminate]).
  left. injection Hv as <-. auto.
Qed.

Lemma z_items_Forall {A} (s : Schema A) (P : A -> Prop) :
  (forall p v a, s p v = Valid a -> P a) ->
  forall items p i l, z_items s p i items = Valid l -> Forall P l.
Proof.
  intros Hs. induction items as [| v rest IH]; intros p i l; simpl.
  - intros [= <-]. constructor.
  - intros Hl. apply ap_valid in Hl. destruct Hl as [g [tl [Hg [Htl ->]]]].
    destruct (s (p ++ [Index i])%list v) as [a | j] eqn:Ea; simpl in Hg;
      [| discriminate].
    injection Hg as <-. constructor; [exact (Hs _ _ _ Ea) | exact (IH _ _ _ Htl)].
Qed.

Lemma z_array_Forall {A} (s : Schema A) (P : A -> Prop) :
  (forall p v a, s p v = Valid a -> P a) ->
  forall p v l, z_array s p v = Valid l -> Forall P l.
Proof.
  intros Hs p v l. destruct v; simpl; try discriminate.
  apply (z_items_Forall s P Hs).
Qed.

(** What validation of one field tells about the validated value. *)
Lemma number_field (k : string) (p : list PathSeg) (o : Obj) (x : float) :
  field z_number k p o = Valid x -> is_number x.
Proof. unfold field. intros Hv. exact (proj2 (z_number_valid _ _ _ Hv)). Qed.

Lemma default_number_field (d : float) (k : string) (p : list PathSeg) (o : Obj)
    (x : float) :
  field (with_default z_number d) k p o = Valid x -> is_number d -> is_number x.
Proof.
  unfold field. intros Hv Hd. apply with_default_valid in Hv.
  destruct Hv as [[_ ->] | [_ Hv]];
    [exact Hd | exact (proj2 (z_number_valid _ _ _ Hv))].
Qed.

Lemma opt_number_field (k : string) (p : list PathSeg) (o : Obj) (x : option float) :
  field (optional z_number) k p o = Valid x -> opt_is_number x.
Proof.
  unfold field. intros Hv. apply optional_valid in Hv.
  destruct Hv as [[_ ->] | [_ [a [-> Ha]]]]; simpl; [exact I |].
  exact (proj2 (z_number_valid _ _ _ Ha)).
Qed.

Lemma enum_field (options : list string) (k : string) (p : list PathSeg) (o : Obj)
    (s : string) :
  field (z_enum options) k p o = Valid s -> In s options.
Proof. unfold field. intros Hv. exact (proj2 (z_enum_valid _ _ _ _ Hv)). Qed.

Lemma default_enum_field (options : list string) (d k : string) (p : list PathSeg)
    (o : Obj) (s : string) :
  field (with_default (z_enum options) d) k p o = Valid s ->
  In d options -> In s options.
Proof.
  unfold field. intros Hv Hd. apply with_default_valid in Hv.
  destruct Hv as [[_ ->] | [_ Hv]]; [exact Hd |].
  exact (proj2 (z_enum_valid _ _ _ _ Hv)).
Qed.

Lemma opt_enum_field (options : list string) (k : string) (p : list PathSeg)
    (o : Obj) (x : option string) :
  field (optional (z_enum options)) k p o = Valid x -> opt_one_of x options.
Proof.
  unfold field. intros Hv. apply optional_valid in Hv.
  destruct Hv as [[_ ->] | [_ [a [-> Ha]]]]; simpl; [exact I |].
  exact (proj2 (z_enum_valid _ _ _ _ Ha)).
Qed.

(** Splits a successful validation of an object into its fields. *)
Ltac fields H :=
  match type of H with
  | _ <*> _ = Valid _ =>
      let g := fresh "g" in let x := fresh "x" in
      let Hg := fresh "Hg" in let Hx := fresh "Hx" in let E := fresh "E" in
      apply ap_valid in H; destruct H as [g [x [Hg [Hx E]]]];
      fields Hg
  | Valid _ = Valid _ => injection H as H; subst
  end.

Ltac field_fact :=
  first
    [ exact I
    | eapply number_field; eassumption
    | eapply default_number_field; [eassumption | reflexivity]
    | eapply opt_number_field; eassumption
    | eapply enum_field; eassumption
    | eapply default_enum_field; [eassumption | simpl; tauto]
    | eapply opt_enum_field; eassumption ].

Ltac object_fields Hp :=
  match type of Hp with
  | parse _ ?args = Valid _ =>
      destruct args; try discriminate Hp;
      unfold parse in Hp; cbv delta [listCampaignsSchema createCampaignSchema
        updateCampaignSchema addKeywordsSchema addNegativeKeywordsSchema
        updateKeywordSchema getSearchTermsReportSchema listAdGroupsSchema
        createAdGroupSchema updateAdGroupSchema getAdGroupSchema listAdsSchema
        getKeywordOpportunitiesSchema] in Hp;
      cbv beta delta [z_object] in Hp; cbv iota beta in Hp; fields Hp
  end.

(** X5. Arguments that pass validation are well formed: every number is
    a number (never [NaN]), and every enumeration holds one of the values
    its schema lists, also inside each keyword of a list. In particular a
    campaign or an ad group cannot be created with status REMOVED. *)
Theorem validated_arguments_are_well_formed :
  (forall args a, parse listCampaignsSchema args = Valid a ->
     is_number (lc_limit a) /\
     In (lc_dateRange a)
        ["TODAY"; "YESTERDAY"; "LAST_7_DAYS"; "LAST_14_DAYS"; "LAST_30_DAYS";
         "THIS_MONTH"; "LAST_MONTH"; "THIS_QUARTER"; "LAST_QUARTER"; "THIS_YEAR";
         "LAST_YEAR"; "ALL_TIME"; "CUSTOM"]) /\
  (forall args a, parse createCampaignSchema args = Valid a ->
     is_number (cc_budget a) /\
     In (cc_advertisingChannelType a)
        ["SEARCH"; "DISPLAY"; "SHOPPING"; "VIDEO"; "MULTI_CHANNEL"] /\
     In (cc_status a) ["ENABLED"; "PAUSED"]) /\
  (forall args a, parse updateCampaignSchema args = Valid a ->
     opt_one_of (uc_status a) ["ENABLED"; "PAUSED"; "REMOVED"] /\
     opt_is_number (uc_budget a)) /\
  (forall args a, parse addKeywordsSchema args = Valid a ->
     Forall (fun k => In (kw_matchType k) ["EXACT"; "PHRASE"; "BROAD"] /\
                      opt_is_number (kw_cpcBidMicros k))
            (ak_keywords a)) /\
  (forall args a, parse addNegativeKeywordsSchema args = Valid a ->
     Forall (fun k => In (nk_matchType k) ["EXACT"; "PHRASE"; "BROAD"])
            (an_keywords a)) /\
  (forall args a, parse updateKeywordSchema args = Valid a ->
     opt_one_of (uk_status a) ["ENABLED"; "PAUSED"; "REMOVED"] /\
     opt_is_number (uk_cpcBidMicros a)) /\
  (forall args a, parse getSearchTermsReportSchema args = Valid a ->
     In (st_dateRange a)
        ["TODAY"; "YESTERDAY"; "LAST_7_DAYS"; "LAST_30_DAYS"; "THIS_MONTH";
         "LAST_MONTH"; "CUSTOM"] /\
     is_number (st_limit a) /\ is_number (st_minImpressions a)) /\
  (forall args a, parse listAdGroupsSchema args = Valid a ->
     is_number (lg_limit a)) /\
  (forall args a, parse createAdGroupSchema args = Valid a ->
     In (cg_status a) ["ENABLED"; "PAUSED"] /\
     opt_is_number (cg_cpcBidMicros a) /\ opt_is_number (cg_cpmBidMicros a) /\
     opt_is_number (cg_targetCpaMicros a) /\ opt_is_number (cg_targetRoas a)) /\
  (forall args a, parse updateAdGroupSchema args = Valid a ->
     opt_one_of (ug_status a) ["ENABLED"; "PAUSED"; "REMOVED"] /\
     opt_is_number (ug_cpcBidMicros a) /\ opt_is_number (ug_cpmBidMicros a) /\
     opt_is_number (ug_targetCpaMicros a) /\ opt_is_number (ug_targetRoas a)) /\
  (forall args a, parse listAdsSchema args = Valid a ->
     is_number (la_limit a)).
Proof.
  repeat match goal with |- _ /\ _ => split end;
    intros args a Hp; object_fields Hp; cbn [lc_limit lc_dateRange cc_budget
      cc_advertisingChannelType cc_status uc_status uc_budget ak_keywords
      an_keywords uk_status uk_cpcBidMicros st_dateRange st_limit
      st_minImpressions lg_limit cg_status cg_cpcBidMicros cg_cpmBidMicros
      cg_targetCpaMicros cg_targetRoas ug_status ug_cpcBidMicros ug_cpmBidMicros
      ug_targetCpaMicros ug_targetRoas la_limit];
    repeat match goal with |- _ /\ _ => split end; try field_fact.
  - unfold field in *.
    match goal with Hk : z_array _ _ _ = Valid ?l |- Forall _ ?l =>
      revert Hk; apply z_array_Forall end.
    intros p v k Hk. destruct v; try discriminate Hk.
    cbv beta delta [z_object] in Hk. cbv iota beta in Hk. fields Hk.
    cbn [kw_matchType kw_cpcBidMicros]. split; field_fact.
  - unfold field in *.
    match goal with Hk : z_array _ _ _ = Valid ?l |- Forall _ ?l =>
      revert Hk; apply z_array_Forall end.
    intros p v k Hk. destruct v; try discriminate Hk.
    cbv beta delta [z_object] in Hk. cbv iota beta in Hk. fields Hk.
    cbn [nk_matchType]. field_fact.
Qed.

(** An instance of X5: the arguments of a campaign with budget 2.01. *)
Lemma validated_arguments_witness_create_campaign :
  is_number (cc_budget budget_2_01) /\
  In (cc_advertisingChannelType budget_2_01)
     ["SEARCH"; "DISPLAY"; "SHOPPING"; "VIDEO"; "MULTI_CHANNEL"] /\
  In (cc_status budget_2_01) ["ENABLED"; "PAUSED"].
Proof.
  apply (proj1 (proj2 validated_arguments_are_well_formed)
           (VObj [("name", VStr "Spring"); ("budget", VNum 2.01);
                  ("advertisingChannelType", VStr "SEARCH")])).
  reflexivity.
Defined.

Lemma default_field_absent {A} (s : Schema A) (d : A) (k : string)
    (p : list PathSeg) (o : Obj) (x : A) :
  field (with_default s d) k p o = Valid x -> get o k = VUndefined -> x = d.
Proof. unfold field. intros Hv Hk. rewrite Hk in Hv. now injection Hv as <-. Qed.

Lemma optional_field_absent {A} (s : Schema A) (k : string) (p : list PathSeg)
    (o : Obj) (x : option A) :
  field (optional s) k p o = Valid x -> get o k = VUndefined -> x = None.
Proof. unfold field. intros Hv Hk. rewrite Hk in Hv. now injection Hv as <-. Qed.

Ltac absent_fact :=
  intros Habsent;
  first [ eapply default_field_absent; eassumption
        | eapply optional_field_absent; eassumption ].

(** X6. A field the arguments object lacks takes the default its schema
    declares, and an optional field without a default stays absent:
    limit 50 for list_campaigns and 100 for ad groups, ads and search
    terms, removed entities left out, date range ALL_TIME for campaigns
    and LAST_7_DAYS for search terms with at least 10 impressions, a new
    campaign PAUSED and a new ad group ENABLED. *)
Theorem absent_fields_take_their_defaults :
  (forall o a, parse listCampaignsSchema (VObj o) = Valid a ->
     (get o "limit" = VUndefined -> lc_limit a = 50%float) /\
     (get o "includeRemoved" = VUndefined -> lc_includeRemoved a = false) /\
     (get o "dateRange" = VUndefined -> lc_dateRange a = "ALL_TIME") /\
     (get o "customDateRange" = VUndefined -> lc_customDateRange a = None)) /\
  (forall o a, parse createCampaignSchema (VObj o) = Valid a ->
     (get o "status" = VUndefined -> cc_status a = "PAUSED")) /\
  (forall o a, parse updateCampaignSchema (VObj o) = Valid a ->
     (get o "name" = VUndefined -> uc_name a = None) /\
     (get o "status" = VUndefined -> uc_status a = None) /\
     (get o "budget" = VUndefined -> uc_budget a = None)) /\
  (forall o a, parse addNegativeKeywordsSchema (VObj o) = Valid a ->
     (get o "campaignId" = VUndefined -> an_campaignId a = None) /\
     (get o "adGroupId" = VUndefined -> an_adGroupId a = None)) /\
  (forall o a, parse updateKeywordSchema (VObj o) = Valid a ->
     (get o "status" = VUndefined -> uk_status a = None) /\
     (get o "cpcBidMicros" = VUndefined -> uk_cpcBidMicros a = None)) /\
  (forall o a, parse getSearchTermsReportSchema (VObj o) = Valid a ->
     (get o "campaignId" = VUndefined -> st_campaignId a = None) /\
     (get o "adGroupId" = VUndefined -> st_adGroupId a = None) /\
     (get o "dateRange" = VUndefined -> st_dateRange a = "LAST_7_DAYS") /\
     (get o "customDateRange" = VUndefined -> st_customDateRange a = None) /\
     (get o "limit" = VUndefined -> st_limit a = 100%float) /\
     (get o "minImpressions" = VUndefined -> st_minImpressions a = 10%float)) /\
  (forall o a, parse listAdGroupsSchema (VObj o) = Valid a ->
     (get o "campaignId" = VUndefined -> lg_campaignId a = None) /\
     (get o "limit" = VUndefined -> lg_limit a = 100%float) /\
     (get o "includeRemoved" = VUndefined -> lg_includeRemoved a = false)) /\
  (forall o a, parse createAdGroupSchema (VObj o) = Valid a ->
     (get o "status" = VUndefined -> cg_status a = "ENABLED") /\
     (get o "cpcBidMicros" = VUndefined -> cg_cpcBidMicros a = None) /\
     (get o "cpmBidMicros" = VUndefined -> cg_cpmBidMicros a = None) /\
     (get o "targetCpaMicros" = VUndefined -> cg_targetCpaMicros a = None) /\
     (get o "targetRoas" = VUndefined -> cg_targetRoas a = None)) /\
  (forall o a, parse updateAdGroupSchema (VObj o) = Valid a ->
     (get o "name" = VUndefined -> ug_name a = None) /\
     (get o "status" = VUndefined -> ug_status a = None) /\
     (get o "cpcBidMicros" = VUndefined -> ug_cpcBidMicros a = None) /\
     (get o "cpmBidMicros" = VUndefined -> ug_cpmBidMicros a = None) /\
     (get o "targetCpaMicros" = VUndefined -> ug_targetCpaMicros a = None) /\
     (get o "targetRoas" = VUndefined -> ug_targetRoas a = None)) /\
  (forall o a, parse listAdsSchema (VObj o) = Valid a ->
     (get o "adGroupId" = VUndefined -> la_adGroupId a = None) /\
     (get o "campaignId" = VUndefined -> la_campaignId a = None) /\
     (get o "limit" = VUndefined -> la_limit a = 100%float) /\
     (get o "includeRemoved" = VUndefined -> la_includeRemoved a = false)).
Proof.
  repeat match goal with |- _ /\ _ => split end;
    intros o a Hp;
    unfold parse in Hp; cbv delta [listCampaignsSchema createCampaignSchema
      updateCampaignSchema addNegativeKeywordsSchema updateKeywordSchema
      getSearchTermsReportSchema listAdGroupsSchema createAdGroupSchema
      updateAdGroupSchema listAdsSchema] in Hp;
    cbv beta delta [z_object] in Hp; cbv iota beta in Hp; fields Hp;
    cbn [lc_limit lc_includeRemoved lc_dateRange lc_customDateRange cc_status
      uc_name uc_status uc_budget an_campaignId an_adGroupId uk_status
      uk_cpcBidMicros st_campaignId st_adGroupId st_dateRange st_customDateRange
      st_limit st_minImpressions lg_campaignId lg_limit lg_includeRemoved
      cg_status cg_cpcBidMicros cg_cpmBidMicros cg_targetCpaMicros cg_targetRoas
      ug_name ug_status ug_cpcBidMicros ug_cpmBidMicros ug_targetCpaMicros
      ug_targetRoas la_adGroupId la_campaignId la_limit la_includeRemoved];
    repeat match goal with |- _ /\ _ => split end; absent_fact.
Qed.

(** An instance of X6: get_search_terms_report on an empty object. *)
Lemma defaults_witness_search_terms :
  let a := {| st_campaignId := None; st_adGroupId := None;
              st_dateRange := "LAST_7_DAYS"; st_customDateRange := None;
              st_limit := 100; st_minImpressions := 10 |} in
  (get [] "campaignId" = VUndefined -> st_campaignId a = None) /\
  (get [] "adGroupId" = VUndefined -> st_adGroupId a = None) /\
  (get [] "dateRange" = VUndefined -> st_dateRange a = "LAST_7_DAYS") /\
  (get [] "customDateRange" = VUndefined -> st_customDateRange a = None) /\
  (get [] "limit" = VUndefined -> st_limit a = 100%float) /\
  (get [] "minImpressions" = VUndefined -> st_minImpressions a = 10%float).
Proof.
  apply (proj1 (proj2 (proj2 (proj2 (proj2 (proj2
           absent_fields_take_their_defaults))))) []).
  reflexivity.
Defined.

Lemma rejects_null {A} (s : Schema A) (k : string) (o : Obj) :
  get o k = VNull ->
  (forall p, s p VNull = Invalid [ {| path := p; code := invalid_type |} ]) ->
  rejects (field s k [] o) {| path := [Key k]; code := invalid_type |}.
Proof.
  intros Hk Hs. unfold field. rewrite Hk, Hs. simpl.
  eexists. split; [reflexivity | simpl; auto].
Qed.

Ltac find_null Hk :=
  first
    [ apply rejects_ap_r; apply (rejects_null _ _ _ Hk); intros p; reflexivity
    | apply rejects_ap_l; find_null Hk ].

(** X7. [null] is not the absence of a field: when the arguments object
    holds [null] at any key of the tool's schema, optional and defaulted
    keys included, validation reports an [invalid_type] issue at that key
    and the call ends in the internal error of a failed validation before
    any external call. *)
Theorem null_is_rejected_for_every_field :
  forall (t : Tool) (k : string) (o : Obj),
    In k (schema_keys t) ->
    get o k = VNull ->
    exists issues,
      parse (schema_of t) (VObj o) = Invalid issues /\
      In {| path := [Key k]; code := invalid_type |} issues /\
      forall H T cl,
        run cl (callTool H T (tool_name t) (VObj o)) =
          ([], inl (validation_failure H issues)).
Proof.
  intros t k o Hk Ho.
  assert (Hr : rejects (parse (schema_of t) (VObj o))
                       {| path := [Key k]; code := invalid_type |}).
  { destruct t; simpl in Hk;
      repeat (destruct Hk as [<- | Hk]); try contradiction;
      unfold parse, schema_of; cbv delta [listCampaignsSchema createCampaignSchema
        updateCampaignSchema addKeywordsSchema addNegativeKeywordsSchema
        updateKeywordSchema getSearchTermsReportSchema listAdGroupsSchema
        createAdGroupSchema updateAdGroupSchema getAdGroupSchema listAdsSchema];
      cbv beta delta [z_object]; cbv iota beta; find_null Ho. }
  destruct Hr as [issues [Hp Hin]].
  exists issues. split; [exact Hp |]. split; [exact Hin |].
  intros H T cl. apply callTool_invalid. exact Hp.
Qed.

(** An instance of X7: list_campaigns with [limit: null]. *)
Lemma null_witness_limit :
  exists issues,
    parse (schema_of list_campaigns) (VObj [("limit", VNull)]) = Invalid issues /\
    In {| path := [Key "limit"]; code := invalid_type |} issues /\
    forall H T cl,
      run cl (callTool H T (tool_name list_campaigns) (VObj [("limit", VNull)])) =
        ([], inl (validation_failure H issues)).
Proof.
  apply (null_is_rejected_for_every_field list_campaigns "limit" [("limit", VNull)]).
  - simpl. tauto.
  - reflexivity.
Defined.

(** X8. Validation reads the arguments object only at the keys of the
    tool's schema: two objects that agree on those keys validate alike
    and give the same program, so a key the schema does not know, a
    misspelt optional field for one, is ignored without an error. *)
Theorem unknown_keys_are_ignored :
  forall (t : Tool) (o o' : Obj),
    (forall k, In k (schema_keys t) -> get o k = get o' k) ->
    parse (schema_of t) (VObj o) = parse (schema_of t) (VObj o') /\
    forall H T,
      callTool H T (tool_name t) (VObj o) = callTool H T (tool_name t) (VObj o').
Proof.
  intros t o o' Hk.
  assert (Hp : parse (schema_of t) (VObj o) = parse (schema_of t) (VObj o')).
  { destruct t; unfold parse, schema_of; cbv delta [listCampaignsSchema
      createCampaignSchema updateCampaignSchema addKeywordsSchema
      addNegativeKeywordsSchema updateKeywordSchema getSearchTermsReportSchema
      listAdGroupsSchema createAdGroupSchema updateAdGroupSchema getAdGroupSchema
      listAdsSchema]; cbv beta delta [z_object field]; cbv iota beta;
      simpl in Hk;
      repeat match goal with
      | |- context [get o ?k] => rewrite (Hk k) by tauto
      end; reflexivity. }
  split; [exact Hp |]. intros H T.
  unfold callTool. rewrite !callTool_switch_resolved.
  unfold tool_case, parse_or_throw. rewrite Hp. reflexivity.
Qed.

(** An instance of X8: [include_removed] is not a key of list_campaigns. *)
Lemma unknown_keys_witness_misspelt :
  parse (schema_of list_campaigns) (VObj [("include_removed", VBool true)]) =
    parse (schema_of list_campaigns) (VObj []) /\
  forall H T,
    callTool H T (tool_name list_campaigns) (VObj [("include_removed", VBool true)]) =
    callTool H T (tool_name list_campaigns) (VObj []).
Proof.
  apply (unknown_keys_are_ignored list_campaigns
           [("include_removed", VBool true)] []).
  intros k Hk. simpl in Hk.
  repeat (destruct Hk as [<- | Hk]; [reflexivity |]). contradiction.
Defined.

(** X9. The dispatcher serves 12 of the 35 tools that the tool files
    export, each under a name of its own. Every served tool is one of
    the exported ones; each of the other 23, the analytics, shopping,
    account and conversion tools among them, is answered with
    method-not-found, whatever the arguments, and without any external
    call. *)
Theorem exported_tools_outside_the_registry :
  List.length exported_tools = 35%nat /\
  NoDup exported_tools /\
  List.length workingTools = 12%nat /\
  unserved_tools =
    ["get_campaign";
     "list_accessible_customers"; "get_account_hierarchy"; "get_account_info";
     "list_manager_accounts";
     "list_keywords"; "get_keyword_performance";
     "get_top_bottom_keywords"; "get_keyword_opportunities"; "get_campaign_comparison";
     "get_account_performance"; "get_campaign_performance"; "get_ad_group_performance";
     "get_product_performance"; "get_product_partition_performance";
     "get_top_bottom_products";
     "create_responsive_search_ad"; "update_ad"; "get_ad_performance";
     "list_conversion_actions"; "create_conversion_action"; "update_conversion_action";
     "get_conversion_stats"] /\
  (forall name, In name (map td_name workingTools) -> In name exported_tools) /\
  (forall name, In name unserved_tools ->
     forall H T args cl,
       run cl (callTool H T name args) =
         ([], inl (McpError MethodNotFound ("Unknown tool: " ++ name)))).
Proof.
  split; [reflexivity |]. split.
  { unfold exported_tools. simpl.
    repeat (constructor; [simpl; intuition discriminate |]). constructor. }
  split; [reflexivity |]. split; [reflexivity |]. split.
  - intros name Hin. simpl in Hin.
    repeat (destruct Hin as [<- | Hin]; [simpl; tauto |]). contradiction.
  - intros name Hin H T args cl. unfold unserved_tools in Hin.
    apply filter_In in Hin. destruct Hin as [_ Hneg].
    unfold callTool. rewrite switch_unknown; [reflexivity |].
    intros Hreg. apply negb_true_iff in Hneg.
    assert (Hex : existsb (String.eqb name) (map td_name workingTools) = true).
    { apply existsb_exists. exists name. split; [exact Hreg | apply String.eqb_refl]. }
    congruence.
Qed.

(** An instance of X9: get_campaign_comparison is not served. *)
Lemma unserved_witness_campaign_comparison :
  run rejecting_client
      (callTool demo_host (handlers demo_host demo_unmodelled)
         "get_campaign_comparison" (VObj [])) =
    ([], inl (McpError MethodNotFound "Unknown tool: get_campaign_comparison")).
Proof.
  apply (proj2 (proj2 (proj2 (proj2 (proj2 exported_tools_outside_the_registry))))
           "get_campaign_comparison").
  vm_compute. tauto.
Defined.

(** ** More on the handlers *)

Lemma run_caught {A} (cl : ClientBehaviour) (p : Prog A) (prefix : string) :
  run cl (try_catch p (fun error =>
            message <- settle (error_message error) ;;
            Throw (ErrorObj (prefix ++ message)))) =
  match run cl p with
  | (tr, inr a) => (tr, inr a)
  | (tr, inl e) => (tr, inl (rethrown prefix e))
  end.
Proof.
  unfold run. rewrite run_from_try_catch.
  destruct (run_from cl [] p) as [tr [e | a]]; [rewrite catch_throws |];
    reflexivity.
Qed.

Lemma caught_with_prefix {A} (p : Prog A) (prefix : string) :
  throws_only_with_prefix prefix
    (try_catch p (fun error =>
       message <- settle (error_message error) ;;
       Throw (ErrorObj (prefix ++ message)))).
Proof.
  intros cl e. unfold outcome. rewrite run_caught.
  destruct (run cl p) as [tr [e0 | a]]; simpl; [| discriminate].
  intros [= <-]. destruct e0 as [c m | m | [m |] | |]; cbn; eauto.
Qed.

(** X10. create_campaign first creates the budget. When that is
    rejected, or resolves to [null] or [undefined] so that reading its
    [resource_name] throws, the call fails after that one call and no
    campaign is created. Otherwise the second and last
    call creates the campaign with [campaign_budget] set to the
    [resource_name] of the budget just created; when that is rejected the
    rejection is thrown as it is and nothing removes the budget; when it
    answers, the result repeats the budget in currency units as the
    caller gave it. *)
Theorem create_campaign_creates_the_budget_first :
  forall (H : Host) (params : CreateCampaignArgs) (cl : ClientBehaviour),
    let budget := Create campaignBudgets (VObj (createCampaign_budget params)) in
    match on_mutate cl [] budget with
    | inl e => run cl (createCampaign H params) = ([CallMutate budget], inl e)
    | inr budgetResource =>
        match prop budgetResource "resource_name" with
        | inl e => run cl (createCampaign H params) = ([CallMutate budget], inl e)
        | inr resource_name =>
            let campaign :=
              Create campaigns (VObj (createCampaign_campaign params resource_name)) in
            calls cl (createCampaign H params) =
              [CallMutate budget; CallMutate campaign] /\
            match on_mutate cl [CallMutate budget] campaign with
            | inl e => outcome cl (createCampaign H params) = inl e
            | inr created =>
                forall id resourceName,
                  prop created "id" = inr id ->
                  prop created "resource_name" = inr resourceName ->
                  outcome cl (createCampaign H params) =
                    inr (VObj [ ("id", id);
                                ("resourceName", resourceName);
                                ("name", VStr (cc_name params));
                                ("status", VStr (cc_status params));
                                ("budget", VNum (cc_budget params)) ])
            end
        end
    end.
Proof.
  intros H params cl budget. subst budget.
  unfold calls, outcome, createCampaign. rewrite mutate_then_run.
  destruct (on_mutate cl [] _) as [e | budgetResource]; [reflexivity |].
  destruct (prop budgetResource "resource_name") as [e | resource_name];
    cbn [settle bind run_from]; [reflexivity |].
  unfold createCampaign_campaign, mutate. cbn [bind run_from]. simpl app.
  destruct (on_mutate cl _ _) as [e | created]; cbn [settle bind run_from fst snd];
    [split; reflexivity |].
  destruct (prop created "id") as [e | id'];
    cbn [settle bind run_from fst snd].
  - split; [reflexivity |]. intros id resourceName Hid. discriminate Hid.
  - destruct (prop created "resource_name") as [e | rn'];
      cbn [settle bind run_from fst snd];
      (split; [reflexivity |]); intros id resourceName Hid Hrn.
    + discriminate Hrn.
    + injection Hid as <-. injection Hrn as <-. reflexivity.
Qed.

(** An instance of X10: a client whose answers carry no resource name. *)
Lemma create_campaign_witness_two_calls :
  calls empty_client (createCampaign demo_host budget_2_01) =
    [CallMutate (Create campaignBudgets (VObj (createCampaign_budget budget_2_01)));
     CallMutate (Create campaigns
                   (VObj (createCampaign_campaign budget_2_01 VUndefined)))] /\
  forall id resourceName,
    prop (VArr []) "id" = inr id ->
    prop (VArr []) "resource_name" = inr resourceName ->
    outcome empty_client (createCampaign demo_host budget_2_01) =
      inr (VObj [ ("id", id);
                  ("resourceName", resourceName);
                  ("name", VStr (cc_name budget_2_01));
                  ("status", VStr (cc_status budget_2_01));
                  ("budget", VNum (cc_budget budget_2_01)) ]).
Proof.
  exact (create_campaign_creates_the_budget_first demo_host budget_2_01 empty_client).
Defined.

(** X11. An update that names only its target. update_campaign then
    makes no external call at all and reports success; update_keyword
    still sends its update, with a payload that holds the resource name
    alone; update_ad_group still sends its mutate operation, with an
    empty update mask. *)
Theorem updates_without_fields :
  forall (H : Host) (cl : ClientBehaviour),
    (forall campaignId,
       let params := {| uc_campaignId := campaignId; uc_name := None;
                        uc_status := None; uc_budget := None |} in
       run cl (updateCampaign H params) = ([], inr (updateCampaign_result params))) /\
    (forall keywordId adGroupId,
       let params := {| uk_keywordId := keywordId; uk_adGroupId := adGroupId;
                        uk_status := None; uk_cpcBidMicros := None |} in
       calls cl (updateKeyword H params) =
         [CallMutate (Update adGroupCriteria (VObj [
            ("resource_name",
             VStr ("customers/" ++ customer_id H ++ "/adGroupCriteria/"
                   ++ adGroupId ++ "~" ++ keywordId)) ]))]) /\
    (forall adGroupId,
       let args := {| ug_adGroupId := adGroupId; ug_name := None; ug_status := None;
                      ug_cpcBidMicros := None; ug_cpmBidMicros := None;
                      ug_targetCpaMicros := None; ug_targetRoas := None |} in
       calls cl (updateAdGroup H args) =
         [CallMutate (MutateAdGroups [
            ("customer_id", VStr (customer_id H));
            ("operations", VArr [VObj [
               ("update", VObj [
                  ("resource_name",
                   VStr ("customers/" ++ customer_id H ++ "/adGroups/" ++ adGroupId)) ]);
               ("update_mask", VObj [("paths", VArr [])]) ]]) ])]).
Proof.
  intros H cl. split; [| split].
  - intros campaignId params. reflexivity.
  - intros keywordId adGroupId params. rewrite updateKeyword_calls. reflexivity.
  - intros adGroupId args. rewrite updateAdGroup_calls. reflexivity.
Qed.

(** X12. update_campaign with a budget and nothing else looks the
    campaign's budget up. When the lookup finds no row, or the first row
    carries no budget resource, no mutation follows and the call still
    reports success: the budget is left as it was, silently. When it
    finds one, the one mutation that follows updates that budget. *)
Theorem update_campaign_budget_lookup :
  forall (H : Host) (cl : ClientBehaviour) (params : UpdateCampaignArgs)
         (budget : float) (rows : list Row),
    uc_budget params = Some budget ->
    uc_name params = None ->
    uc_status params = None ->
    on_query cl [] (updateCampaign_campaignQuery params) = inr rows ->
    match found_budget rows with
    | None =>
        run cl (updateCampaign H params) =
          ([CallQuery (updateCampaign_campaignQuery params)],
           inr (updateCampaign_result params))
    | Some resource_name =>
        calls cl (updateCampaign H params) =
          [CallQuery (updateCampaign_campaignQuery params);
           CallMutate (Update campaignBudgets
             (VObj (updateCampaign_budgetUpdate resource_name budget)))]
    end.
Proof.
  intros H cl params budget rows Hb Hn Hs Hq.
  unfold calls, run, updateCampaign, updateCampaign_updates, updateCampaign_budget.
  rewrite Hb, Hn, Hs. unfold query, mutate. cbn [bind run_from keys map]. simpl app.
  rewrite Hq. cbn [settle bind run_from].
  destruct rows as [| [c [bud |] g m] rest]; cbn [found_budget bind run_from];
    try reflexivity.
  destruct (truthy (b_resource_name bud)); cbn [bind run_from]; [| reflexivity].
  simpl app. destruct (on_mutate cl _ _) as [e | v];
    cbn [settle bind run_from fst]; reflexivity.
Qed.

(** An instance of X12: a client that finds no campaign. *)
Lemma update_campaign_budget_witness_no_row :
  run empty_client
      (updateCampaign demo_host
         {| uc_campaignId := "42"; uc_name := None; uc_status := None;
            uc_budget := Some 25%float |}) =
    ([CallQuery (updateCampaign_campaignQuery
                   {| uc_campaignId := "42"; uc_name := None; uc_status := None;
                      uc_budget := Some 25%float |})],
     inr (updateCampaign_result
            {| uc_campaignId := "42"; uc_name := None; uc_status := None;
               uc_budget := Some 25%float |})).
Proof.
  apply (update_campaign_budget_lookup demo_host empty_client
           {| uc_campaignId := "42"; uc_name := None; uc_status := None;
              uc_budget := Some 25%float |} 25%float []);
    reflexivity.
Defined.

(** X13. The handlers of ad-groups.ts, analytics.ts, shopping.ts and
    ads.ts, and [getAccountInfo], catch whatever their body throws and
    throw an [Error] whose message starts with their own prefix, with one
    exception: when what they catch is [null] or [undefined], reading its
    [message] throws, and that [TypeError] leaves the handler without a
    prefix. A rejection of the client keeps its [message] on the way,
    also when it is not an [Error]: through the dispatcher a rejected
    get_ad_group query reads
    [Tool execution failed: Failed to get ad group: ] followed by that
    message; after a rejection with [undefined] it reads
    [Tool execution failed: Cannot read properties of undefined (reading 'message')]. *)
Theorem handlers_wrap_what_they_catch :
  forall (H : Host),
    ((forall format args,
        throws_only_with_prefix "Failed to list ad groups: "
          (listAdGroups H format args)) /\
     (forall args,
        throws_only_with_prefix "Failed to create ad group: " (createAdGroup H args)) /\
     (forall args,
        throws_only_with_prefix "Failed to update ad group: " (updateAdGroup H args)) /\
     (forall args,
        throws_only_with_prefix "Failed to get ad group: " (getAdGroup args)) /\
     (forall format args,
        throws_only_with_prefix "Failed to get top/bottom keywords: "
          (getTopBottomKeywords H format args)) /\
     (forall formatSearchTerm formatKeyword args,
        throws_only_with_prefix "Failed to get keyword opportunities: "
          (getKeywordOpportunities H formatSearchTerm formatKeyword args)) /\
     (forall args,
        throws_only_with_prefix "Failed to get campaign comparison: "
          (getCampaignComparison H args)) /\
     (forall format args,
        throws_only_with_prefix "Failed to get top/bottom products: "
          (getTopBottomProducts H format args)) /\
     (forall format args,
        throws_only_with_prefix "Failed to list ads: " (listAds H format args)) /\
     (forall format args,
        throws_only_with_prefix "Failed to get ad performance: "
          (getAdPerformance format args)) /\
     (forall format args,
        throws_only_with_prefix "Failed to get account info: "
          (getAccountInfo format args))) /\
    (forall cl a e,
       on_query cl [] (getAdGroup_query a) = inl e ->
       let message :=
         match e with
         | McpError c m =>
             "Failed to get ad group: MCP error " ++ code_number c ++ ": " ++ m
         | ErrorObj m | OtherObj (Some m) => "Failed to get ad group: " ++ m
         | OtherObj None => "Failed to get ad group: undefined"
         | ThrownNull => "Cannot read properties of null (reading 'message')"
         | ThrownUndefined =>
             "Cannot read properties of undefined (reading 'message')"
         end in
       run cl (getAdGroup a) =
         ([CallQuery (getAdGroup_query a)], inl (ErrorObj message)) /\
       forall U args,
         parse getAdGroupSchema args = Valid a ->
         run cl (callTool H (handlers H U) "get_ad_group" args) =
           ([CallQuery (getAdGroup_query a)],
            inl (McpError InternalError ("Tool execution failed: " ++ message)))).
Proof.
  intros H. split.
  - repeat match goal with |- _ /\ _ => split end;
      intros; apply caught_with_prefix.
  - intros cl a e Hq message.
    assert (Hrun : run cl (getAdGroup a) =
              ([CallQuery (getAdGroup_query a)], inl (ErrorObj message))).
    { unfold getAdGroup. rewrite run_caught. unfold run, query.
      cbn [bind run_from]. rewrite Hq. subst message.
      destruct e as [c m | m | [m |] | |]; reflexivity. }
    split; [exact Hrun |].
    intros U args Hp. rewrite callTool_run.
    change (callTool_switch H (handlers H U) "get_ad_group" args)
      with (tool_case H getAdGroupSchema getAdGroup args).
    rewrite (tool_case_run cl H getAdGroupSchema getAdGroup args a Hp), Hrun.
    reflexivity.
Qed.

(** An instance of X13: a rejection that is not an [Error]. *)
Lemma handlers_wrap_witness_quota :
  run rejecting_client (getAdGroup {| gg_adGroupId := "42" |}) =
    ([CallQuery (getAdGroup_query {| gg_adGroupId := "42" |})],
     inl (ErrorObj ("Failed to get ad group: " ++ "quota exceeded"))) /\
  forall U args,
    parse getAdGroupSchema args = Valid {| gg_adGroupId := "42" |} ->
    run rejecting_client (callTool demo_host (handlers demo_host U) "get_ad_group" args) =
      ([CallQuery (getAdGroup_query {| gg_adGroupId := "42" |})],
       inl (McpError InternalError
              ("Tool execution failed: Failed to get ad group: " ++ "quota exceeded"))).
Proof.
  apply (proj2 (handlers_wrap_what_they_catch demo_host)
           rejecting_client {| gg_adGroupId := "42" |}
           (OtherObj (Some "quota exceeded"))).
  reflexivity.
Defined.

(** ** Resource names *)

Lemma append_assoc (a b c : string) : (a ++ b) ++ c = a ++ b ++ c.
Proof. induction a as [| x a IH]; simpl; [reflexivity | now rewrite IH]. Qed.

Lemma split_none (sep : ascii) (s : string) :
  occurs sep s = false -> split sep s = [s].
Proof.
  induction s as [| c s IH]; simpl; [reflexivity |].
  intros Hc. apply orb_false_iff in Hc. destruct Hc as [Hc Hs].
  rewrite Hc, (IH Hs). reflexivity.
Qed.

Lemma split_after_separator (sep : ascii) (id : string) :
  occurs sep id = false ->
  forall p, exists first others,
    split sep (p ++ String sep id) = first :: others /\
    others <> [] /\ last others EmptyString = id.
Proof.
  intros Hid. induction p as [| c p IH]; simpl.
  - rewrite Ascii.eqb_refl, (split_none sep id Hid).
    exists EmptyString, [id]. repeat split. discriminate.
  - destruct IH as [first [others [Hs [Hne Hl]]]]. rewrite Hs.
    destruct (Ascii.eqb c sep).
    + exists EmptyString, (first :: others). repeat split; [discriminate |].
      destruct others as [| o os]; [now elim Hne | exact Hl].
    + exists (String c first), others. auto.
Qed.

Lemma pop_last_segment (sep : ascii) (p id : string) :
  occurs sep id = false -> pop (split sep (p ++ String sep id)) = VStr id.
Proof.
  intros Hid. destruct (split_after_separator sep id Hid p)
    as [first [others [Hs [Hne Hl]]]].
  rewrite Hs. unfold pop. f_equal.
  destruct others as [| o os]; [now elim Hne | exact Hl].
Qed.

Lemma updateAdGroup_resource_name (H : Host) (args : UpdateAdGroupArgs) :
  get (fst (updateAdGroup_build H args)) "resource_name" =
    VStr ("customers/" ++ customer_id H ++ "/adGroups/" ++ ug_adGroupId args).
Proof.
  destruct args as [gid [n |] [s |] [c1 |] [c2 |] [c3 |] [c4 |]]; reflexivity.
Qed.

(** X14. create_ad_group makes one call, a mutate with one create
    operation. When the client answers with a first result that has a
    resource name, the [adGroupId] reported is the part of that name
    after its last slash. For the resource name of an ad group of this
    customer, [customers/<customer>/adGroups/<id>] with an id free of
    slashes, that part is the id, and update_ad_group on it addresses
    the same resource name. When the answer holds no results, the call
    still reports success, without an id. *)
Theorem create_ad_group_reports_the_last_segment :
  forall (H : Host) (args : CreateAdGroupArgs) (cl : ClientBehaviour),
    calls cl (createAdGroup H args) = [CallMutate (createAdGroup_request H args)] /\
    (forall response result rest r,
       on_mutate cl [] (createAdGroup_request H args) = inr response ->
       prop response "results" = inr (VArr (result :: rest)) ->
       opt_prop result "resource_name" = VStr r ->
       outcome cl (createAdGroup H args) =
         inr (VObj [("success", VBool true);
                    ("adGroupId", pop (split "/" r));
                    ("resourceName", VStr r)])) /\
    (forall response,
       on_mutate cl [] (createAdGroup_request H args) = inr response ->
       prop response "results" = inr VUndefined ->
       outcome cl (createAdGroup H args) =
         inr (VObj [("success", VBool true);
                    ("adGroupId", VUndefined);
                    ("resourceName", VUndefined)])) /\
    (forall id,
       occurs "/" id = false ->
       let r := "customers/" ++ customer_id H ++ "/adGroups/" ++ id in
       pop (split "/" r) = VStr id /\
       forall update,
         ug_adGroupId update = id ->
         get (fst (updateAdGroup_build H update)) "resource_name" = VStr r).
Proof.
  intros H args cl. split; [| split; [| split]].
  - unfold calls, run, createAdGroup, mutate.
    cbn [bind try_catch run_from]. simpl app.
    destruct (on_mutate cl [] _) as [e | response];
      cbn [settle bind try_catch run_from fst]; [rewrite catch_throws; reflexivity |].
    destruct (prop response "results") as [e | results];
      cbn [settle bind try_catch run_from fst]; [rewrite catch_throws; reflexivity |].
    destruct (opt_split_pop _ _ _) as [e | v];
      cbn [settle bind try_catch run_from fst]; rewrite ?catch_throws; reflexivity.
  - intros response result rest r Hm Hres Hr.
    unfold outcome, run, createAdGroup, mutate.
    cbn [bind try_catch run_from]. rewrite Hm.
    cbn [settle bind try_catch run_from]. rewrite Hres.
    cbn [settle bind try_catch run_from opt_first]. rewrite Hr.
    reflexivity.
  - intros response Hm Hres.
    unfold outcome, run, createAdGroup, mutate.
    cbn [bind try_catch run_from]. rewrite Hm.
    cbn [settle bind try_catch run_from]. rewrite Hres.
    reflexivity.
  - intros id Hid r. subst r. split.
    + replace ("customers/" ++ customer_id H ++ "/adGroups/" ++ id)
        with (("customers/" ++ customer_id H ++ "/adGroups") ++ String "/" id)
        by (rewrite !append_assoc; reflexivity).
      apply pop_last_segment. exact Hid.
    + intros update <-. apply updateAdGroup_resource_name.
Qed.

(** An instance of X14: the client answers with ad group 777. *)
Lemma create_ad_group_witness_777 :
  outcome (creating_client "customers/1234567890/adGroups/777")
    (createAdGroup demo_host
       {| cg_campaignId := "42"; cg_name := "Shoes"; cg_status := "ENABLED";
          cg_cpcBidMicros := None; cg_cpmBidMicros := None;
          cg_targetCpaMicros := None; cg_targetRoas := None |}) =
    inr (VObj [("success", VBool true);
               ("adGroupId", VStr "777");
               ("resourceName", VStr "customers/1234567890/adGroups/777")]).
Proof.
  apply (proj1 (proj2 (create_ad_group_reports_the_last_segment demo_host
           {| cg_campaignId := "42"; cg_name := "Shoes"; cg_status := "ENABLED";
              cg_cpcBidMicros := None; cg_cpmBidMicros := None;
              cg_targetCpaMicros := None; cg_targetRoas := None |}
           (creating_client "customers/1234567890/adGroups/777")))
           (VObj [("results",
                   VArr [VObj [("resource_name",
                                VStr "customers/1234567890/adGroups/777")]])])
           (VObj [("resource_name", VStr "customers/1234567890/adGroups/777")])
           [] "customers/1234567890/adGroups/777");
    reflexivity.
Defined.

(** ** Keyword opportunities *)

(** X15. In get_keyword_opportunities a threshold of 0 is no threshold:
    with [maxCostPerConversion] or [minConversionRate] equal to 0 (or any
    falsy number) the handler is the same program as without them, so
    that [maxCostPerConversion: 0] does not ask for conversions that cost
    nothing. A truthy maximum is compared in micros, as the number times
    1,000,000. The second query never depends on the thresholds. *)
Theorem zero_thresholds_are_no_thresholds :
  forall (H : Host) (dateRange : string) (minImpressions c r : float),
    let given := {| ko_dateRange := dateRange; ko_minImpressions := minImpressions;
                    ko_maxCostPerConversion := Some c;
                    ko_minConversionRate := Some r |} in
    let omitted := {| ko_dateRange := dateRange; ko_minImpressions := minImpressions;
                      ko_maxCostPerConversion := None;
                      ko_minConversionRate := None |} in
    (num_truthy c = false -> num_truthy r = false ->
       searchTermsQuery H given = searchTermsQuery H omitted /\
       forall formatSearchTerm formatKeyword,
         getKeywordOpportunities H formatSearchTerm formatKeyword given =
         getKeywordOpportunities H formatSearchTerm formatKeyword omitted) /\
    (num_truthy c = true ->
       maxCostPerConversion_filter H given =
         "AND metrics.cost_per_conversion <= " ++ NumberToString H (c * 1000000)%float) /\
    underperformingQuery H given = underperformingQuery H omitted /\
    num_truthy 0 = false /\
    parse getKeywordOpportunitiesSchema
      (VObj [("maxCostPerConversion", VNum 0); ("minConversionRate", VNum 0)]) =
      Valid {| ko_dateRange := "LAST_30_DAYS"; ko_minImpressions := 100;
               ko_maxCostPerConversion := Some 0%float;
               ko_minConversionRate := Some 0%float |}.
Proof.
  intros H dateRange minImpressions c r given omitted.
  split; [| split; [| split; [| split]]].
  - intros Hc Hr.
    assert (Hq : searchTermsQuery H given = searchTermsQuery H omitted).
    { unfold searchTermsQuery, maxCostPerConversion_filter, minConversionRate_filter.
      subst given omitted. cbn [ko_maxCostPerConversion ko_minConversionRate
        ko_dateRange ko_minImpressions]. rewrite Hc, Hr. reflexivity. }
    split; [exact Hq |]. intros f g. unfold getKeywordOpportunities.
    rewrite Hq. reflexivity.
  - intros Hc. unfold maxCostPerConversion_filter. subst given.
    cbn [ko_maxCostPerConversion]. rewrite Hc. reflexivity.
  - reflexivity.
  - reflexivity.
  - reflexivity.
Qed.

(** An instance of X15: both thresholds 0, over the last thirty days. *)
Lemma zero_thresholds_witness :
  searchTermsQuery demo_host
    {| ko_dateRange := "LAST_30_DAYS"; ko_minImpressions := 100;
       ko_maxCostPerConversion := Some 0%float;
       ko_minConversionRate := Some 0%float |} =
  searchTermsQuery demo_host
    {| ko_dateRange := "LAST_30_DAYS"; ko_minImpressions := 100;
       ko_maxCostPerConversion := None; ko_minConversionRate := None |} /\
  forall formatSearchTerm formatKeyword,
    getKeywordOpportunities demo_host formatSearchTerm formatKeyword
      {| ko_dateRange := "LAST_30_DAYS"; ko_minImpressions := 100;
         ko_maxCostPerConversion := Some 0%float;
         ko_minConversionRate := Some 0%float |} =
    getKeywordOpportunities demo_host formatSearchTerm formatKeyword
      {| ko_dateRange := "LAST_30_DAYS"; ko_minImpressions := 100;
         ko_maxCostPerConversion := None; ko_minConversionRate := None |}.
Proof.
  apply (proj1 (zero_thresholds_are_no_thresholds demo_host "LAST_30_DAYS"
                  100%float 0%float 0%float)); reflexivity.
Defined.

(** ** Metrics of the campaign comparison *)

Lemma num_or_zero_is_number (x : option float) : is_number (num_or_zero x).
Proof.
  unfold is_number, num_or_zero. destruct x as [v |]; [| reflexivity].
  unfold num_truthy. destruct (PrimFloat.is_zero v), (PrimFloat.is_nan v) eqn:E;
    simpl; try reflexivity. exact E.
Qed.

(** X16. Every metric that the campaign comparison reads with [|| 0] is
    a number for every row: never [NaN], also when the client sends
    [NaN], [null] or nothing. The two ratios of an entry are 0 unless
    their denominator is above 0. A row without metrics gives an entry
    whose metrics are all 0, and a response without rows gives totals
    that are all 0. *)
Theorem comparison_metrics_are_numbers :
  forall (H : Host) (row : Row),
    let entry := comparison_entry H row in
    let m := e_metrics entry in
    (is_number (e_dailyBudget entry) /\
     is_number (e_clicks m) /\ is_number (e_impressions m) /\
     is_number (e_cost m) /\ is_number (e_conversions m) /\
     is_number (e_revenue m) /\ is_number (e_ctr m) /\
     is_number (e_conversionRate m) /\
     is_number (e_searchImpressionShare m) /\
     is_number (e_searchRankLostImpressionShare m) /\
     is_number (e_searchBudgetLostImpressionShare m)) /\
    ((0 <? e_conversions m)%float = false -> e_cpa m = 0%float) /\
    ((0 <? e_cost m)%float = false -> e_roas m = 0%float) /\
    (metrics row = None -> m = zero_metrics) /\
    (campaign_budget row = None -> e_dailyBudget entry = 0%float) /\
    comparison_totals [] = zero_totals.
Proof.
  intros H row entry m. subst m entry. unfold comparison_entry.
  cbn [e_metrics e_dailyBudget e_clicks e_impressions e_cost e_conversions
       e_revenue e_ctr e_conversionRate e_cpa e_roas e_searchImpressionShare
       e_searchRankLostImpressionShare e_searchBudgetLostImpressionShare].
  split; [repeat split; apply num_or_zero_is_number |].
  split; [intros Hc; rewrite Hc; reflexivity |].
  split; [intros Hc; rewrite Hc; reflexivity |].
  split; [| split].
  - intros Hm. unfold of_metrics. rewrite Hm. reflexivity.
  - intros Hb. unfold of_budget. rewrite Hb. reflexivity.
  - reflexivity.
Qed.

(** An instance of X16: a row that carries nothing. *)
Lemma comparison_metrics_witness_empty_row :
  e_metrics (comparison_entry demo_host
               {| campaign := None; campaign_budget := None; ad_group := None;
                  metrics := None |}) = zero_metrics.
Proof.
  apply (proj1 (proj2 (proj2 (proj2
           (comparison_metrics_are_numbers demo_host
              {| campaign := None; campaign_budget := None; ad_group := None;
                 metrics := None |}))))).
  reflexivity.
Defined.

(** ** Lookups that find nothing *)

(** X17. The lookups of one resource use the first row only and turn an
    empty answer into a not-found error after their one query:
    [getCampaign] and [getKeywordPerformance] throw an [Error] that names
    the id, unwrapped; [getAccountInfo] throws [Customer not found] and
    [getAdPerformance] throws [Ad not found], each under its own prefix.
    A rejection of the client leaves the first two as it is and the
    other two as their [catch] rethrows it. *)
Theorem lookups_use_the_first_row :
  forall (cl : ClientBehaviour),
    (forall format params,
       match on_query cl [] (getCampaign_query params) with
       | inl e => run cl (getCampaign format params) =
                    ([CallQuery (getCampaign_query params)], inl e)
       | inr [] =>
           run cl (getCampaign format params) =
             ([CallQuery (getCampaign_query params)],
              inl (ErrorObj ("Campaign with ID " ++ gc_campaignId params
                             ++ " not found")))
       | inr (row :: _) =>
           run cl (getCampaign format params) =
             run_from cl [CallQuery (getCampaign_query params)] (format row)
       end) /\
    (forall format params,
       match on_query cl [] (getKeywordPerformance_query params) with
       | inl e => run cl (getKeywordPerformance format params) =
                    ([CallQuery (getKeywordPerformance_query params)], inl e)
       | inr [] =>
           run cl (getKeywordPerformance format params) =
             ([CallQuery (getKeywordPerformance_query params)],
              inl (ErrorObj ("Keyword with ID " ++ kp_keywordId params
                             ++ " not found")))
       | inr (row :: _) =>
           run cl (getKeywordPerformance format params) =
             run_from cl [CallQuery (getKeywordPerformance_query params)] (format row)
       end) /\
    (forall format args,
       run cl (getAccountInfo format args) =
         ([CallQuery (getAccountInfo_query args)],
          match on_query cl [] (getAccountInfo_query args) with
          | inl e => inl (rethrown "Failed to get account info: " e)
          | inr [] => inl (ErrorObj "Failed to get account info: Customer not found")
          | inr (row :: _) => inr (format row)
          end)) /\
    (forall format args,
       run cl (getAdPerformance format args) =
         ([CallQuery (getAdPerformance_query args)],
          match on_query cl [] (getAdPerformance_query args) with
          | inl e => inl (rethrown "Failed to get ad performance: " e)
          | inr [] => inl (ErrorObj "Failed to get ad performance: Ad not found")
          | inr (row :: _) => inr (format (gp_dateRange args) row)
          end)).
Proof.
  intros cl. split; [| split; [| split]]; cycle 3.
  - intros format args. unfold getAdPerformance. rewrite run_caught.
    unfold run, query. cbn [bind run_from]. simpl app.
    destruct (on_query cl [] _) as [e | [| row rest]];
      cbn [settle bind run_from]; reflexivity.
  - intros format params. unfold run, getCampaign, query. cbn [bind run_from].
    simpl app. destruct (on_query cl [] _) as [e | [| row rest]];
      cbn [settle bind run_from]; reflexivity.
  - intros format params. unfold run, getKeywordPerformance, query.
    cbn [bind run_from]. simpl app.
    destruct (on_query cl [] _) as [e | [| row rest]];
      cbn [settle bind run_from]; reflexivity.
  - intros format args. unfold getAccountInfo. rewrite run_caught.
    unfold run, query. cbn [bind run_from]. simpl app.
    destruct (on_query cl [] _) as [e | [| row rest]];
      cbn [settle bind run_from]; reflexivity.
Qed.

(** X18. The performance reports on an empty answer. Without
    [segmentByDate], [getAccountPerformance] and [getCampaignPerformance]
    destructure the first row and read it unguarded: on no rows they
    throw the [TypeError] of reading [customer], or [campaign], of
    [undefined], not a not-found error. With [segmentByDate] they
    succeed: the account report is an empty list and the campaign report
    has no campaign name and an empty [daily]. *)
Theorem performance_reports_on_no_rows :
  forall (cl : ClientBehaviour) (formatDay : Row -> Prog JsVal)
         (formatSummary : string -> Row -> Prog JsVal),
    (forall params,
       on_query cl [] (getAccountPerformance_query params) = inr [] ->
       run cl (getAccountPerformance formatDay formatSummary params) =
         ([CallQuery (getAccountPerformance_query params)],
          if ap_segmentByDate params then inr (VArr [])
          else inl (ErrorObj
                 "Cannot read properties of undefined (reading 'customer')"))) /\
    (forall params,
       on_query cl [] (getCampaignPerformance_query params) = inr [] ->
       run cl (getCampaignPerformance formatDay formatSummary params) =
         ([CallQuery (getCampaignPerformance_query params)],
          if cp_segmentByDate params
          then inr (VObj [("campaignId", VStr (cp_campaignId params));
                          ("campaignName", VUndefined);
                          ("daily", VArr [])])
          else inl (ErrorObj
                 "Cannot read properties of undefined (reading 'campaign')"))).
Proof.
  intros cl formatDay formatSummary. split.
  - intros params Hq. unfold run, getAccountPerformance, query.
    cbn [bind run_from]. rewrite Hq. cbn [settle bind run_from].
    destruct (ap_segmentByDate params); reflexivity.
  - intros params Hq. unfold run, getCampaignPerformance, query.
    cbn [bind run_from]. rewrite Hq. cbn [settle bind run_from].
    destruct (cp_segmentByDate params); reflexivity.
Qed.

(** An instance of X18: the account summary on a client without rows. *)
Lemma performance_witness_account_summary :
  run empty_client
      (getAccountPerformance (fun _ => Ret VNull) (fun _ _ => Ret VNull)
         {| ap_dateRange := "LAST_30_DAYS"; ap_customDateRange := None;
            ap_segmentByDate := false |}) =
    ([CallQuery (getAccountPerformance_query
                   {| ap_dateRange := "LAST_30_DAYS"; ap_customDateRange := None;
                      ap_segmentByDate := false |})],
     inl (ErrorObj "Cannot read properties of undefined (reading 'customer')")).
Proof.
  apply (proj1 (performance_reports_on_no_rows empty_client
                  (fun _ => Ret VNull) (fun _ _ => Ret VNull))
           {| ap_dateRange := "LAST_30_DAYS"; ap_customDateRange := None;
              ap_segmentByDate := false |}).
  reflexivity.
Defined.

(** ** The WHERE clause of the top/bottom queries *)

Lemma prefix_app (s t : string) : String.prefix s (s ++ t) = true.
Proof.
  induction s as [| a s IH]; simpl; [destruct t; reflexivity |].
  destruct (Ascii.ascii_dec a a) as [_ | n]; [exact IH | now elim n].
Qed.

Lemma includes_unfold (s sub : string) :
  includes s sub =
    (String.prefix sub s ||
     match s with
     | EmptyString => false
     | String _ rest => includes rest sub
     end).
Proof. destruct s; reflexivity. Qed.

Lemma includes_prefix (s t : string) : includes (s ++ t) s = true.
Proof. rewrite includes_unfold, prefix_app. reflexivity. Qed.

Lemma includes_app_l (p s sub : string) :
  includes s sub = true -> includes (p ++ s) sub = true.
Proof.
  intros Hs. induction p as [| a p IH]; simpl; [exact Hs |].
  rewrite IH. apply orb_true_r.
Qed.

Lemma includes_middle (a b c : string) : includes (a ++ b ++ c) b = true.
Proof. apply includes_app_l, includes_prefix. Qed.

Lemma concat_last (sep : string) (l : list string) (x : string) :
  exists before, String.concat sep (l ++ [x])%list = before ++ x.
Proof.
  induction l as [| y l IH]; simpl.
  - exists EmptyString. reflexivity.
  - destruct IH as [before Hb]. destruct (l ++ [x])%list eqn:E.
    + destruct l; discriminate.
    + rewrite Hb. exists (y ++ sep ++ before). now rewrite !append_assoc.
Qed.

(** X19. The base query of get_top_bottom_keywords always has a WHERE
    clause, and its last condition leaves removed keywords out whatever
    the arguments are, so the [AND field > 0] of the bottom query
    continues a condition list. The base query of get_top_bottom_products
    has a WHERE clause only for a campaign filter: without one, and for
    every date range of its schema, the text holds no WHERE at all, and
    the bottom query still appends [ AND field > 0] to it. *)
Theorem where_clause_of_the_base_queries :
  (forall args : GetTopBottomKeywordsArgs,
     last (keyword_conditions args) EmptyString =
       "ad_group_criterion.status != 'REMOVED'" /\
     includes (keyword_baseQuery args) " WHERE " = true /\
     includes (keyword_baseQuery args)
       ("ad_group_criterion.status != 'REMOVED'" ++ " DURING " ++ tk_dateRange args)
       = true) /\
  (forall (H : Host) (args : GetTopBottomProductsArgs),
     opt_truthy (tp_campaignId args) = false ->
     In (tp_dateRange args) product_dateRanges ->
     includes (product_baseQuery args) "WHERE" = false /\
     product_bottomQuery H args =
       product_baseQuery args ++ " AND " ++ product_orderByField (tp_metric args)
         ++ " > 0 ORDER BY " ++ product_orderByField (tp_metric args)
         ++ " ASC LIMIT " ++ NumberToString H (tp_bottomCount args)).
Proof.
  split.
  - intros args. unfold keyword_baseQuery, keyword_conditions, push.
    match goal with |- context [(?l ++ ["ad_group_criterion.status != 'REMOVED'"])%list] =>
      set (conditions := l) end.
    split; [apply last_last |].
    destruct (concat_last " AND " conditions "ad_group_criterion.status != 'REMOVED'")
      as [before Hb].
    destruct (conditions ++ ["ad_group_criterion.status != 'REMOVED'"])%list eqn:E;
      [destruct conditions; discriminate |].
    rewrite Hb. split.
    + rewrite !append_assoc. apply includes_middle.
    + rewrite !append_assoc. do 3 apply includes_app_l.
      apply (includes_suffix EmptyString).
  - intros H args Hc Hd. split; [| reflexivity].
    unfold product_baseQuery. rewrite Hc. unfold product_dateRanges in Hd.
    simpl in Hd.
    repeat (destruct Hd as [<- | Hd]; [vm_compute; reflexivity |]).
    contradiction.
Qed.

(** An instance of X19: the products of the last thirty days by clicks. *)
Lemma where_clause_witness_products :
  includes (product_baseQuery
              {| tp_metric := PM_CLICKS; tp_dateRange := "LAST_30_DAYS";
                 tp_topCount := 10; tp_bottomCount := 10; tp_campaignId := None |})
           "WHERE" = false /\
  product_bottomQuery demo_host
    {| tp_metric := PM_CLICKS; tp_dateRange := "LAST_30_DAYS";
       tp_topCount := 10; tp_bottomCount := 10; tp_campaignId := None |} =
  product_baseQuery
    {| tp_metric := PM_CLICKS; tp_dateRange := "LAST_30_DAYS";
       tp_topCount := 10; tp_bottomCount := 10; tp_campaignId := None |}
    ++ " AND " ++ "metrics.clicks" ++ " > 0 ORDER BY " ++ "metrics.clicks"
    ++ " ASC LIMIT " ++ "100".
Proof.
  apply (proj2 where_clause_of_the_base_queries demo_host
           {| tp_metric := PM_CLICKS; tp_dateRange := "LAST_30_DAYS";
              tp_topCount := 10; tp_bottomCount := 10; tp_campaignId := None |}).
  - reflexivity.
  - simpl. tauto.
Defined.

(** ** The configuration *)

(** X20. The configuration loads exactly when the five required
    variables are set to non-empty strings; it then holds their values,
    and [loginCustomerId] is whatever GOOGLE_ADS_LOGIN_CUSTOMER_ID is,
    absent included. Otherwise loading fails with one issue for every
    required variable that is unset or empty, in the order of the
    schema, and for no other key. *)
Theorem config_requires_five_variables :
  forall (env : Env),
    let missing :=
      map fst (filter (fun kv => negb (opt_truthy (snd kv))) (required_variables env)) in
    match googleAdsConfig env with
    | inr config =>
        missing = [] /\
        required_variables env =
          [ ("clientId", Some (clientId config));
            ("clientSecret", Some (clientSecret config));
            ("developerToken", Some (developerToken config));
            ("refreshToken", Some (refreshToken config));
            ("customerId", Some (customerId config)) ] /\
        str_truthy (customerId config) = true /\
        loginCustomerId config = GOOGLE_ADS_LOGIN_CUSTOMER_ID env
    | inl issues =>
        issues <> [] /\ map issue_key issues = missing
    end.
Proof.
  intros [[[| a1 s1] |] [[| a2 s2] |] [[| a3 s3] |] [[| a4 s4] |] [[| a5 s5] |] login];
    cbv zeta; cbn; repeat split; discriminate.
Qed.

(** ** Identifiers in the query text *)

(** X21. Identifiers are neither checked nor escaped: the schemas accept
    every string, and the handlers copy it into the query text as it is.
    The query of get_ad_group and the budget lookup of update_campaign
    are a fixed text, the id, and a fixed text; get_search_terms_report
    appends [ AND campaign.id = ] and the id whenever the id is not
    empty. *)
Theorem identifiers_reach_the_query_verbatim :
  (exists before after,
     forall id,
       parse getAdGroupSchema (VObj [("adGroupId", VStr id)]) =
         Valid {| gg_adGroupId := id |} /\
       getAdGroup_query {| gg_adGroupId := id |} = before ++ id ++ after) /\
  (exists before after,
     forall id budget,
       parse updateCampaignSchema
         (VObj [("campaignId", VStr id); ("budget", VNum budget)]) =
         (if PrimFloat.is_nan budget
          then Invalid [ {| path := [Key "budget"]; code := invalid_type |} ]
          else Valid {| uc_campaignId := id; uc_name := None; uc_status := None;
                        uc_budget := Some budget |}) /\
       forall params,
         uc_campaignId params = id ->
         updateCampaign_campaignQuery params = before ++ id ++ after) /\
  (forall H params id,
     st_campaignId params = Some id ->
     str_truthy id = true ->
     includes (getSearchTermsReport_query H params) (" AND campaign.id = " ++ id)
       = true).
Proof.
  split; [| split].
  - eexists. eexists. intros id. split; [reflexivity |].
    unfold getAdGroup_query. cbn [gg_adGroupId]. reflexivity.
  - eexists. eexists. intros id budget. split.
    + unfold parse, updateCampaignSchema, z_object, field. cbn.
      destruct (PrimFloat.is_nan budget); reflexivity.
    + intros params <-. unfold updateCampaign_campaignQuery. reflexivity.
  - intros H params id Hc Ht. unfold getSearchTermsReport_query.
    rewrite Hc. cbn [opt_truthy template]. rewrite Ht.
    destruct (opt_truthy (st_adGroupId params)).
    + rewrite !append_assoc. do 5 apply includes_app_l.
      rewrite <- (append_assoc " AND campaign.id = " id). apply includes_prefix.
    + rewrite !append_assoc. do 5 apply includes_app_l.
      rewrite <- (append_assoc " AND campaign.id = " id). apply includes_prefix.
Qed.

(** An instance of X21: a campaign id that is not a number. *)
Lemma identifiers_witness_search_terms :
  includes
    (getSearchTermsReport_query demo_host
       {| st_campaignId := Some "1 OR campaign.id > 0"; st_adGroupId := None;
          st_dateRange := "LAST_7_DAYS"; st_customDateRange := None;
          st_limit := 100; st_minImpressions := 10 |})
    (" AND campaign.id = " ++ "1 OR campaign.id > 0") = true.
Proof.
  apply (proj2 (proj2 identifiers_reach_the_query_verbatim) demo_host
           {| st_campaignId := Some "1 OR campaign.id > 0"; st_adGroupId := None;
              st_dateRange := "LAST_7_DAYS"; st_customDateRange := None;
              st_limit := 100; st_minImpressions := 10 |}
           "1 OR campaign.id > 0");
    reflexivity.
Defined.

(** ** Update masks of ads and conversion actions *)

(** X22. Two update operations mask more than the caller supplied.
    [updateAd] always builds the mask [status], also when no status was
    given, in which case the masked value is [undefined].
    [updateConversionAction] masks each top-level field that was supplied
    and no other, but as soon as [valueSettings] is given it masks all
    three value-settings paths and writes all three keys, those the
    caller left out with the value [undefined]. *)
Theorem masks_beyond_the_supplied_fields :
  forall (H : Host),
    (forall args : UpdateAdArgs,
       opt_prop (get (updateAd_operation H args) "update_mask") "paths" =
         VArr [VStr "status"] /\
       opt_prop (get (updateAd_operation H args) "update") "status" =
         opt_str (ud_status args)) /\
    (forall adId adGroupId,
       parse updateAdSchema
         (VObj [("adId", VStr adId); ("adGroupId", VStr adGroupId)]) =
         Valid {| ud_adId := adId; ud_adGroupId := adGroupId; ud_status := None |}) /\
    (forall args : UpdateConversionActionArgs,
       let payload := fst (updateConversionAction_build H args) in
       let mask := snd (updateConversionAction_build H args) in
       get (updateConversionAction_operation H args) "update" = VObj payload /\
       opt_prop (get (updateConversionAction_operation H args) "update_mask") "paths" =
         VArr (map VStr mask) /\
       match ua_valueSettings args with
       | None =>
           mask = supplied_conversion_fields args /\
           payload_fields payload = supplied_conversion_fields args
       | Some valueSettings =>
           mask = (supplied_conversion_fields args ++ value_settings_paths)%list /\
           payload_fields payload =
             (supplied_conversion_fields args ++ ["value_settings"])%list /\
           get payload "value_settings" =
             VObj [("default_value", opt_num (vs_defaultValue valueSettings));
                   ("default_currency_code",
                    opt_str (vs_defaultCurrencyCode valueSettings));
                   ("always_use_default_value",
                    opt_bool (vs_alwaysUseDefaultValue valueSettings))]
       end).
Proof.
  intros H. split; [| split].
  - intros args. split; reflexivity.
  - intros adId adGroupId. reflexivity.
  - intros [id [n |] [s |] [vs |] [c |] [a |] [d1 |] [d2 |]];
      cbv zeta; repeat split.
Qed.

(** ** add_keywords *)

Lemma entry_settles (keywords : list KeywordSpec) (i : nat) (result : JsVal) :
  exists r, addKeywords_entry keywords i result = settle r.
Proof.
  unfold addKeywords_entry.
  destruct (prop result "resource_name") as [e | rn]; cbn [settle bind];
    [exists (inl e); reflexivity |].
  destruct (split_pop _ _ rn) as [e | id]; cbn [settle bind];
    [exists (inl e); reflexivity |].
  destruct (nth_error keywords i) as [k |];
    [eexists (inr _) | eexists (inl _)]; reflexivity.
Qed.

Lemma entries_settle (keywords : list KeywordSpec) (items : list JsVal) :
  forall i, exists r, map_indexed (addKeywords_entry keywords) i items = settle r.
Proof.
  induction items as [| item rest IH]; intros i; cbn [map_indexed].
  - exists (inr []). reflexivity.
  - destruct (entry_settles keywords i item) as [[e | y] ->]; cbn [settle bind].
    + exists (inl e). reflexivity.
    + destruct (IH (S i)) as [[e | ys] ->]; cbn [settle bind].
      * exists (inl e). reflexivity.
      * exists (inr (y :: ys)). reflexivity.
Qed.

Lemma entries_paired (keywords : list KeywordSpec) :
  forall items names i,
    Forall2 named items names ->
    (i + List.length items <= List.length keywords)%nat ->
    map_indexed (addKeywords_entry keywords) i items =
      Ret (map (fun nk => keyword_entry (fst nk) (snd nk))
               (combine names (skipn i keywords))).
Proof.
  induction items as [| item rest IH]; intros names i Hn Hlen;
    inversion Hn as [| ? name ? names' Hitem Hrest]; subst; cbn [map_indexed].
  - reflexivity.
  - unfold addKeywords_entry at 1. unfold named in Hitem. rewrite Hitem.
    cbn [settle bind split_pop]. simpl List.length in Hlen.
    destruct (nth_error keywords i) as [k |] eqn:Ek.
    + cbn [bind]. rewrite (IH names' (S i) Hrest) by lia. cbn [bind].
      assert (Hs : skipn i keywords = k :: skipn (S i) keywords).
      { clear - Ek. revert keywords Ek.
        induction i as [| i IHi]; intros [| k0 ks] Ek; try discriminate.
        - injection Ek as ->. reflexivity.
        - simpl in Ek. simpl. apply IHi. exact Ek. }
      rewrite Hs. reflexivity.
    + apply nth_error_None in Ek. lia.
Qed.

Lemma entries_overrun (keywords : list KeywordSpec) :
  forall items names i,
    Forall2 named items names ->
    (i <= List.length keywords)%nat ->
    (List.length keywords < i + List.length items)%nat ->
    map_indexed (addKeywords_entry keywords) i items =
      Throw (type_error "undefined" "text").
Proof.
  induction items as [| item rest IH]; intros names i Hn Hi Hlen;
    inversion Hn as [| ? name ? names' Hitem Hrest]; subst; cbn [map_indexed].
  - simpl in Hlen. lia.
  - unfold addKeywords_entry at 1. unfold named in Hitem. rewrite Hitem.
    cbn [settle bind split_pop]. simpl List.length in Hlen.
    destruct (nth_error keywords i) as [k |] eqn:Ek.
    + cbn [bind].
      assert (Hlt : (i < List.length keywords)%nat)
        by (apply nth_error_Some; congruence).
      rewrite (IH names' (S i) Hrest) by lia. reflexivity.
    + reflexivity.
Qed.

Lemma array_length (items : list JsVal) :
  prop (VArr items) "length" = inr (VNum (Js.of_nat (List.length items))).
Proof. reflexivity. Qed.

(** X23. add_keywords sends all keywords in one call, one create
    operation for each and in their order, whatever happens afterwards.
    When the client answers with a list of results that carry resource
    names, the handler pairs the results with the keywords by position:
    entry [i] has the last path segment of result [i] as id and the text
    and match type of keyword [i], and [addedKeywords] is the number of
    results. When there are more results than keywords, the call throws
    the [TypeError] of reading [text] of [undefined], after the keywords
    were created. *)
Theorem add_keywords_pairs_results_by_position :
  forall (H : Host) (params : AddKeywordsArgs) (cl : ClientBehaviour),
    calls cl (addKeywords H params) = [CallMutate (addKeywords_request H params)] /\
    (forall items names,
       on_mutate cl [] (addKeywords_request H params) = inr (VArr items) ->
       Forall2 named items names ->
       ((List.length items <= List.length (ak_keywords params))%nat ->
        outcome cl (addKeywords H params) =
          inr (VObj [("success", VBool true);
                     ("addedKeywords", VNum (Js.of_nat (List.length items)));
                     ("keywords",
                      VArr (map (fun nk => keyword_entry (fst nk) (snd nk))
                                (combine names (ak_keywords params))))])) /\
       ((List.length (ak_keywords params) < List.length items)%nat ->
        outcome cl (addKeywords H params) =
          inl (ErrorObj "Cannot read properties of undefined (reading 'text')"))).
Proof.
  intros H params cl. split.
  - unfold calls, addKeywords. rewrite mutate_then_run.
    destruct (on_mutate cl [] _) as [e | results]; [reflexivity |].
    destruct (prop results "length") as [e | n]; cbn [settle bind run_from fst];
      [reflexivity |].
    destruct results; cbn [bind run_from fst]; try reflexivity.
    destruct (entries_settle (ak_keywords params) items 0) as [[e | ys] ->];
      reflexivity.
  - intros items names Hm Hn. unfold outcome, addKeywords.
    rewrite mutate_then_run, Hm, array_length. cbn [settle bind]. split.
    + intros Hlen.
      rewrite (entries_paired (ak_keywords params) items names 0 Hn) by (simpl; lia).
      reflexivity.
    + intros Hlen.
      rewrite (entries_overrun (ak_keywords params) items names 0 Hn) by (simpl; lia).
      reflexivity.
Qed.

(** An instance of X23: two keywords and a client that answers with two
    results. *)
Lemma add_keywords_witness_two :
  outcome two_results_client (addKeywords demo_host two_keywords) =
    inr (VObj [("success", VBool true);
               ("addedKeywords", VNum 2);
               ("keywords",
                VArr [VObj [("id", VStr "456~11"); ("text", VStr "shoes");
                            ("matchType", VStr "EXACT")];
                      VObj [("id", VStr "456~12"); ("text", VStr "boots");
                            ("matchType", VStr "BROAD")]])]).
Proof.
  apply (proj2 (add_keywords_pairs_results_by_position demo_host
                  two_keywords two_results_client)
           two_results
           ["customers/1/adGroupCriteria/456~11";
            "customers/1/adGroupCriteria/456~12"]).
  - reflexivity.
  - repeat constructor.
  - simpl. lia.
Defined.

(** ** Empty identifiers *)

(** X24. The schemas accept the empty string as an id, and the handlers
    test ids for truthiness: an empty [campaignId] or [adGroupId] is no
    filter. list_ad_groups, list_ads and get_search_terms_report are then
    the same programs as without the id, and so are the base queries of
    the two top/bottom tools: with [campaignId] empty, list_ad_groups
    lists the ad groups of every campaign. *)
Theorem empty_identifiers_are_no_filters :
  forall (H : Host),
    (forall format limit includeRemoved,
       listAdGroups H format
         {| lg_campaignId := Some EmptyString; lg_limit := limit;
            lg_includeRemoved := includeRemoved |} =
       listAdGroups H format
         {| lg_campaignId := None; lg_limit := limit;
            lg_includeRemoved := includeRemoved |}) /\
    (forall format limit includeRemoved,
       listAds H format
         {| la_adGroupId := Some EmptyString; la_campaignId := Some EmptyString;
            la_limit := limit; la_includeRemoved := includeRemoved |} =
       listAds H format
         {| la_adGroupId := None; la_campaignId := None;
            la_limit := limit; la_includeRemoved := includeRemoved |}) /\
    (forall format dateRange customDateRange limit minImpressions,
       getSearchTermsReport H format
         {| st_campaignId := Some EmptyString; st_adGroupId := Some EmptyString;
            st_dateRange := dateRange; st_customDateRange := customDateRange;
            st_limit := limit; st_minImpressions := minImpressions |} =
       getSearchTermsReport H format
         {| st_campaignId := None; st_adGroupId := None;
            st_dateRange := dateRange; st_customDateRange := customDateRange;
            st_limit := limit; st_minImpressions := minImpressions |}) /\
    (forall metric dateRange topCount bottomCount includeNegative,
       keyword_baseQuery
         {| tk_metric := metric; tk_dateRange := dateRange; tk_topCount := topCount;
            tk_bottomCount := bottomCount; tk_campaignId := Some EmptyString;
            tk_adGroupId := Some EmptyString; tk_includeNegative := includeNegative |} =
       keyword_baseQuery
         {| tk_metric := metric; tk_dateRange := dateRange; tk_topCount := topCount;
            tk_bottomCount := bottomCount; tk_campaignId := None;
            tk_adGroupId := None; tk_includeNegative := includeNegative |}) /\
    (forall metric dateRange topCount bottomCount,
       product_baseQuery
         {| tp_metric := metric; tp_dateRange := dateRange; tp_topCount := topCount;
            tp_bottomCount := bottomCount; tp_campaignId := Some EmptyString |} =
       product_baseQuery
         {| tp_metric := metric; tp_dateRange := dateRange; tp_topCount := topCount;
            tp_bottomCount := bottomCount; tp_campaignId := None |}) /\
    parse listAdGroupsSchema (VObj [("campaignId", VStr EmptyString)]) =
      Valid {| lg_campaignId := Some EmptyString; lg_limit := 100;
               lg_includeRemoved := false |}.
Proof.
  intros H. repeat split.
Qed.

(** ** Binary64 rounding of an exactly representable quotient *)

Section Quotient.
Local Open Scope Z_scope.

Lemma digits_below (p : positive) : Zpos p < 2 ^ Zpos (digits2_pos p).
Proof.
  induction p as [p IH | p IH |]; cbn [digits2_pos].
  - rewrite Pos2Z.inj_succ, Z.pow_succ_r by lia. lia.
  - rewrite Pos2Z.inj_succ, Z.pow_succ_r by lia. lia.
  - reflexivity.
Qed.

(** What [integer_value] says about the mantissa of a number that is a
    whole number of millions. *)
Lemma whole_units (s : bool) (mx : positive) (ex k : Z) :
  exact_integer (S754_finite s mx ex) 1 = Some (k * 1000000) ->
  exists K : positive,
    k = cond_Zopp s (Zpos K) /\
    forall t, 0 <= t -> 0 <= ex + t ->
      Zpos mx * 2 ^ (ex + t) = Zpos K * 1000000 * 2 ^ t.
Proof.
  unfold exact_integer. rewrite Z.mul_1_r. intros Hn.
  destruct (0 <=? ex) eqn:E.
  - apply Z.leb_le in E.
    assert (Hn' : cond_Zopp s (Zpos mx * 2 ^ ex) = k * 1000000) by congruence.
    clear Hn.
    assert (Hpow : 0 < 2 ^ ex) by (apply Z.pow_pos_nonneg; lia).
    assert (Hpos : 0 < Zpos mx * 2 ^ ex) by (apply Z.mul_pos_pos; lia).
    exists (Z.to_pos (Z.abs k)).
    assert (Hk : Zpos mx * 2 ^ ex = Z.abs k * 1000000).
    { destruct s; cbn [cond_Zopp] in Hn'; lia. }
    assert (Hkpos : 0 < Z.abs k) by lia.
    rewrite Z2Pos.id by exact Hkpos. split.
    + destruct s; cbn [cond_Zopp] in *; lia.
    + intros t Ht _. rewrite Z.pow_add_r by lia. rewrite Z.mul_assoc, Hk. reflexivity.
  - apply Z.leb_gt in E.
    destruct (Zpos mx mod 2 ^ (- ex) =? 0) eqn:Em; [| discriminate].
    apply Z.eqb_eq in Em.
    assert (Hn' : cond_Zopp s (Zpos mx / 2 ^ (- ex)) = k * 1000000) by congruence.
    clear Hn.
    assert (Hpow : 0 < 2 ^ (- ex)) by (apply Z.pow_pos_nonneg; lia).
    assert (Hq : Zpos mx = 2 ^ (- ex) * (Zpos mx / 2 ^ (- ex)))
      by (apply Z.div_exact; lia).
    set (q := Zpos mx / 2 ^ (- ex)) in *.
    assert (Hqpos : 0 < q) by nia.
    exists (Z.to_pos (Z.abs k)).
    assert (Hk : q = Z.abs k * 1000000).
    { destruct s; cbn [cond_Zopp] in Hn'; lia. }
    assert (Hkpos : 0 < Z.abs k) by lia.
    rewrite Z2Pos.id by exact Hkpos. split.
    + destruct s; cbn [cond_Zopp] in *; lia.
    + intros t Ht Hext. rewrite <- Hk, Hq.
      replace t with (- ex + (ex + t)) at 2 by lia.
      rewrite (Z.pow_add_r 2 (- ex) (ex + t)) by lia. ring.
Qed.

Lemma div_eucl_exact (q m : Z) : 0 < m -> Z.div_eucl (q * m) m = (q, 0).
Proof.
  intros Hm.
  pose proof (Z.div_mul q m ltac:(lia)) as Hq.
  pose proof (Z.mod_mul q m ltac:(lia)) as Hr.
  unfold Z.div, Z.modulo in Hq, Hr.
  destruct (Z.div_eucl (q * m) m) as [q' r']. subst. reflexivity.
Qed.

(** The division of [K * 1,000,000], held as [mx * 2^ex], by
    1,000,000 = 8589934592000000 * 2^-33 leaves no remainder. *)
Lemma div_core_exact (mx K : positive) (ex : Z) :
  (forall t, 0 <= t -> 0 <= ex + t ->
     Zpos mx * 2 ^ (ex + t) = Zpos K * 1000000 * 2 ^ t) ->
  Zpos (digits2_pos mx) <= 53 ->
  20 <= Zpos (digits2_pos mx) + ex <= 73 ->
  SFdiv_core_binary prec emax (Zpos mx) ex 8589934592000000 (-33) =
    (Zpos K * 2 ^ (73 - (Zpos (digits2_pos mx) + ex)),
     Zpos (digits2_pos mx) + ex - 73, loc_Exact).
Proof.
  intros Hrel Hd1 HD. unfold SFdiv_core_binary.
  change (Zdigits2 8589934592000000) with 53. cbn [Zdigits2].
  set (d1 := Zpos (digits2_pos mx)) in *.
  assert (He : Z.min (fexp prec emax (d1 + ex - (53 + -33))) (ex - -33) =
               d1 + ex - 73).
  { rewrite fexp_small by lia. lia. }
  rewrite He.
  destruct (ex - -33 - (d1 + ex - 73)) as [| sp | sp] eqn:Es; try lia.
  rewrite <- Es, Z.shiftl_mul_pow2 by lia.
  replace (ex - -33 - (d1 + ex - 73)) with (ex + (106 - (d1 + ex))) by lia.
  rewrite Hrel by lia.
  replace (Zpos K * 1000000 * 2 ^ (106 - (d1 + ex)))
    with (Zpos K * 2 ^ (73 - (d1 + ex)) * 8589934592000000).
  - rewrite div_eucl_exact by lia. reflexivity.
  - replace (106 - (d1 + ex)) with (73 - (d1 + ex) + 33) by lia.
    rewrite Z.pow_add_r by lia. change (2 ^ 33) with 8589934592. ring.
Qed.

(** The binary64 quotient by 1,000,000 of a whole number of millions is
    exact. *)
Lemma div_million_exact (x : float) (k : Z) :
  integer_value x = Some (k * 1000000) ->
  Z.abs k < 2 ^ 53 ->
  integer_value (x / 1000000)%float = Some k.
Proof.
  unfold integer_value. intros Hn Hb. rewrite div_spec.
  change (Prim2SF 1000000%float) with (S754_finite false 8589934592000000 (-33)).
  pose proof (Prim2SF_valid x) as Hv.
  destruct (Prim2SF x) as [s | s | | s mx ex]; try discriminate.
  - cbn in Hn. assert (k = 0) by (injection Hn; lia). subst k. reflexivity.
  - destruct (whole_units s mx ex k Hn) as (K & -> & Hrel).
    assert (HK : Zpos K < 2 ^ 53) by (destruct s; cbn [cond_Zopp] in Hb; lia).
    cbn [valid_binary] in Hv. unfold bounded, canonical_mantissa in Hv.
    apply andb_true_iff in Hv. destruct Hv as [Hcan _].
    apply Z.eqb_eq in Hcan.
    set (d1 := Zpos (digits2_pos mx)) in *.
    assert (Hd1 : d1 <= 53).
    { unfold fexp, SpecFloat.emin, prec, emax in Hcan. lia. }
    (* the digits of the value *)
    set (t0 := Z.max 0 (- ex)).
    pose proof (Hrel t0 ltac:(lia) ltac:(lia)) as Hval.
    assert (HD : d1 + ex = Zdigits2 (Zpos (K * 1000000))).
    { assert (Hl : Zdigits2 (Zpos mx * 2 ^ (ex + t0)) = d1 + (ex + t0)).
      { replace (ex + t0) with (Z.of_nat (Z.to_nat (ex + t0)))
          by (rewrite Z2Nat.id; lia).
        rewrite digits_shift. reflexivity. }
      assert (Hr : Zdigits2 (Zpos K * 1000000 * 2 ^ t0) =
                   Zdigits2 (Zpos (K * 1000000)) + t0).
      { replace t0 with (Z.of_nat (Z.to_nat t0)) by (rewrite Z2Nat.id; lia).
        rewrite <- digits_shift, Pos2Z.inj_mul. reflexivity. }
      rewrite Hval in Hl. lia. }
    pose proof (digits_below K) as HKd.
    pose proof (digits_upper K 53 HK) as HdK.
    pose proof (Pos2Z.is_pos (digits2_pos K)) as HdK0.
    set (dK := Zpos (digits2_pos K)) in *.
    assert (Hlow : 19 < Zdigits2 (Zpos (K * 1000000))).
    { apply (digits_lower (K * 1000000) 19). rewrite Pos2Z.inj_mul.
      change (2 ^ Z.of_nat 19) with 524288. lia. }
    assert (Hup : Zdigits2 (Zpos (K * 1000000)) <= dK + 20).
    { replace (dK + 20) with (Z.of_nat (Z.to_nat (dK + 20)))
        by (rewrite Z2Nat.id; lia).
      apply digits_upper. rewrite Z2Nat.id by lia. rewrite Pos2Z.inj_mul.
      rewrite Z.pow_add_r by lia. change (2 ^ 20) with 1048576.
      assert (0 < 2 ^ dK) by (apply Z.pow_pos_nonneg; lia). nia. }
    unfold SF64div, SFdiv.
    rewrite (div_core_exact mx K ex Hrel Hd1) by (fold d1; lia).
    fold d1.
    set (i := Z.to_nat (53 - dK)).
    set (j := (Z.to_nat (73 - (d1 + ex)) - i)%nat).
    assert (Hd : Zdigits2 (Zpos K) = 53 - Z.of_nat i).
    { cbn [Zdigits2]. fold dK. subst i. rewrite Z2Nat.id; lia. }
    assert (Hij : 73 - (d1 + ex) = Z.of_nat (i + j)) by (subst i j; lia).
    replace (d1 + ex - 73) with (- Z.of_nat (i + j)) by lia.
    rewrite Hij, (round_exact _ K i j Hd), xorb_false_r.
    apply exact_integer_rounded.
Qed.

Lemma integer_scaled (b : float) (k : Z) :
  integer_value b = Some k -> scaled_exactly b = Some (k * 1000000).
Proof.
  unfold integer_value, scaled_exactly, exact_integer.
  destruct (Prim2SF b) as [s | s | | s mx ex]; try discriminate.
  - intros [= <-]. reflexivity.
  - rewrite Z.mul_1_r. destruct (0 <=? ex) eqn:E.
    + intros Hk.
      assert (Hk' : k = cond_Zopp s (Zpos mx * 2 ^ ex)) by congruence.
      clear Hk. subst k. f_equal. destruct s; cbn [cond_Zopp]; ring.
    + apply Z.leb_gt in E.
      assert (Hpow : 0 < 2 ^ (- ex)) by (apply Z.pow_pos_nonneg; lia).
      destruct (Zpos mx mod 2 ^ (- ex) =? 0) eqn:Em; [| discriminate].
      apply Z.eqb_eq in Em. intros Hk.
      assert (Hk' : k = cond_Zopp s (Zpos mx / 2 ^ (- ex))) by congruence.
      clear Hk. subst k.
      assert (Hq : Zpos mx = 2 ^ (- ex) * (Zpos mx / 2 ^ (- ex)))
        by (apply Z.div_exact; lia).
      set (q := Zpos mx / 2 ^ (- ex)) in *.
      replace (Zpos mx * 1000000) with (q * 1000000 * 2 ^ (- ex))
        by (transitivity (2 ^ (- ex) * q * 1000000);
            [ring | rewrite <- Hq; reflexivity]).
      rewrite Z.mod_mul, Z.div_mul by lia. cbn [Z.eqb].
      f_equal. destruct s; cbn [cond_Zopp]; ring.
Qed.

End Quotient.

(** X25. Whole currency units survive the conversions. For a micros
    number that is a whole number of millions, [microsToNumber] returns
    exactly that many units: the binary64 quotient is not rounded. A
    whole budget [b] whose micros stay below 2^53 therefore reads back as
    [b] from the [amount_micros] that create_campaign writes for it. *)
Theorem whole_units_convert_exactly :
  forall (H : Host),
    (forall (x : float) (k : Z),
       integer_value x = Some (k * 1000000)%Z ->
       (Z.abs k < 2 ^ 53)%Z ->
       exists y,
         microsToNumber H (MicrosNumber x) = Some y /\ integer_value y = Some k) /\
    (forall (params : CreateCampaignArgs) (k : Z),
       integer_value (cc_budget params) = Some k ->
       (Z.abs (k * 1000000) < 2 ^ 53)%Z ->
       exists written y,
         get (createCampaign_budget params) "amount_micros" = VNum written /\
         integer_value written = Some (k * 1000000)%Z /\
         microsToNumber H (MicrosNumber written) = Some y /\
         integer_value y = Some k).
Proof.
  intros H. split.
  - intros x k Hx Hk. exists (x / 1000000)%float. split; [reflexivity |].
    apply div_million_exact; assumption.
  - intros params k Hb Hk.
    exists (cc_budget params * 1000000)%float.
    exists (cc_budget params * 1000000 / 1000000)%float.
    assert (Hw : integer_value (cc_budget params * 1000000)%float
                 = Some (k * 1000000)%Z).
    { apply mul_million_exact; [apply integer_scaled; exact Hb | exact Hk]. }
    split; [reflexivity |]. split; [exact Hw |]. split; [reflexivity |].
    apply div_million_exact; [exact Hw | lia].
Qed.

(** An instance of X25: 25,000,000 micros are 25 units. *)
Lemma whole_units_witness_25 :
  exists y,
    microsToNumber demo_host (MicrosNumber 25000000) = Some y /\
    integer_value y = Some 25%Z.
Proof.
  apply (proj1 (whole_units_convert_exactly demo_host) 25000000%float 25%Z).
  - vm_compute. reflexivity.
  - reflexivity.
Defined.

(** ** The roas of a product *)

Lemma quotient_by_zero (x : float) : not_finite (x / 0)%float = true.
Proof.
  unfold not_finite. rewrite div_spec.
  change (Prim2SF 0%float) with (S754_zero false).
  destruct (Prim2SF x) as [s | s | | s m e]; reflexivity.
Qed.

(** X26. The shopping reports guard the roas of a row by truthiness of
    the two micros values. For numbers this takes the ratio only over a
    denominator that is neither 0 nor [NaN], and gives 0 otherwise. For
    strings it does not guard: a cost of the string [0] is truthy, so
    with any non-empty revenue string the roas is a quotient by zero,
    [Infinity] or [NaN] and never the 0 intended, whereas the campaign
    comparison, which tests [cost > 0], reports roas 0 for the same
    row. *)
Theorem product_roas_guard :
  forall (H : Host),
    (forall row m revenue cost,
       metrics row = Some m ->
       m_conversions_value m = MicrosNumber revenue ->
       m_cost_micros m = MicrosNumber cost ->
       product_roas H row =
         (if num_truthy revenue && num_truthy cost then (revenue / cost)%float
          else 0%float) /\
       (num_truthy cost = true ->
        PrimFloat.is_zero cost = false /\ PrimFloat.is_nan cost = false)) /\
    (forall row, metrics row = None -> product_roas H row = 0%float) /\
    (forall revenue,
       StringToNumber H "0" = 0%float ->
       str_truthy revenue = true ->
       let row := string_metrics "0" revenue in
       product_roas H row = (StringToNumber H revenue / 0)%float /\
       not_finite (product_roas H row) = true /\
       e_roas (e_metrics (comparison_entry H row)) = 0%float).
Proof.
  intros H. split; [| split].
  - intros row m revenue cost Hm Hr Hc. split.
    + unfold product_roas, of_metrics. rewrite Hm, Hr, Hc. reflexivity.
    + unfold num_truthy. intros Ht. apply negb_true_iff, orb_false_iff in Ht.
      exact Ht.
  - intros row Hm. unfold product_roas, of_metrics. rewrite Hm. reflexivity.
  - intros revenue H0 Hr row.
    assert (Hp : product_roas H row = (StringToNumber H revenue / 0)%float).
    { unfold product_roas, row, string_metrics, of_metrics.
      cbn [metrics m_conversions_value m_cost_micros micros_truthy Number].
      rewrite Hr, H0. reflexivity. }
    split; [exact Hp |]. split; [rewrite Hp; apply quotient_by_zero |].
    unfold comparison_entry, row, string_metrics, of_metrics.
    cbn [metrics m_cost_micros m_conversions_value m_conversions e_metrics e_roas
         microsToNumber Number].
    rewrite H0.
    replace (num_or_zero (Some (0 / 1000000)%float)) with 0%float
      by (vm_compute; reflexivity).
    reflexivity.
Qed.

(** An instance of X26: revenue 5000000 over a cost of [0], both strings. *)
Lemma product_roas_witness_string_zero :
  let row := string_metrics "0" "5000000" in
  product_roas reading_host row = (StringToNumber reading_host "5000000" / 0)%float /\
  not_finite (product_roas reading_host row) = true /\
  e_roas (e_metrics (comparison_entry reading_host row)) = 0%float.
Proof.
  apply (proj2 (proj2 (product_roas_guard reading_host)) "5000000");
    reflexivity.
Defined.

(** ** A custom date range next to another date range *)

(** X27. [customDateRange] counts only next to [dateRange] CUSTOM. With
    any other date range, list_campaigns and get_search_terms_report are
    the same programs as without the custom range, which is dropped
    without an error; [getAccountPerformance] accepts one in its schema
    and never reads it. As the date range defaults to LAST_7_DAYS, a call
    of get_search_terms_report with a custom range alone reports the
    last seven days. *)
Theorem custom_range_needs_custom_date_range :
  forall (dateRange : string) (range : CustomDateRange),
    dateRange <> "CUSTOM" ->
    (forall H format limit includeRemoved,
       listCampaigns H format
         {| lc_limit := limit; lc_includeRemoved := includeRemoved;
            lc_dateRange := dateRange; lc_customDateRange := Some range |} =
       listCampaigns H format
         {| lc_limit := limit; lc_includeRemoved := includeRemoved;
            lc_dateRange := dateRange; lc_customDateRange := None |}) /\
    (forall H format campaignId adGroupId limit minImpressions,
       getSearchTermsReport H format
         {| st_campaignId := campaignId; st_adGroupId := adGroupId;
            st_dateRange := dateRange; st_customDateRange := Some range;
            st_limit := limit; st_minImpressions := minImpressions |} =
       getSearchTermsReport H format
         {| st_campaignId := campaignId; st_adGroupId := adGroupId;
            st_dateRange := dateRange; st_customDateRange := None;
            st_limit := limit; st_minImpressions := minImpressions |}) /\
    (forall formatDay formatSummary anyRange segmentByDate,
       getAccountPerformance formatDay formatSummary
         {| ap_dateRange := anyRange; ap_customDateRange := Some range;
            ap_segmentByDate := segmentByDate |} =
       getAccountPerformance formatDay formatSummary
         {| ap_dateRange := anyRange; ap_customDateRange := None;
            ap_segmentByDate := segmentByDate |}) /\
    parse getSearchTermsReportSchema
      (VObj [("customDateRange",
              VObj [("startDate", VStr (startDate range));
                    ("endDate", VStr (endDate range))])]) =
      Valid {| st_campaignId := None; st_adGroupId := None;
               st_dateRange := "LAST_7_DAYS";
               st_customDateRange :=
                 Some {| startDate := startDate range; endDate := endDate range |};
               st_limit := 100; st_minImpressions := 10 |}.
Proof.
  intros dateRange range Hd.
  assert (Hc : String.eqb dateRange "CUSTOM" = false)
    by (apply String.eqb_neq; exact Hd).
  split; [| split; [| split]].
  - intros H format limit includeRemoved.
    unfold listCampaigns, listCampaigns_query, listCampaigns_where.
    cbn [lc_limit lc_includeRemoved lc_dateRange lc_customDateRange].
    rewrite Hc. reflexivity.
  - intros H format campaignId adGroupId limit minImpressions.
    unfold getSearchTermsReport, getSearchTermsReport_query,
      getSearchTermsReport_dateClause.
    cbn [st_campaignId st_adGroupId st_dateRange st_customDateRange st_limit
         st_minImpressions].
    rewrite Hc. reflexivity.
  - intros formatDay formatSummary anyRange segmentByDate. reflexivity.
  - reflexivity.
Qed.

(** An instance of X27: March next to the last thirty days. *)
Lemma custom_range_witness_last_30_days :
  "LAST_30_DAYS" <> "CUSTOM" /\
  getSearchTermsReport demo_host (fun _ => Ret VNull)
    {| st_campaignId := None; st_adGroupId := None;
       st_dateRange := "LAST_30_DAYS";
       st_customDateRange :=
         Some {| startDate := "2024-03-01"; endDate := "2024-03-31" |};
       st_limit := 100; st_minImpressions := 10 |} =
  getSearchTermsReport demo_host (fun _ => Ret VNull)
    {| st_campaignId := None; st_adGroupId := None;
       st_dateRange := "LAST_30_DAYS"; st_customDateRange := None;
       st_limit := 100; st_minImpressions := 10 |}.
Proof.
  split; [discriminate |].
  apply (proj1 (proj2 (custom_range_needs_custom_date_range "LAST_30_DAYS"
                  {| startDate := "2024-03-01"; endDate := "2024-03-31" |}
                  ltac:(discriminate)))).
Defined.
